(** * Boston Housing - XGBoost (Deploy) - High Level: a shallow embedding

    The repository is one notebook,
    [Tutorials/Boston Housing - XGBoost (Deploy) - High Level.ipynb].
    Its code cells are embedded here, cell by cell, as computations in a
    state-and-exception monad over a [world]: the local file system, the
    object store, the hosted endpoints, the random generator and the log of
    library calls.

    The notebook only calls libraries (sklearn, pandas, os, sagemaker, numpy,
    matplotlib).  Their answers that depend on data held outside the notebook
    (the housing table, the shuffles drawn by the random generator, the
    platform's names and the endpoint's replies) are collected in the record
    [platform].  What the libraries compute from the notebook's own values is
    written out: the sizes and index sets of [train_test_split], the label
    alignment of [pd.concat], the lines written by [to_csv], the guard and the
    recursion of [os.makedirs], the bookkeeping of uploads, jobs and
    endpoints.  Calls to the cloud platform are modelled on their successful
    return. *)

From Stdlib Require Import ZArith QArith Qround Floats.
From stdpp Require Import gmap strings list fin_maps pretty.

Local Open Scope string_scope.
Local Open Scope list_scope.

(** ** Exceptions and the notebook monad *)

Inductive exn : Type :=
  | ValueError
  | IndexError
  | NameError
  | FileExistsError
  | FileNotFoundError
  | NotADirectoryError
  | IsADirectoryError
  | UnicodeDecodeError
  | ClientError
  | OSError.

(** [isinstance(e, OSError)]: [OSError] and its subclasses. *)
Definition is_os_error (e : exn) : bool :=
  match e with
  | OSError | FileExistsError | FileNotFoundError
  | NotADirectoryError | IsADirectoryError => true
  | _ => false
  end.

Inductive result (A : Type) : Type :=
  | Ok (a : A)
  | Raise (e : exn).
Arguments Ok {A} a.
Arguments Raise {A} e.

(** ** Paths and the local file system *)

(** A relative POSIX path, as its components: ['../data/boston'] is
    [[".."; "data"; "boston"]]. *)
Abbreviation path := (list string).

Inductive node : Type :=
  | Dir
  | File (text : string).

Definition data_dir : path := [".."; "data"; "boston"].

(** [os.path.join(p, name)] for a relative [name] without separators. *)
Definition path_join (p : path) (name : string) : path := p ++ [name].

(** [os.path.split]: the head (everything before the last component). *)
Definition path_head (p : path) : path := removelast p.

(** The current directory and the chain of its parents ([[]], [[".."]],
    [["..";".."]], ...) always exist and are directories; any other path is
    what the table says. *)
Definition only_dotdot (p : path) : bool :=
  forallb (fun c => String.eqb c "..") p.

Definition node_at (fs : gmap path node) (p : path) : option node :=
  if only_dotdot p then Some Dir else fs !! p.

(** [os.path.exists] *)
Definition path_exists (fs : gmap path node) (p : path) : bool :=
  match node_at fs p with Some _ => true | None => false end.

(** [os.path.isdir] *)
Definition path_isdir (fs : gmap path node) (p : path) : bool :=
  match node_at fs p with Some Dir => true | _ => false end.

(** [os.mkdir]: the path must be free and its parent an existing directory. *)
Definition mkdir (fs : gmap path node) (p : path) : result (gmap path node) :=
  match node_at fs p with
  | Some _ => Raise FileExistsError
  | None =>
      match node_at fs (path_head p) with
      | Some Dir => Ok (<[p := Dir]> fs)
      | Some (File _) => Raise NotADirectoryError
      | None => Raise FileNotFoundError
      end
  end.

(** [os.makedirs(name)] with [exist_ok=False], as in CPython's [os.py]:

      head, tail = path.split(name)
      if head and tail and not path.exists(head):
          try: makedirs(head)
          except FileExistsError: pass
          if tail == curdir: return
      mkdir(name)

    The path is given with its last component first, so that the recursion
    on the head is structural.  The file system is returned also when an
    exception is raised, since the ancestors made before it stay. *)
Fixpoint makedirs_rev (fs : gmap path node) (rev_p : list string)
  : gmap path node * option exn :=
  let leaf (fs0 : gmap path node) :=
    match mkdir fs0 (rev rev_p) with
    | Ok fs1 => (fs1, None)
    | Raise e => (fs0, Some e)
    end in
  match rev_p with
  | [] => (fs, Some FileNotFoundError)
  | tail :: rev_head =>
      match rev_head with
      | [] => leaf fs
      | _ :: _ =>
          if path_exists fs (rev rev_head) then leaf fs
          else
            match makedirs_rev fs rev_head with
            | (fs', None) | (fs', Some FileExistsError) =>
                if String.eqb tail "." then (fs', None) else leaf fs'
            | (fs', Some e) => (fs', Some e)
            end
      end
  end.

Definition makedirs (fs : gmap path node) (p : path)
  : gmap path node * option exn :=
  makedirs_rev fs (rev p).

(** Writing a file under [to_csv]: the parent must be a directory and the
    path itself must not be one; an existing file is truncated.  When the
    parent is no directory the class of the exception depends on the pandas
    version: older ones let [open(p, 'w')] raise [NotADirectoryError] or
    [FileNotFoundError], later ones test the parent first and raise a plain
    [OSError].  All of these are [OSError]s, and [OSError] stands here for
    any of them. *)
Definition write_file (fs : gmap path node) (p : path) (text : string)
  : result (gmap path node) :=
  match node_at fs (path_head p) with
  | None => Raise OSError
  | Some (File _) => Raise OSError
  | Some Dir =>
      match node_at fs p with
      | Some Dir => Raise IsADirectoryError
      | _ => Ok (<[p := File text]> fs)
      end
  end.

Definition read_file (fs : gmap path node) (p : path) : result string :=
  match node_at fs p with
  | Some (File text) => Ok text
  | Some Dir => Raise IsADirectoryError
  | None => Raise FileNotFoundError
  end.

(** The line feed character, as a string. *)
Definition newline : string :=
  String (Ascii.Ascii false true false true false false false false) EmptyString.

(** ** Data frames *)

(** A frame is its column labels and its rows in order, each row with its
    index label.  [pd.DataFrame(array)] labels the rows [0 .. n-1]. *)
Record DataFrame (value : Type) : Type := mkFrame {
  columns : list string;
  rows : list (nat * list value)
}.
Arguments mkFrame {value} columns rows.
Arguments columns {value} d.
Arguments rows {value} d.

Section Frames.
Context {value : Type}.

Definition index (d : DataFrame value) : list nat := (rows d).*1.

(** [df.values]: the cells without labels. *)
Definition values (d : DataFrame value) : list (list value) := (rows d).*2.

(** [pd.DataFrame(data, columns=names)]: every row of the array has as many
    cells as there are names, or the constructor raises. *)
Definition frame_of_array (data : list (list value)) (names : list string)
  : result (DataFrame value) :=
  if forallb (fun r => Nat.eqb (length r) (length names)) data
  then Ok (mkFrame names (imap (fun i r => (i, r)) data))
  else Raise ValueError.

(** [pd.DataFrame(vector)]: one column, labelled [0]. *)
Definition frame_of_vector (data : list value) : DataFrame value :=
  mkFrame ["0"] (imap (fun i y => (i, [y])) data).

(** [df.iloc[positions]]: the rows at the given positions, in that order. *)
Definition iloc (d : DataFrame value) (positions : list nat)
  : result (DataFrame value) :=
  match mapM (fun i => rows d !! i) positions with
  | Some rs => Ok (mkFrame (columns d) rs)
  | None => Raise IndexError
  end.

(** The cells of the first row labelled [l], if there is one. *)
Definition loc (d : DataFrame value) (l : nat) : option (list value) :=
  (fun hit => hit.2.2) <$> list_find (fun r => r.1 = l) (rows d).

(** [pd.concat([a, b], axis=1)]: rows are matched by index label, and a
    frame without the label contributes missing cells ([None], pandas'
    NaN).  When both frames carry the same index, which is the only case
    the notebook produces, the result has that index and the cells of [a]
    and [b] side by side.  For differing indexes pandas takes the union of
    the labels; it is taken here in order of first appearance. *)
Definition concat_axis1 (a b : DataFrame value) : DataFrame (option value) :=
  let labels :=
    index a ++ filter (fun l => l ∉ index a) (index b) in
  let cells (d : DataFrame value) (l : nat) : list (option value) :=
    match loc d l with
    | Some r => Some <$> r
    | None => replicate (length (columns d)) None
    end in
  mkFrame (columns a ++ columns b)
          ((fun l => (l, cells a l ++ cells b l)) <$> labels).

(** [df.to_csv(path, header=h, index=i)], the text written: an optional
    line of column labels, then one line per row, the cells separated by
    commas and preceded by the index label when [i] is set; every line ends
    with a newline and a missing cell is written empty. *)
Definition csv_line (fields : list string) : string :=
  String.concat "," fields ++ newline.

Definition to_csv_text (repr : value -> string) (d : DataFrame (option value))
    (header index_col : bool) : string :=
  let cell (c : option value) :=
    match c with Some v => repr v | None => "" end in
  let head_line :=
    if header
    then [csv_line ((if index_col then [""] else []) ++ columns d)]
    else [] in
  let row_line (r : nat * list (option value)) :=
    csv_line ((if index_col then [pretty r.1] else []) ++ (cell <$> r.2)) in
  String.concat "" (head_line ++ (row_line <$> rows d)).
End Frames.

(** ** sklearn.model_selection.train_test_split *)

(** [test_size=0.33].  sklearn takes [n_test = ceil(test_size * n_samples)]
    and leaves the other [n_samples - n_test] rows to the train side. *)
Definition test_size : Q := 0.33.

Definition n_test_of (n_samples : nat) : nat :=
  Z.to_nat (Qceiling (test_size * inject_Z (Z.of_nat n_samples))).

Definition n_train_of (n_samples : nat) : nat :=
  n_samples - n_test_of n_samples.

(** The same product in binary64, as numpy computes it: the double nearest
    to 0.33 times the row count, rounded up to an integer. *)
Definition float_ceil (f : float) : Z :=
  match Prim2SF f with
  | S754_finite false m e =>
      if (0 <=? e)%Z then (Z.pos m * 2 ^ e)%Z
      else (let d := 2 ^ (- e) in (Z.pos m + d - 1) / d)%Z
  | S754_finite true m e =>
      if (0 <=? e)%Z then (- (Z.pos m * 2 ^ e))%Z
      else (- (Z.pos m / 2 ^ (- e)))%Z
  | _ => 0%Z
  end.

Definition n_test_binary64 (n_samples : nat) : nat :=
  Z.to_nat (float_ceil
    (PrimFloat.mul 0x1.51eb851eb851fp-2%float
                   (PrimFloat.of_uint63 (Uint63.of_Z (Z.of_nat n_samples))))).

(** The index sets of one split of [n] rows under the shuffle [perm]:
    the first [n_test] shuffled positions are the test side, the next
    [n_train] the train side. *)
Definition test_positions (perm : list nat) (n : nat) : list nat :=
  take (n_test_of n) perm.

Definition train_positions (perm : list nat) (n : nat) : list nat :=
  take (n_train_of n) (drop (n_test_of n) perm).

(** ** bytes.decode('utf-8') *)

(** Python text is kept as its UTF-8 bytes, so decoding is the check that
    the bytes are well-formed UTF-8 (strict mode: no overlong forms, no
    surrogates, nothing above U+10FFFF). *)
Definition in_range (lo hi : N) (b : Byte.byte) : bool :=
  (lo <=? Byte.to_N b)%N && (Byte.to_N b <=? hi)%N.

Definition continuation : Byte.byte -> bool := in_range 128 191.

Fixpoint utf8_valid (bs : list Byte.byte) : bool :=
  match bs with
  | [] => true
  | b0 :: rest =>
      if in_range 0 127 b0 then utf8_valid rest
      else
        match rest with
        | [] => false
        | b1 :: rest1 =>
            if in_range 194 223 b0 then continuation b1 && utf8_valid rest1
            else
              match rest1 with
              | [] => false
              | b2 :: rest2 =>
                  if in_range 224 239 b0 then
                    (if in_range 224 224 b0 then in_range 160 191 b1
                     else if in_range 237 237 b0 then in_range 128 159 b1
                     else continuation b1)
                    && continuation b2 && utf8_valid rest2
                  else
                    match rest2 with
                    | [] => false
                    | b3 :: rest3 =>
                        in_range 240 244 b0
                        && (if in_range 240 240 b0 then in_range 144 191 b1
                            else if in_range 244 244 b0 then in_range 128 143 b1
                            else continuation b1)
                        && continuation b2 && continuation b3
                        && utf8_valid rest3
                    end
              end
        end
  end.

Definition decode_utf8 (bs : list Byte.byte) : result string :=
  if utf8_valid bs then Ok (String.string_of_list_byte bs) else Raise UnicodeDecodeError.

(** ** The SageMaker objects *)

(** [sagemaker.s3_input(s3_data=..., content_type=...)] *)
Record s3_input : Type := mk_s3_input {
  s3_data : string;
  content_type : string
}.

(** [sagemaker.estimator.Estimator]; [latest_training_job] is set by [fit]. *)
Record Estimator : Type := mkEstimator {
  image_name : string;
  role : string;
  train_instance_count : nat;
  train_instance_type : string;
  output_path : string;
  hyperparameters : gmap string string;
  latest_training_job : option string
}.

(** A training job as the platform receives it: the estimator's settings,
    the channel declarations, and per channel the objects found under its
    location when the job starts. *)
Record training_job : Type := mkJob {
  job_image : string;
  job_role : string;
  job_instance_count : nat;
  job_instance_type : string;
  job_output_path : string;
  job_hyperparameters : gmap string string;
  job_channels : gmap string s3_input;
  job_data : gmap string (gmap string string)
}.

(** A hosted endpoint: the job whose model it serves and its instances. *)
Record endpoint : Type := mkEndpoint {
  served_job : string;
  instance_count : nat;
  instance_type : string
}.

(** [sagemaker.Session]: what the notebook reads from it. *)
Record Session : Type := mkSession {
  session_region : string;
  session_bucket : string
}.

(** [sagemaker.predictor.RealTimePredictor], with the two attributes the
    notebook assigns.  A serializer turns the argument of [predict] into the
    request body. *)
Record Predictor (value : Type) : Type := mkPredictor {
  predictor_endpoint : string;
  predictor_content_type : option string;
  serializer : option (list (list value) -> result string)
}.
Arguments mkPredictor {value} _ _ _.
Arguments predictor_endpoint {value} p.
Arguments predictor_content_type {value} p.
Arguments serializer {value} p.

(** ** What lies outside the notebook *)

Record platform (value : Type) : Type := mkPlatform {
  (** [sklearn.datasets.load_boston()]: [.data], [.target], [.feature_names] *)
  boston_data : list (list value);
  boston_target : list value;
  boston_feature_names : list string;
  (** numpy's global generator: the [k]-th permutation it draws, of [n]
      positions *)
  shuffle : nat -> nat -> list nat;
  shuffle_perm : forall k n, shuffle k n ≡ₚ seq 0 n;
  (** number formatting by pandas and by Python's csv writer, and
      [np.fromstring(text, sep=...)] *)
  pandas_repr : value -> string;
  csv_repr : value -> string;
  np_fromstring : string -> string -> list value;
  (** the account: region, default bucket, execution role *)
  boto_region_name : string;
  default_bucket : string;
  execution_role : string;
  (** [get_image_uri(region, algorithm, version)] *)
  image_uri : string -> string -> string -> string;
  (** the name the SDK gives the training job.  The SDK builds it from the
      base name of the image and the time of the call, so that it is new to
      the account; the time is kept inside the platform, which therefore
      stands for one run. *)
  new_job_name : string -> string;
  (** the bytes a hosted model answers to a request: the job that trained
      it, the request's content type and its body *)
  invoke_endpoint : training_job -> option string -> string -> list Byte.byte;
  (** the model artifact ([model.tar.gz]) a training job produces *)
  model_artifact : training_job -> string
}.
Arguments boston_data {value} p.
Arguments boston_target {value} p.
Arguments boston_feature_names {value} p.
Arguments shuffle {value} p _ _.
Arguments shuffle_perm {value} p _ _.
Arguments pandas_repr {value} p _.
Arguments csv_repr {value} p _.
Arguments np_fromstring {value} p _ _.
Arguments boto_region_name {value} p.
Arguments default_bucket {value} p.
Arguments execution_role {value} p.
Arguments image_uri {value} p _ _ _.
Arguments new_job_name {value} p _.
Arguments invoke_endpoint {value} p _ _ _.
Arguments model_artifact {value} p _.

(** ** The log of library calls *)

(** One event per library call, with the arguments that matter, logged when
    the call is entered.  [EvPredict] carries the request body and is logged
    when [predict] has serialized its argument and sends the request. *)
Inductive event (value : Type) : Type :=
  | EvSession
  | EvGetExecutionRole
  | EvLoadBoston
  | EvDataFrame
  | EvTrainTestSplit (n_samples : nat)
  | EvPathExists (p : path)
  | EvMakedirs (p : path)
  | EvConcat
  | EvToCsv (p : path) (header index_col : bool)
  | EvUploadData (local : path) (key_prefix : string)
  | EvGetImageUri (region algorithm version : string)
  | EvDefaultBucket
  | EvEstimator (image : string)
  | EvSetHyperparameters
  | EvS3Input (location ctype : string)
  | EvFit (image : string) (channels : gmap string s3_input)
  | EvDeploy (count : nat) (itype : string)
  | EvPredict (name : string) (ctype : option string) (body : string)
  | EvFromString (sep : string)
  | EvScatter (xs ys : list value)
  | EvXlabel (text : string)
  | EvYlabel (text : string)
  | EvTitle (text : string)
  | EvDeleteEndpoint (name : string).
Arguments EvSession {value}.
Arguments EvGetExecutionRole {value}.
Arguments EvLoadBoston {value}.
Arguments EvDataFrame {value}.
Arguments EvTrainTestSplit {value} _.
Arguments EvPathExists {value} _.
Arguments EvMakedirs {value} _.
Arguments EvConcat {value}.
Arguments EvToCsv {value} _ _ _.
Arguments EvUploadData {value} _ _.
Arguments EvGetImageUri {value} _ _ _.
Arguments EvDefaultBucket {value}.
Arguments EvEstimator {value} _.
Arguments EvSetHyperparameters {value}.
Arguments EvS3Input {value} _ _.
Arguments EvFit {value} _ _.
Arguments EvDeploy {value} _ _.
Arguments EvPredict {value} _ _ _.
Arguments EvFromString {value} _.
Arguments EvScatter {value} _ _.
Arguments EvXlabel {value} _.
Arguments EvYlabel {value} _.
Arguments EvTitle {value} _.
Arguments EvDeleteEndpoint {value} _.

(** The name of the call, as the notebook writes it. *)
Definition call_name {value : Type} (e : event value) : string :=
  match e with
  | EvSession => "sagemaker.Session"
  | EvGetExecutionRole => "get_execution_role"
  | EvLoadBoston => "load_boston"
  | EvDataFrame => "pd.DataFrame"
  | EvTrainTestSplit _ => "train_test_split"
  | EvPathExists _ => "os.path.exists"
  | EvMakedirs _ => "os.makedirs"
  | EvConcat => "pd.concat"
  | EvToCsv _ _ _ => "to_csv"
  | EvUploadData _ _ => "upload_data"
  | EvGetImageUri _ _ _ => "get_image_uri"
  | EvDefaultBucket => "default_bucket"
  | EvEstimator _ => "Estimator"
  | EvSetHyperparameters => "set_hyperparameters"
  | EvS3Input _ _ => "s3_input"
  | EvFit _ _ => "fit"
  | EvDeploy _ _ => "deploy"
  | EvPredict _ _ _ => "predict"
  | EvFromString _ => "np.fromstring"
  | EvScatter _ _ => "plt.scatter"
  | EvXlabel _ => "plt.xlabel"
  | EvYlabel _ => "plt.ylabel"
  | EvTitle _ => "plt.title"
  | EvDeleteEndpoint _ => "delete_endpoint"
  end.


(** ** The world and the monad *)

Record world (value : Type) : Type := mkWorld {
  fs : gmap path node;                 (* the local file system *)
  s3 : gmap string string;             (* object store: URI to text *)
  jobs : gmap string training_job;     (* training jobs by name *)
  endpoints : gmap string endpoint;    (* endpoints in service, by name *)
  draws : nat;                         (* permutations drawn so far *)
  log : list (event value)             (* library calls, oldest first *)
}.
Arguments mkWorld {value} _ _ _ _ _ _.
Arguments fs {value} w.
Arguments s3 {value} w.
Arguments jobs {value} w.
Arguments endpoints {value} w.
Arguments draws {value} w.
Arguments log {value} w.

Section Notebook.
Context {value : Type} (p : platform value).

(** A computation returns a value or raises, and leaves a world either
    way: after an exception the notebook stops, but what it did stays. *)
Definition M (A : Type) : Type := world value -> result A * world value.

#[global] Instance M_ret : MRet M := fun A a w => (Ok a, w).
#[global] Instance M_bind : MBind M := fun A B f m w =>
  match m w with
  | (Ok a, w') => f a w'
  | (Raise e, w') => (Raise e, w')
  end.

Definition raise {A : Type} (e : exn) : M A := fun w => (Raise e, w).

Definition lift {A : Type} (r : result A) : M A := fun w => (r, w).

Definition emit (e : event value) : M unit := fun w =>
  (Ok (), mkWorld (fs w) (s3 w) (jobs w) (endpoints w) (draws w) (log w ++ [e])).

Definition set_fs (f : gmap path node) (w : world value) : world value :=
  mkWorld f (s3 w) (jobs w) (endpoints w) (draws w) (log w).

Definition set_s3 (s : gmap string string) (w : world value) : world value :=
  mkWorld (fs w) s (jobs w) (endpoints w) (draws w) (log w).

Definition set_jobs (j : gmap string training_job) (w : world value) : world value :=
  mkWorld (fs w) (s3 w) j (endpoints w) (draws w) (log w).

Definition set_endpoints (e : gmap string endpoint) (w : world value) : world value :=
  mkWorld (fs w) (s3 w) (jobs w) e (draws w) (log w).

(** *** sklearn and pandas *)

Definition load_boston : M (list (list value) * list value * list string) :=
  emit EvLoadBoston;;
  mret (boston_data p, boston_target p, boston_feature_names p).

Definition pd_DataFrame (data : list (list value)) (names : list string)
  : M (DataFrame value) :=
  emit EvDataFrame;; lift (frame_of_array data names).

Definition pd_DataFrame_vector (data : list value) : M (DataFrame value) :=
  emit EvDataFrame;; mret (frame_of_vector data).

(** [np.random.permutation(n)] *)
Definition draw_permutation (n : nat) : M (list nat) := fun w =>
  (Ok (shuffle p (draws w) n),
   mkWorld (fs w) (s3 w) (jobs w) (endpoints w) (S (draws w)) (log w)).

(** [train_test_split(X, Y, test_size=0.33)]: both frames must have the
    same number of rows and the train side must not come out empty; one
    permutation is drawn and indexes both frames. *)
Definition train_test_split (X Y : DataFrame value)
  : M (DataFrame value * DataFrame value * DataFrame value * DataFrame value) :=
  let n := length (rows X) in
  emit (EvTrainTestSplit n);;
  if negb (Nat.eqb (length (rows Y)) n) then raise ValueError
  else if Nat.eqb (n_train_of n) 0 then raise ValueError
  else
    perm ← draw_permutation n;
    X_train ← lift (iloc X (train_positions perm n));
    X_test ← lift (iloc X (test_positions perm n));
    Y_train ← lift (iloc Y (train_positions perm n));
    Y_test ← lift (iloc Y (test_positions perm n));
    mret (X_train, X_test, Y_train, Y_test).

Definition pd_concat (a b : DataFrame value) : M (DataFrame (option value)) :=
  emit EvConcat;; mret (concat_axis1 a b).

Definition to_csv (d : DataFrame (option value)) (file : path)
    (header index_col : bool) : M unit :=
  emit (EvToCsv file header index_col);;
  ((fun w =>
    match write_file (fs w) file (to_csv_text (pandas_repr p) d header index_col) with
    | Ok f => (Ok (), set_fs f w)
    | Raise e => (Raise e, w)
    end) : M unit).

(** *** os *)

Definition os_path_exists (d : path) : M bool :=
  emit (EvPathExists d);; ((fun w => (Ok (path_exists (fs w) d), w)) : M bool).

Definition os_makedirs (d : path) : M unit :=
  emit (EvMakedirs d);;
  ((fun w =>
    match makedirs (fs w) d with
    | (f, None) => (Ok (), set_fs f w)
    | (f, Some e) => (Raise e, set_fs f w)
    end) : M unit).

(** *** sagemaker *)

Definition sagemaker_Session : M Session :=
  emit EvSession;; mret (mkSession (boto_region_name p) (default_bucket p)).

Definition get_execution_role : M string :=
  emit EvGetExecutionRole;; mret (execution_role p).

Definition session_default_bucket (session : Session) : M string :=
  emit EvDefaultBucket;; mret (session_bucket session).

(** [session.upload_data(file, key_prefix=prefix)] for a single file: the
    object's key is the prefix, a slash and the file's name, in the
    session's default bucket, and the object's URI is returned. *)
Definition s3_uri (bucket key_prefix name : string) : string :=
  "s3://" ++ bucket ++ "/" ++ key_prefix ++ "/" ++ name.

Definition upload_data (session : Session) (file : path) (key_prefix : string)
  : M string :=
  emit (EvUploadData file key_prefix);;
  ((fun w =>
    match read_file (fs w) file with
    | Raise e => (Raise e, w)
    | Ok text =>
        let uri := s3_uri (session_bucket session) key_prefix (List.last file "") in
        (Ok uri, set_s3 (<[uri := text]> (s3 w)) w)
    end) : M string).

Definition get_image_uri (region algorithm version : string) : M string :=
  emit (EvGetImageUri region algorithm version);;
  mret (image_uri p region algorithm version).

Definition new_Estimator (image role_arn : string) (count : nat)
    (itype out : string) : M Estimator :=
  emit (EvEstimator image);;
  mret (mkEstimator image role_arn count itype out ∅ None).

(** [estimator.set_hyperparameters] with keyword arguments: they update the
    estimator's table. *)
Definition set_hyperparameters (xgb : Estimator) (kwargs : list (string * string))
  : M Estimator :=
  emit EvSetHyperparameters;;
  mret (mkEstimator (image_name xgb) (role xgb) (train_instance_count xgb)
          (train_instance_type xgb) (output_path xgb)
          (foldl (fun h kv => <[kv.1 := kv.2]> h) (hyperparameters xgb) kwargs)
          (latest_training_job xgb)).

Definition new_s3_input (location ctype : string) : M s3_input :=
  emit (EvS3Input location ctype);; mret (mk_s3_input location ctype).

(** [estimator.fit(inputs)]: a job is started from the estimator's settings
    and the channel table; each channel reads the objects whose URI starts
    with the channel's location.  [fit] waits for the job, and the job
    uploads its model artifact under the estimator's output path, in
    [<output_path>/<job name>/output/model.tar.gz], before [fit] returns. *)
Definition objects_under (store : gmap string string) (location : string)
  : gmap string string :=
  filter (fun kv => String.prefix location kv.1 = true) store.

Definition artifact_uri (out name : string) : string :=
  out ++ "/" ++ name ++ "/output/model.tar.gz".

Definition fit (xgb : Estimator) (inputs : gmap string s3_input) : M Estimator :=
  emit (EvFit (image_name xgb) inputs);;
  ((fun w =>
    let name := new_job_name p (image_name xgb) in
    let job :=
      mkJob (image_name xgb) (role xgb) (train_instance_count xgb)
            (train_instance_type xgb) (output_path xgb) (hyperparameters xgb)
            inputs ((fun i => objects_under (s3 w) (s3_data i)) <$> inputs) in
    (Ok (mkEstimator (image_name xgb) (role xgb) (train_instance_count xgb)
           (train_instance_type xgb) (output_path xgb) (hyperparameters xgb)
           (Some name)),
     set_s3 (<[artifact_uri (output_path xgb) name := model_artifact p job]> (s3 w))
       (set_jobs (<[name := job]> (jobs w)) w))) : M Estimator).

(** [estimator.deploy(initial_instance_count=..., instance_type=...)]: only
    a fitted estimator can be deployed; the endpoint takes the name of the
    training job and the returned predictor points at it. *)
Definition deploy (xgb : Estimator) (count : nat) (itype : string)
  : M (Predictor value) :=
  emit (EvDeploy count itype);;
  match latest_training_job xgb with
  | None => raise ValueError
  | Some name =>
      ((fun w =>
          (Ok (mkPredictor name None None),
           set_endpoints (<[name := mkEndpoint name count itype]> (endpoints w)) w))
       : M (Predictor value))
  end.

(** [sagemaker.predictor.csv_serializer] on a two-dimensional array: one
    line per row, cells separated by commas, lines joined by newlines.  An
    array without rows, and a row without cells, make the serializer raise
    [ValueError('Cannot serialize empty array')]. *)
Definition csv_serializer (data : list (list value)) : result string :=
  match data with
  | [] => Raise ValueError
  | _ :: _ =>
      if existsb (fun r => Nat.eqb (length r) 0) data then Raise ValueError
      else Ok (String.concat newline
                 ((fun r => String.concat "," (csv_repr p <$> r)) <$> data))
  end.

(** [predictor.predict(data)]: the body is the serialized data, sent with
    the predictor's content type to the predictor's endpoint; the answer is
    the raw response body.  When the serializer raises, nothing is sent. *)
Definition predict (xgb_predictor : Predictor value) (data : list (list value))
  : M (list Byte.byte) :=
  match serializer xgb_predictor with
  | None => raise ValueError
  | Some serialize =>
      body ← lift (serialize data);
      let name := predictor_endpoint xgb_predictor in
      emit (EvPredict name (predictor_content_type xgb_predictor) body);;
      ((fun w =>
          match endpoints w !! name ≫= fun e => jobs w !! served_job e with
          | None => (Raise ClientError, w)
          | Some job =>
              (Ok (invoke_endpoint p job (predictor_content_type xgb_predictor) body), w)
          end) : M (list Byte.byte))
  end.

(** [predictor.delete_endpoint()] *)
Definition delete_endpoint (xgb_predictor : Predictor value) : M unit :=
  let name := predictor_endpoint xgb_predictor in
  emit (EvDeleteEndpoint name);;
  ((fun w =>
      match endpoints w !! name with
      | None => (Raise ClientError, w)
      | Some _ => (Ok (), set_endpoints (delete name (endpoints w)) w)
      end) : M unit).

(** *** numpy and matplotlib *)

Definition np_fromstring_call (text sep : string) : M (list value) :=
  emit (EvFromString sep);; mret (np_fromstring p text sep).

(** [plt.scatter(x, y)]: both arguments are flattened and must have the
    same number of points. *)
Definition plt_scatter (x : DataFrame value) (y : list value) : M unit :=
  let xs := concat (values x) in
  emit (EvScatter xs y);;
  if Nat.eqb (length xs) (length y) then mret () else raise ValueError.

Definition plt_xlabel (text : string) : M unit := emit (EvXlabel text).
Definition plt_ylabel (text : string) : M unit := emit (EvYlabel text).
Definition plt_title (text : string) : M unit := emit (EvTitle text).

(** ** The notebook, cell by cell *)

(** The variables the notebook has bound when it ends. *)
Record namespace : Type := mkNamespace {
  X_train : DataFrame value;
  X_val : DataFrame value;
  X_test : DataFrame value;
  Y_train : DataFrame value;
  Y_val : DataFrame value;
  Y_test : DataFrame value;
  val_location : string;
  train_location : string;
  container : string;
  xgb : Estimator;
  xgb_predictor : Predictor value;
  Y_pred : list value
}.

Definition prefix : string := "boston-xgboost-deploy-hl".

(** <<
    session = sagemaker.Session()
    role = get_execution_role()
    >> *)
Definition cell_setup : M (Session * string) :=
  session ← sagemaker_Session;
  role_arn ← get_execution_role;
  mret (session, role_arn).

(** <<
    boston = load_boston()
    X_bos_pd = pd.DataFrame(boston.data, columns=boston.feature_names)
    Y_bos_pd = pd.DataFrame(boston.target)
    X_train, X_test, Y_train, Y_test = train_test_split(X_bos_pd, Y_bos_pd, test_size=0.33)
    X_train, X_val, Y_train, Y_val = train_test_split(X_train, Y_train, test_size=0.33)
    >> *)
Record partitions : Type := mkPartitions {
  part_X_train : DataFrame value;
  part_X_val : DataFrame value;
  part_X_test : DataFrame value;
  part_Y_train : DataFrame value;
  part_Y_val : DataFrame value;
  part_Y_test : DataFrame value
}.

Definition cell_split : M partitions :=
  boston ← load_boston;
  X_bos_pd ← pd_DataFrame boston.1.1 boston.2;
  Y_bos_pd ← pd_DataFrame_vector boston.1.2;
  first ← train_test_split X_bos_pd Y_bos_pd;
  let '(X_train, X_test, Y_train, Y_test) := first in
  second ← train_test_split X_train Y_train;
  let '(X_train, X_val, Y_train, Y_val) := second in
  mret (mkPartitions X_train X_val X_test Y_train Y_val Y_test).

(** <<
    data_dir = '../data/boston'
    if not os.path.exists(data_dir):
        os.makedirs(data_dir)
    >> *)
Definition cell_data_dir : M unit :=
  present ← os_path_exists data_dir;
  if negb present then os_makedirs data_dir else mret ().

(** <<
    pd.concat([Y_val, X_val], axis=1).to_csv(os.path.join(data_dir, 'validation.csv'), header=False, index=False)
    pd.concat([Y_train, X_train], axis=1).to_csv(os.path.join(data_dir, 'train.csv'), header=False, index=False)
    >> *)
Definition cell_save (parts : partitions) : M unit :=
  val_frame ← pd_concat (part_Y_val parts) (part_X_val parts);
  to_csv val_frame (path_join data_dir "validation.csv") false false;;
  train_frame ← pd_concat (part_Y_train parts) (part_X_train parts);
  to_csv train_frame (path_join data_dir "train.csv") false false.

(** <<
    prefix = 'boston-xgboost-deploy-hl'
    val_location = session.upload_data(os.path.join(data_dir, 'validation.csv'), key_prefix=prefix)
    train_location = session.upload_data(os.path.join(data_dir, 'train.csv'), key_prefix=prefix)
    >> *)
Definition cell_upload (session : Session) : M (string * string) :=
  val_loc ← upload_data session (path_join data_dir "validation.csv") prefix;
  train_loc ← upload_data session (path_join data_dir "train.csv") prefix;
  mret (val_loc, train_loc).

(** <<
    container = get_image_uri(session.boto_region_name, 'xgboost', "0.90-1")
    xgb = sagemaker.estimator.Estimator(container, role,
              train_instance_count=1, train_instance_type='ml.m4.xlarge',
              output_path='s3://{}/{}/output'.format(session.default_bucket(), prefix),
              sagemaker_session=session)
    >> *)
Definition cell_estimator (session : Session) (role_arn : string)
  : M (string * Estimator) :=
  image ← get_image_uri (session_region session) "xgboost" "0.90-1";
  bucket ← session_default_bucket session;
  est ← new_Estimator image role_arn 1 "ml.m4.xlarge"
          ("s3://" ++ bucket ++ "/" ++ prefix ++ "/output");
  mret (image, est).

(** <<
    xgb.set_hyperparameters(max_depth=5, eta=0.2, gamma=4, min_child_weight=6,
                            subsample=0.8, objective='reg:squarederror',
                            early_stopping_rounds=10, num_round=200)
    >> *)
Definition cell_hyperparameters (est : Estimator) : M Estimator :=
  set_hyperparameters est
    [("max_depth", "5"); ("eta", "0.2"); ("gamma", "4");
     ("min_child_weight", "6"); ("subsample", "0.8");
     ("objective", "reg:squarederror"); ("early_stopping_rounds", "10");
     ("num_round", "200")].

(** <<
    s3_input_train = sagemaker.s3_input(s3_data=train_location, content_type='csv')
    s3_input_validation = sagemaker.s3_input(s3_data=val_location, content_type='csv')
    xgb.fit({'train': s3_input_train, 'validation': s3_input_validation})
    >> *)
Definition cell_fit (est : Estimator) (val_loc train_loc : string) : M Estimator :=
  s3_input_train ← new_s3_input train_loc "csv";
  s3_input_validation ← new_s3_input val_loc "csv";
  fit est (<["train" := s3_input_train]> (<["validation" := s3_input_validation]> ∅)).

(** <<
    xgb_predictor = xgb.deploy(initial_instance_count=1, instance_type='ml.m4.xlarge')
    >> *)
Definition cell_deploy (est : Estimator) : M (Predictor value) :=
  deploy est 1 "ml.m4.xlarge".

(** <<
    xgb_predictor.content_type = 'text/csv'
    xgb_predictor.serializer = csv_serializer
    Y_pred = xgb_predictor.predict(X_test.values).decode('utf-8')
    Y_pred = np.fromstring(Y_pred, sep=',')
    >> *)
Definition cell_predict (predictor : Predictor value) (parts : partitions)
  : M (Predictor value * list value) :=
  let predictor :=
    mkPredictor (predictor_endpoint predictor) (Some "text/csv") (serializer predictor) in
  let predictor :=
    mkPredictor (predictor_endpoint predictor) (predictor_content_type predictor)
                (Some csv_serializer) in
  answer ← predict predictor (values (part_X_test parts));
  text ← lift (decode_utf8 answer);
  predictions ← np_fromstring_call text ",";
  mret (predictor, predictions).

(** <<
    plt.scatter(Y_test, Y_pred)
    plt.xlabel("Median Price")
    plt.ylabel("Predicted Price")
    plt.title("Median Price vs Predicted Price")
    >> *)
Definition cell_plot (parts : partitions) (predictions : list value) : M unit :=
  plt_scatter (part_Y_test parts) predictions;;
  plt_xlabel "Median Price";;
  plt_ylabel "Predicted Price";;
  plt_title "Median Price vs Predicted Price".

(** <<
    xgb_predictor.delete_endpoint()
    >> *)
Definition cell_delete (predictor : Predictor value) : M unit :=
  delete_endpoint predictor.

(** The notebook up to and including the training job. *)
Definition notebook_train : M (partitions * string * string * string * Estimator) :=
  env ← cell_setup;
  parts ← cell_split;
  cell_data_dir;;
  cell_save parts;;
  locs ← cell_upload env.1;
  est ← cell_estimator env.1 env.2;
  est' ← cell_hyperparameters est.2;
  fitted ← cell_fit est' locs.1 locs.2;
  mret (parts, locs.1, locs.2, est.1, fitted).

(** The whole notebook: all code cells in order. *)
Definition notebook : M namespace :=
  trained ← notebook_train;
  let '(parts, val_loc, train_loc, image, fitted) := trained in
  predictor ← cell_deploy fitted;
  predicted ← cell_predict predictor parts;
  cell_plot parts predicted.2;;
  cell_delete predicted.1;;
  mret (mkNamespace (part_X_train parts) (part_X_val parts) (part_X_test parts)
          (part_Y_train parts) (part_Y_val parts) (part_Y_test parts)
          val_loc train_loc image fitted predicted.1 predicted.2).

End Notebook.

(** ** Vocabulary of the statements *)

(** [picks d positions d']: the frame [d'] has the columns of [d] and, in
    order, the rows of [d] at the given positions. *)
Definition picks {value : Type} (d : DataFrame value) (positions : list nat)
    (d' : DataFrame value) : Prop :=
  columns d' = columns d /\
  Forall2 (fun i r => rows d !! i = Some r) positions (rows d').

(** [drawn_from table d]: every row of [d] carries, under its label [i], the
    entry of [table] at position [i]. *)
Definition drawn_from {value : Type} (table : list (list value))
    (d : DataFrame value) : Prop :=
  Forall (fun r => table !! r.1 = Some r.2) (rows d).

(** The events a computation adds to the log. *)
Definition new_events {value : Type} (w w' : world value) (evs : list (event value)) : Prop :=
  log w' = log w ++ evs.

(** The world after more calls were logged. *)
Definition logged {value : Type} (evs : list (event value)) (w : world value)
  : world value :=
  mkWorld (fs w) (s3 w) (jobs w) (endpoints w) (draws w) (log w ++ evs).

(** The housing table is usable: one target per row, every row as wide as
    the list of feature names, and enough rows for both splits to leave a
    non-empty train side. *)
Definition well_shaped {value : Type} (p : platform value) : bool :=
  Nat.eqb (length (boston_target p)) (length (boston_data p))
  && forallb (fun r => Nat.eqb (length r) (length (boston_feature_names p)))
             (boston_data p)
  && Nat.leb 3 (length (boston_data p)).

(** The local file system lets the notebook make and fill its data
    directory: the directory is there, or it is absent and ['../data'] is
    not a file; and neither CSV path is taken by a directory. *)
Definition not_a_dir (f : gmap path node) (file : path) : bool :=
  match node_at f file with Some Dir => false | _ => true end.

Definition data_dir_usable (f : gmap path node) : bool :=
  match node_at f data_dir with
  | Some Dir => true
  | Some (File _) => false
  | None =>
      match node_at f (path_head data_dir) with
      | Some (File _) => false
      | _ => true
      end
  end
  && not_a_dir f (path_join data_dir "validation.csv")
  && not_a_dir f (path_join data_dir "train.csv").

(** The targets as a one-column table, as [pd.DataFrame(boston.target)]
    holds them. *)
Definition targets_table {value : Type} (p : platform value) : list (list value) :=
  (fun y => [y]) <$> boston_target p.

(** What the split cell guarantees about the six frames it binds, when it
    starts with [k] permutations already drawn: which labels go where, and
    what the rows under these labels are. *)
Record partitioned {value : Type} (p : platform value) (k : nat)
    (parts : partitions) : Prop := mkPartitioned {
  labels_test :
    index (part_X_test parts)
    = test_positions (shuffle p k (length (boston_data p))) (length (boston_data p));
  labels_val :
    Forall2 (fun j l =>
               train_positions (shuffle p k (length (boston_data p)))
                               (length (boston_data p)) !! j = Some l)
      (test_positions (shuffle p (S k) (n_train_of (length (boston_data p))))
                      (n_train_of (length (boston_data p))))
      (index (part_X_val parts));
  labels_train :
    Forall2 (fun j l =>
               train_positions (shuffle p k (length (boston_data p)))
                               (length (boston_data p)) !! j = Some l)
      (train_positions (shuffle p (S k) (n_train_of (length (boston_data p))))
                       (n_train_of (length (boston_data p))))
      (index (part_X_train parts));
  same_index_train : index (part_Y_train parts) = index (part_X_train parts);
  same_index_val : index (part_Y_val parts) = index (part_X_val parts);
  same_index_test : index (part_Y_test parts) = index (part_X_test parts);
  cover :
    index (part_X_train parts) ++ index (part_X_val parts)
      ++ index (part_X_test parts) ≡ₚ seq 0 (length (boston_data p));
  features_train : drawn_from (boston_data p) (part_X_train parts);
  features_val : drawn_from (boston_data p) (part_X_val parts);
  features_test : drawn_from (boston_data p) (part_X_test parts);
  targets_train : drawn_from (targets_table p) (part_Y_train parts);
  targets_val : drawn_from (targets_table p) (part_Y_val parts);
  targets_test : drawn_from (targets_table p) (part_Y_test parts);
  size_test :
    length (rows (part_X_test parts)) = n_test_of (length (boston_data p));
  size_val :
    length (rows (part_X_val parts))
    = n_test_of (n_train_of (length (boston_data p)));
  size_train :
    length (rows (part_X_train parts))
    = n_train_of (n_train_of (length (boston_data p)));
  columns_X :
    columns (part_X_train parts) = boston_feature_names p /\
    columns (part_X_val parts) = boston_feature_names p /\
    columns (part_X_test parts) = boston_feature_names p;
  columns_Y :
    columns (part_Y_train parts) = ["0"] /\
    columns (part_Y_val parts) = ["0"] /\
    columns (part_Y_test parts) = ["0"]
}.

(** The two files of the notebook, and where their uploads land. *)
Definition val_path : path := path_join data_dir "validation.csv".
Definition train_path : path := path_join data_dir "train.csv".

Definition val_uri {value : Type} (p : platform value) : string :=
  s3_uri (default_bucket p) prefix "validation.csv".
Definition train_uri {value : Type} (p : platform value) : string :=
  s3_uri (default_bucket p) prefix "train.csv".

(** The text [to_csv] writes for a pair of frames (targets, features). *)
Definition saved_text {value : Type} (p : platform value)
    (Y X : DataFrame value) : string :=
  to_csv_text (pandas_repr p) (concat_axis1 Y X) false false.

(** The line feed, the character with code 10. *)
Definition LF : string := String (Ascii.ascii_of_nat 10) EmptyString.

(** A CSV text without header and index column, written out from its rows,
    each given as the target and the feature values: per row one line that
    holds the target first and then the feature values, separated by commas
    and ended by a line feed. *)
Definition csv_of_rows {value : Type} (repr : value -> string)
    (rs : list (value * list value)) : string :=
  String.concat ""
    ((fun r => (String.concat "," (repr r.1 :: (repr <$> r.2)) ++ LF)%string) <$> rs).

(** A CSV request body written out from its rows of feature values: the
    values of a row separated by commas, the rows separated by line feeds,
    with no line feed after the last row. *)
Definition csv_body {value : Type} (repr : value -> string)
    (rs : list (list value)) : string :=
  String.concat LF ((fun r => String.concat "," (repr <$> r)) <$> rs).

(** The image the notebook asks the SDK for. *)
Definition xgboost_image {value : Type} (p : platform value) : string :=
  image_uri p (boto_region_name p) "xgboost" "0.90-1".

(** The channel table passed to [fit]. *)
Definition fit_channels {value : Type} (p : platform value) : gmap string s3_input :=
  <["train" := mk_s3_input (train_uri p) "csv"]>
    (<["validation" := mk_s3_input (val_uri p) "csv"]> ∅).

(** The hyperparameters set before [fit]. *)
Definition xgb_hyperparameters : gmap string string :=
  foldl (fun h kv => <[kv.1 := kv.2]> h) ∅
    [("max_depth", "5"); ("eta", "0.2"); ("gamma", "4");
     ("min_child_weight", "6"); ("subsample", "0.8");
     ("objective", "reg:squarederror"); ("early_stopping_rounds", "10");
     ("num_round", "200")].

(** The object store after both uploads, the training job started on it,
    and the store when the job has written its model artifact. *)
Definition store_after_upload {value : Type} (p : platform value)
    (parts : partitions) (store : gmap string string) : gmap string string :=
  <[train_uri p := saved_text p (part_Y_train parts) (part_X_train parts)]>
    (<[val_uri p := saved_text p (part_Y_val parts) (part_X_val parts)]> store).

Definition xgb_job {value : Type} (p : platform value)
    (parts : partitions) (store : gmap string string) : training_job :=
  mkJob (xgboost_image p) (execution_role p) 1 "ml.m4.xlarge"
        ("s3://" ++ default_bucket p ++ "/" ++ prefix ++ "/output")
        xgb_hyperparameters (fit_channels p)
        ((fun i => objects_under (store_after_upload p parts store) (s3_data i))
           <$> fit_channels p).

Definition output_uri {value : Type} (p : platform value) : string :=
  "s3://" ++ default_bucket p ++ "/" ++ prefix ++ "/output".

Definition model_uri {value : Type} (p : platform value) : string :=
  artifact_uri (output_uri p) (new_job_name p (xgboost_image p)).

Definition store_after_fit {value : Type} (p : platform value)
    (parts : partitions) (store : gmap string string) : gmap string string :=
  <[model_uri p := model_artifact p (xgb_job p parts store)]>
    (store_after_upload p parts store).

Definition fitted_estimator {value : Type} (p : platform value) : Estimator :=
  mkEstimator (xgboost_image p) (execution_role p) 1 "ml.m4.xlarge"
        ("s3://" ++ default_bucket p ++ "/" ++ prefix ++ "/output")
        xgb_hyperparameters (Some (new_job_name p (xgboost_image p))).

(** The calls logged up to and including [fit]; [made] tells whether the
    data directory had to be made. *)
Definition train_events {value : Type} (p : platform value) (made : bool)
  : list (event value) :=
  [EvSession; EvGetExecutionRole; EvLoadBoston; EvDataFrame; EvDataFrame;
   EvTrainTestSplit (length (boston_data p));
   EvTrainTestSplit (n_train_of (length (boston_data p)));
   EvPathExists data_dir]
  ++ (if made then [EvMakedirs data_dir] else [])
  ++ [EvConcat; EvToCsv val_path false false;
      EvConcat; EvToCsv train_path false false;
      EvUploadData val_path prefix; EvUploadData train_path prefix;
      EvGetImageUri (boto_region_name p) "xgboost" "0.90-1";
      EvDefaultBucket; EvEstimator (xgboost_image p); EvSetHyperparameters;
      EvS3Input (train_uri p) "csv"; EvS3Input (val_uri p) "csv";
      EvFit (xgboost_image p) (fit_channels p)].

(** The file system the guard cell leaves. *)
Definition fs_after_guard (f : gmap path node) : gmap path node :=
  if path_exists f data_dir then f else (makedirs f data_dir).1.

(** ... and the one the save cell leaves. *)
Definition fs_after_save {value : Type} (p : platform value)
    (parts : partitions) (f : gmap path node) : gmap path node :=
  <[train_path := File (saved_text p (part_Y_train parts) (part_X_train parts))]>
    (<[val_path := File (saved_text p (part_Y_val parts) (part_X_val parts))]>
       (fs_after_guard f)).

(** The world when [fit] has returned. *)
Definition world_after_fit {value : Type} (p : platform value)
    (parts : partitions) (w : world value) : world value :=
  mkWorld (fs_after_save p parts (fs w))
          (store_after_fit p parts (s3 w))
          (<[new_job_name p (xgboost_image p) := xgb_job p parts (s3 w)]> (jobs w))
          (endpoints w)
          (S (S (draws w)))
          (log w ++ train_events p (negb (path_exists (fs w) data_dir))).

(** The endpoint takes the name of the training job. *)
Definition endpoint_name {value : Type} (p : platform value) : string :=
  new_job_name p (xgboost_image p).

Definition xgb_endpoint {value : Type} (p : platform value) : endpoint :=
  mkEndpoint (endpoint_name p) 1 "ml.m4.xlarge".

(** The predictor as [deploy] returns it, and after the notebook has set
    its content type and serializer. *)
Definition fresh_predictor {value : Type} (p : platform value) : Predictor value :=
  mkPredictor (endpoint_name p) None None.

Definition csv_predictor {value : Type} (p : platform value) : Predictor value :=
  mkPredictor (endpoint_name p) (Some "text/csv") (Some (csv_serializer p)).

(** The serializer accepts the test rows: there is one, and none is empty. *)
Definition serializable {value : Type} (data : list (list value)) : bool :=
  match data with
  | [] => false
  | _ :: _ => negb (existsb (fun r => Nat.eqb (length r) 0) data)
  end.

(** The request the notebook sends and the bytes it gets back. *)
Definition request_body {value : Type} (p : platform value) (parts : partitions)
  : string :=
  String.concat newline
    ((fun r => String.concat "," (csv_repr p <$> r)) <$> values (part_X_test parts)).

Definition answer {value : Type} (p : platform value) (parts : partitions)
    (w : world value) : list Byte.byte :=
  invoke_endpoint p (xgb_job p parts (s3 w)) (Some "text/csv") (request_body p parts).

(** The worlds between the last four cells. *)
Definition world_after_deploy {value : Type} (p : platform value)
    (parts : partitions) (w : world value) : world value :=
  set_endpoints (<[endpoint_name p := xgb_endpoint p]> (endpoints w))
    (logged [EvDeploy 1 "ml.m4.xlarge"] (world_after_fit p parts w)).

Definition world_after_predict {value : Type} (p : platform value)
    (parts : partitions) (w : world value) : world value :=
  logged [EvPredict (endpoint_name p) (Some "text/csv") (request_body p parts);
          EvFromString ","]
    (world_after_deploy p parts w).

Definition world_after_plot {value : Type} (p : platform value)
    (parts : partitions) (predictions : list value) (w : world value) : world value :=
  logged [EvScatter (concat (values (part_Y_test parts))) predictions;
          EvXlabel "Median Price"; EvYlabel "Predicted Price";
          EvTitle "Median Price vs Predicted Price"]
    (world_after_predict p parts w).

Definition world_after_delete {value : Type} (p : platform value)
    (parts : partitions) (predictions : list value) (w : world value) : world value :=
  set_endpoints (delete (endpoint_name p) (endpoints (world_after_plot p parts predictions w)))
    (logged [EvDeleteEndpoint (endpoint_name p)]
       (world_after_plot p parts predictions w)).

(** The variables of a run that went through. *)
Definition final_namespace {value : Type} (p : platform value)
    (parts : partitions) (predictions : list value) : namespace :=
  mkNamespace (part_X_train parts) (part_X_val parts) (part_X_test parts)
    (part_Y_train parts) (part_Y_val parts) (part_Y_test parts)
    (val_uri p) (train_uri p) (xgboost_image p) (fitted_estimator p)
    (csv_predictor p) predictions.

(** The names of the calls a run adds to the log. *)
Definition calls_made {value : Type} (p : platform value) (w : world value)
  : list string :=
  call_name <$> drop (length (log w)) (log (notebook p w).2).

(** A run completes when no cell raises. *)
Definition is_ok {A : Type} (r : result A) : bool :=
  match r with Ok _ => true | Raise _ => false end.

Definition completes {value : Type} (p : platform value) (w : world value) : bool :=
  is_ok (notebook p w).1.

(** The notebook read as one straight line of calls; [made] tells whether
    [os.makedirs] is among them. *)
Definition straight_line (made : bool) : list string :=
  ["sagemaker.Session"; "get_execution_role"; "load_boston";
   "pd.DataFrame"; "pd.DataFrame"; "train_test_split"; "train_test_split";
   "os.path.exists"]
  ++ (if made then ["os.makedirs"] else [])
  ++ ["pd.concat"; "to_csv"; "pd.concat"; "to_csv";
      "upload_data"; "upload_data";
      "get_image_uri"; "default_bucket"; "Estimator"; "set_hyperparameters";
      "s3_input"; "s3_input"; "fit"; "deploy"; "predict"; "np.fromstring";
      "plt.scatter"; "plt.xlabel"; "plt.ylabel"; "plt.title";
      "delete_endpoint"].


(** [traces m S]: whatever the world, the calls [m] logs are one of the
    sequences in [S] when [m] returns, and the beginning of one of them when
    it raises. *)
Definition traces {value A : Type} (m : @M value A) (S : list (list string)) : Prop :=
  forall w, exists evs,
    log (m w).2 = log w ++ evs /\
    match (m w).1 with
    | Ok _ => (call_name <$> evs) ∈ S
    | Raise _ => exists l, l ∈ S /\ (call_name <$> evs) `prefix_of` l
    end.

(** The sequences of [S1] followed by those of [S2]. *)
Definition then_traces (S1 S2 : list (list string)) : list (list string) :=
  l1 ← S1; l2 ← S2; [l1 ++ l2].

(** Computations that log nothing. *)
Definition silent {value A : Type} (m : @M value A) : Prop :=
  forall w, log (m w).2 = log w.

(** ** A small platform to run the notebook on *)

(** A table of [n] rows with the thirteen housing features, a generator
    that always reverses, and an endpoint that answers 24 for every line it
    is sent. *)
Definition demo_names : list string :=
  ["CRIM"; "ZN"; "INDUS"; "CHAS"; "NOX"; "RM"; "AGE"; "DIS"; "RAD"; "TAX";
   "PTRATIO"; "B"; "LSTAT"].

Definition demo_data (n : nat) : list (list N) :=
  (fun i => (fun j => 100 * N.of_nat i + N.of_nat j)%N <$> seq 0 13) <$> seq 0 n.

Definition demo_target (n : nat) : list N :=
  (fun i => 1000 + N.of_nat i)%N <$> seq 0 n.

Fixpoint split_on (c : Ascii.ascii) (s : string) : list string :=
  match s with
  | EmptyString => [EmptyString]
  | String a rest =>
      if Ascii.eqb a c then EmptyString :: split_on c rest
      else
        match split_on c rest with
        | [] => [String a EmptyString]
        | field :: fields => String a field :: fields
        end
  end.

Fixpoint digits_value (acc : N) (s : string) : N :=
  match s with
  | EmptyString => acc
  | String a rest => digits_value (10 * acc + (Ascii.N_of_ascii a - 48))%N rest
  end.

Definition demo_fromstring (text sep : string) : list N :=
  match sep with
  | String c EmptyString => digits_value 0 <$> split_on c text
  | _ => []
  end.

Definition demo_invoke (job : training_job) (ctype : option string) (body : string)
  : list Byte.byte :=
  String.list_byte_of_string
    (String.concat "," ((fun _ => "24") <$> split_on (Ascii.ascii_of_nat 10) body)).

Definition demo_with (data : list (list N)) (target : list N) : platform N :=
  mkPlatform N data target demo_names
    (fun _ n => reverse (seq 0 n)) (fun _ n => reverse_Permutation (seq 0 n))
    pretty pretty demo_fromstring
    "us-east-1" "sagemaker-us-east-1-demo" "arn:aws:iam::demo:role/notebook"
    (fun region algorithm version => region ++ "/" ++ algorithm ++ ":" ++ version)%string
    (fun image => "xgboost-demo-job")
    demo_invoke
    (fun job => "model.tar.gz of the demo").

Definition demo (n : nat) : platform N := demo_with (demo_data n) (demo_target n).


(** The six-row table with other values in the rows at positions 4 and 5,
    the two the first split of six reversed rows sends to the test
    partition. *)
Definition demo_other : platform N :=
  demo_with (take 4 (demo_data 6) ++ [replicate 13 7%N; replicate 13 8%N])
            (take 4 (demo_target 6) ++ [1%N; 2%N]).

(** Three local file systems: nothing there, the data directory there, and
    a plain file in its place. *)
Definition empty_world : world N := mkWorld ∅ ∅ ∅ ∅ 0 [].

Definition world_with_dir : world N :=
  mkWorld (<[data_dir := Dir]> (<[path_head data_dir := Dir]> ∅)) ∅ ∅ ∅ 0 [].

Definition world_with_file : world N :=
  mkWorld (<[data_dir := File "not a directory"]> (<[path_head data_dir := Dir]> ∅))
          ∅ ∅ ∅ 0 [].

(** [paired p X Y]: row by row, the feature frame [X] and the target frame
    [Y] carry the same label, and under it the features and the target the
    housing table has at that position. *)
Definition paired {value : Type} (p : platform value) (X Y : DataFrame value) : Prop :=
  Forall2 (fun rx ry =>
             rx.1 = ry.1 /\
             boston_data p !! rx.1 = Some rx.2 /\
             exists y, ry.2 = [y] /\ boston_target p !! rx.1 = Some y)
          (rows X) (rows Y).

(** [is_ceiling_033 n c]: [c] is the least integer not below [0.33 * n]. *)
Definition is_ceiling_033 (n c : nat) : Prop :=
  33 * n <= 100 * c /\ 100 * c < 33 * n + 100.

(** The events a cell added to the log of [w]. *)
Definition added {value : Type} (w w' : world value) : list (event value) :=
  drop (length (log w)) (log w').

(** [traces_by_fs m S]: as [traces], with the possible sequences depending
    on the file system the computation starts from. *)
Definition traces_by_fs {value A : Type} (m : @M value A)
    (S : gmap path node -> list (list string)) : Prop :=
  forall w, exists evs,
    log (m w).2 = log w ++ evs /\
    match (m w).1 with
    | Ok _ => (call_name <$> evs) ∈ S (fs w)
    | Raise _ => exists l, l ∈ S (fs w) /\ (call_name <$> evs) `prefix_of` l
    end.

(** Computations that leave the local file system alone. *)
Definition fs_kept {value A : Type} (m : @M value A) : Prop :=
  forall w, fs (m w).2 = fs w.

(** Two platforms that differ at most in the housing rows the first split
    sends to the test partition, when [k] permutations were drawn before:
    same table shape, same generator, same formatting, same account, the
    same training (a job yields the same model artifact), and the same
    features and targets at every position outside the test positions. *)
Record same_but_test_rows {value : Type} (p1 p2 : platform value) (k : nat)
  : Prop := mkSameButTest {
  same_names : boston_feature_names p1 = boston_feature_names p2;
  same_row_count : length (boston_data p1) = length (boston_data p2);
  same_shuffle : forall j n, shuffle p1 j n = shuffle p2 j n;
  same_repr : forall v, pandas_repr p1 v = pandas_repr p2 v;
  same_region : boto_region_name p1 = boto_region_name p2;
  same_bucket : default_bucket p1 = default_bucket p2;
  same_role : execution_role p1 = execution_role p2;
  same_image_uri : forall r a v, image_uri p1 r a v = image_uri p2 r a v;
  same_job_name : forall image, new_job_name p1 image = new_job_name p2 image;
  same_training : forall job, model_artifact p1 job = model_artifact p2 job;
  same_other_rows :
    forall i,
      i ∉ test_positions (shuffle p1 k (length (boston_data p1)))
                         (length (boston_data p1)) ->
      boston_data p1 !! i = boston_data p2 !! i /\
      boston_target p1 !! i = boston_target p2 !! i
}.


(** ** Vocabulary of the further properties *)

(** The demo platform with an endpoint that answers [reply] to every
    request. *)
Definition demo_replying (reply : list Byte.byte) (n : nat) : platform N :=
  mkPlatform N (demo_data n) (demo_target n) demo_names
    (fun _ n => reverse (seq 0 n)) (fun _ n => reverse_Permutation (seq 0 n))
    pretty pretty demo_fromstring
    "us-east-1" "sagemaker-us-east-1-demo" "arn:aws:iam::demo:role/notebook"
    (fun region algorithm version => region ++ "/" ++ algorithm ++ ":" ++ version)%string
    (fun image => "xgboost-demo-job")
    (fun _ _ _ => reply)
    (fun job => "model.tar.gz of the demo").

(** ** The footprint of a run *)

(** [footprint p w w']: what may differ between the world [w] a computation
    starts in and the world [w'] it leaves.  Locally only the data
    directory, its parent and the two CSV files; in the store only the two
    uploaded objects and the model artifact of the training job; among the
    jobs and the endpoints only the one that carries the name of the
    training job.  Files, objects and jobs that were
    there are still there. *)
Record footprint {value : Type} (p : platform value) (w w' : world value)
  : Prop := mkFootprint {
  fs_outside :
    forall q, q ∉ [path_head data_dir; data_dir; val_path; train_path] ->
              fs w' !! q = fs w !! q;
  fs_stays : forall q, is_Some (fs w !! q) -> is_Some (fs w' !! q);
  s3_outside :
    forall k, k ∉ [val_uri p; train_uri p; model_uri p] -> s3 w' !! k = s3 w !! k;
  s3_stays : forall k, is_Some (s3 w !! k) -> is_Some (s3 w' !! k);
  jobs_outside : forall k, k <> endpoint_name p -> jobs w' !! k = jobs w !! k;
  jobs_stay : forall k, is_Some (jobs w !! k) -> is_Some (jobs w' !! k);
  endpoints_outside :
    forall k, k <> endpoint_name p -> endpoints w' !! k = endpoints w !! k
}.

(** [within p m Q]: whatever world [m] starts in, it stays within the
    footprint, and a value it returns satisfies [Q]. *)
Definition within {value A : Type} (p : platform value) (m : @M value A)
    (Q : A -> Prop) : Prop :=
  forall w, footprint p w (m w).2 /\ forall a, (m w).1 = Ok a -> Q a.

(** The bytes that occur in no UTF-8 text: [0xC0], [0xC1] and [0xF5] to
    [0xFF]. *)
Definition never_in_utf8 (b : Byte.byte) : bool :=
  in_range 192 193 b || in_range 245 255 b.

(** The two roundings compared at one row count, on binary integers, and
    at all row counts below a bound. *)
Definition ceilings_agree (z : Z) : bool :=
  Z.eqb (float_ceil
           (PrimFloat.mul 0x1.51eb851eb851fp-2%float
                          (PrimFloat.of_uint63 (Uint63.of_Z z))))
        ((33 * z + 99) / 100).

Definition ceilings_agree_below (bound : N) : bool :=
  (N.iter bound (fun st : Z * bool => (Z.succ st.1, st.2 && ceilings_agree st.1))
          (0%Z, true)).2.
(* ================================================================== *)
(** * Properties *)

(** ** Split sizes *)

Lemma n_test_of_div (n : nat) :
  n_test_of n = Z.to_nat ((33 * Z.of_nat n + 99) / 100).
Proof.
  unfold n_test_of, test_size, Qceiling, Qfloor. f_equal.
  cbn [Qmult Qopp Qnum Qden inject_Z].
  set (z := Z.of_nat n).
  replace (Z.pos (100 * 1)) with 100%Z by reflexivity.
  assert (Hz : (0 <= z)%Z) by (unfold z; lia).
  clearbody z. clear n.
  pose proof (Z.div_mod (- (33 * z)) 100 ltac:(lia)).
  pose proof (Z.mod_pos_bound (- (33 * z)) 100 ltac:(lia)).
  pose proof (Z.div_mod (33 * z + 99) 100 ltac:(lia)).
  pose proof (Z.mod_pos_bound (33 * z + 99) 100 ltac:(lia)).
  lia.
Qed.

(** [n_test_of n] is the least integer not below [0.33 * n]. *)
Lemma n_test_of_bounds (n : nat) :
  33 * n <= 100 * n_test_of n /\ 100 * n_test_of n < 33 * n + 100.
Proof.
  rewrite n_test_of_div.
  pose proof (Z.div_mod (33 * Z.of_nat n + 99) 100 ltac:(lia)).
  pose proof (Z.mod_pos_bound (33 * Z.of_nat n + 99) 100 ltac:(lia)).
  lia.
Qed.

Lemma n_test_of_le (n : nat) : n_test_of n <= n.
Proof. pose proof (n_test_of_bounds n). lia. Qed.

Lemma n_test_train_sum (n : nat) : n_test_of n + n_train_of n = n.
Proof. unfold n_train_of. pose proof (n_test_of_le n). lia. Qed.

Lemma n_train_of_zero (n : nat) : n_train_of n = 0 <-> n <= 1.
Proof. unfold n_train_of. pose proof (n_test_of_bounds n). lia. Qed.

Lemma n_train_of_ge2 (n : nat) : 2 <= n_train_of n <-> 3 <= n.
Proof. unfold n_train_of. pose proof (n_test_of_bounds n). lia. Qed.

(** The comparison run on binary integers covers every row count below the
    bound. *)
Lemma ceilings_agree_below_spec (bound : N) :
  ceilings_agree_below bound = true ->
  forall z, (0 <= z < Z.of_N bound)%Z -> ceilings_agree z = true.
Proof.
  unfold ceilings_agree_below.
  set (step := fun st : Z * bool => (Z.succ st.1, st.2 && ceilings_agree st.1)).
  assert (H : forall n,
            (N.iter n step (0%Z, true)).1 = Z.of_N n /\
            ((N.iter n step (0%Z, true)).2 = true ->
             forall z, (0 <= z < Z.of_N n)%Z -> ceilings_agree z = true)).
  { intros n. induction n as [|n [IH1 IH2]] using N.peano_ind.
    - split; [done|]. intros _ z Hz. lia.
    - rewrite N.iter_succ. unfold step at 1. cbn [fst snd]. rewrite IH1. split; [lia|].
      intros [Hall Hn]%andb_true_iff z Hz.
      destruct (decide (z = Z.of_N n)) as [->|Hne]; [by rewrite IH1 in Hn|].
      apply IH2; [done|lia]. }
  intros Hb. by apply H.
Qed.

Lemma ceilings_agree_checked : ceilings_agree_below 10000 = true.
Proof. vm_compute. reflexivity. Qed.

(** The product computed in binary64 rounds up to the same integer, for
    every row count below ten thousand. *)
Lemma n_test_binary64_agrees :
  forallb (fun n => Nat.eqb (n_test_binary64 n) (n_test_of n)) (seq 0 (10 * 1000)) = true.
Proof.
  apply List.forallb_forall. intros n Hn%List.in_seq. apply Nat.eqb_eq.
  unfold n_test_binary64. rewrite n_test_of_div. f_equal.
  apply Z.eqb_eq.
  apply (ceilings_agree_below_spec 10000 ceilings_agree_checked (Z.of_nat n)). lia.
Qed.

Lemma split_positions (perm : list nat) (n : nat) :
  length perm = n ->
  test_positions perm n ++ train_positions perm n = perm.
Proof.
  intros Hlen. unfold test_positions, train_positions.
  rewrite (take_ge (drop _ _)).
  - apply take_drop.
  - rewrite length_drop. pose proof (n_test_train_sum n). lia.
Qed.

Lemma split_positions_lengths (perm : list nat) (n : nat) :
  length perm = n ->
  length (test_positions perm n) = n_test_of n /\
  length (train_positions perm n) = n_train_of n.
Proof.
  intros Hlen. unfold test_positions, train_positions.
  rewrite !length_take, length_drop.
  pose proof (n_test_train_sum n). lia.
Qed.

(** ** Frames *)

Section FrameFacts.
Context {value : Type}.
Implicit Types d : DataFrame value.

Lemma iloc_picks d positions :
  Forall (fun i => i < length (rows d)) positions ->
  exists d', iloc d positions = Ok d' /\ picks d positions d'.
Proof.
  intros Hpos. unfold iloc.
  destruct (mapM (fun i => rows d !! i) positions) as [rs|] eqn:Hm.
  - eexists. split; [reflexivity|]. split; [reflexivity|].
    cbn. by apply mapM_Some.
  - exfalso. apply eq_None_not_Some in Hm. apply Hm.
    apply mapM_is_Some. eapply Forall_impl; [exact Hpos|].
    intros i Hi. by apply lookup_lt_is_Some.
Qed.

Lemma picks_length d positions d' :
  picks d positions d' -> length (rows d') = length positions.
Proof. intros [_ H]. symmetry. by eapply Forall2_length. Qed.

Lemma labelled_lookup {A} (data : list A) (i : nat) :
  imap (fun i r => (i, r)) data !! i = (fun r => (i, r)) <$> data !! i.
Proof. by rewrite list_lookup_imap. Qed.

(** Permuting positions permutes what is picked. *)
Lemma Forall2_lookup_perm {A} (l : list A) (perm k : list nat) (picked : list A) :
  perm ≡ₚ k ->
  Forall2 (fun i x => l !! i = Some x) perm picked ->
  exists picked', Forall2 (fun i x => l !! i = Some x) k picked' /\ picked ≡ₚ picked'.
Proof.
  intros Hp. revert picked. induction Hp; intros picked HF.
  - inversion HF; subst. exists []. by split.
  - inversion HF as [|? y ? ys Hx Hrest]; subst.
    destruct (IHHp _ Hrest) as (ys' & ? & ?).
    exists (y :: ys'). split; [by constructor|by constructor].
  - inversion HF as [|? a ? ys Hx Hrest]; subst.
    inversion Hrest as [|? b ? zs Hy Hrest']; subst.
    exists (b :: a :: zs). split; [by repeat constructor|by constructor].
  - destruct (IHHp1 _ HF) as (p1 & H1 & ?).
    destruct (IHHp2 _ H1) as (p2 & H2 & ?).
    exists p2. split; [done|by etrans].
Qed.

Lemma Forall2_lookup_seq {A} (l picked : list A) :
  Forall2 (fun i x => l !! i = Some x) (seq 0 (length l)) picked -> picked = l.
Proof.
  intros HF. apply list_eq. intros i.
  destruct (decide (i < length l)) as [Hi|Hi].
  - pose proof (Forall2_length _ _ _ HF) as Hlen. rewrite length_seq in Hlen.
    destruct (lookup_lt_is_Some_2 picked i ltac:(lia)) as [x Hx].
    rewrite Hx.
    eapply Forall2_lookup_lr in HF; [| apply lookup_seq_lt; exact Hi | exact Hx].
    cbn in HF. by rewrite HF.
  - pose proof (Forall2_length _ _ _ HF) as Hlen. rewrite length_seq in Hlen.
    rewrite !lookup_ge_None_2; [done|lia|lia].
Qed.

Lemma Forall2_seq_lookup (n : nat) (positions labels : list nat) :
  Forall2 (fun i l => seq 0 n !! i = Some l) positions labels ->
  labels = positions.
Proof.
  induction 1 as [|i l ? ? Hl _ IH]; [done|].
  apply lookup_seq in Hl as [-> _]. by rewrite IH.
Qed.

Lemma picked_permutation {A} (l : list A) (perm : list nat) (picked : list A) :
  perm ≡ₚ seq 0 (length l) ->
  Forall2 (fun i x => l !! i = Some x) perm picked ->
  picked ≡ₚ l.
Proof.
  intros Hp HF.
  destruct (Forall2_lookup_perm _ _ _ _ Hp HF) as (k & Hk & ?).
  apply Forall2_lookup_seq in Hk. by subst.
Qed.
End FrameFacts.

(** ** Facts about one split *)

Section SplitFacts.
Context {value : Type}.
Implicit Types d : DataFrame value.

Lemma picks_index d positions d' :
  picks d positions d' ->
  Forall2 (fun i l => index d !! i = Some l) positions (index d').
Proof.
  intros [_ H]. unfold index. apply Forall2_fmap_r.
  eapply Forall2_impl; [exact H|]. intros i r Hr. cbn.
  by rewrite list_lookup_fmap, Hr.
Qed.

Lemma picks_same_index (dx dy dx' dy' : DataFrame value) positions :
  index dy = index dx ->
  picks dx positions dx' -> picks dy positions dy' ->
  index dy' = index dx'.
Proof.
  intros Hi Hx%picks_index Hy%picks_index. rewrite Hi in Hy.
  revert Hy. generalize (index dy'). induction Hx; intros k Hy; inversion Hy; subst.
  - done.
  - f_equal; [congruence|]. by apply IHHx.
Qed.

Lemma picks_drawn_from (table : list (list value)) d positions d' :
  picks d positions d' -> drawn_from table d -> drawn_from table d'.
Proof.
  intros [_ H] Hd. unfold drawn_from in *.
  apply Forall_forall. intros r Hr.
  apply list_elem_of_lookup in Hr as [j Hj].
  destruct (Forall2_lookup_r _ _ _ _ _ H Hj) as (i & _ & Hi).
  rewrite Forall_forall in Hd. apply Hd.
  apply list_elem_of_lookup. eauto.
Qed.

Lemma labelled_index {A B} (f : A -> B) (data : list A) :
  (imap (fun i r => (i, f r)) data).*1 = seq 0 (length data).
Proof.
  apply list_eq. intros i. rewrite list_lookup_fmap, list_lookup_imap.
  destruct (data !! i) as [x|] eqn:E; cbn.
  - symmetry. apply lookup_seq. split; [done|]. by eapply lookup_lt_Some.
  - symmetry. apply lookup_ge_None. rewrite length_seq. by apply lookup_ge_None.
Qed.

Lemma labelled_drawn_from (cols : list string) (data : list (list value)) :
  drawn_from data (mkFrame cols (imap (fun i r => (i, r)) data)).
Proof.
  unfold drawn_from. cbn. apply Forall_forall. intros r Hr.
  apply list_elem_of_lookup in Hr as [j Hj].
  rewrite list_lookup_imap in Hj.
  destruct (data !! j) as [x|] eqn:E; cbn in Hj; [|done].
  by injection Hj as <-.
Qed.

Lemma frame_of_vector_drawn_from (target : list value) :
  drawn_from ((fun y => [y]) <$> target) (frame_of_vector target).
Proof.
  unfold drawn_from, frame_of_vector. cbn. apply Forall_forall. intros r Hr.
  apply list_elem_of_lookup in Hr as [j Hj].
  rewrite list_lookup_imap in Hj.
  destruct (target !! j) as [x|] eqn:E; cbn in Hj; [|done].
  injection Hj as <-. cbn. by rewrite list_lookup_fmap, E.
Qed.

(** One split covers the index of the frame it splits. *)
Lemma split_cover d (perm : list nat) d_train d_test :
  perm ≡ₚ seq 0 (length (rows d)) ->
  picks d (train_positions perm (length (rows d))) d_train ->
  picks d (test_positions perm (length (rows d))) d_test ->
  index d_test ++ index d_train ≡ₚ index d.
Proof.
  intros Hperm Htr%picks_index Hte%picks_index.
  assert (Hlen : length perm = length (rows d)) by (by rewrite Hperm, length_seq).
  pose proof (Forall2_app Hte Htr) as H.
  rewrite (split_positions _ _ Hlen) in H.
  eapply picked_permutation; [|exact H].
  unfold index. by rewrite length_fmap.
Qed.
End SplitFacts.

(** ** Running the cells *)

Section Run.
Context {value : Type} (p : platform value).
Implicit Types w : world value.

Lemma run_bind {A B} (m : M A) (f : A -> M B) w :
  (m ≫= f) w =
  match m w with (Ok a, w') => f a w' | (Raise e, w') => (Raise e, w') end.
Proof. reflexivity. Qed.

Lemma run_ret {A} (a : A) w : (mret a : M A) w = (Ok a, w).
Proof. reflexivity. Qed.

Lemma world_eq w w' :
  fs w = fs w' -> s3 w = s3 w' -> jobs w = jobs w' ->
  endpoints w = endpoints w' -> draws w = draws w' -> log w = log w' ->
  w = w'.
Proof. destruct w, w'. cbn. by intros -> -> -> -> -> ->. Qed.

Lemma train_test_split_ok (X Y : DataFrame value) w :
  length (rows Y) = length (rows X) ->
  2 <= length (rows X) ->
  let n := length (rows X) in
  let perm := shuffle p (draws w) n in
  exists X_train X_test Y_train Y_test,
    train_test_split p X Y w =
      (Ok (X_train, X_test, Y_train, Y_test),
       mkWorld (fs w) (s3 w) (jobs w) (endpoints w) (S (draws w))
               (log w ++ [EvTrainTestSplit n])) /\
    picks X (train_positions perm n) X_train /\
    picks X (test_positions perm n) X_test /\
    picks Y (train_positions perm n) Y_train /\
    picks Y (test_positions perm n) Y_test.
Proof.
  intros HY Hn n perm.
  assert (Hperm : perm ≡ₚ seq 0 n) by apply shuffle_perm.
  assert (Hlen : length perm = n) by (by rewrite Hperm, length_seq).
  assert (Hall : Forall (fun i => i < n) perm).
  { rewrite Hperm. apply Forall_forall. intros i Hi.
    apply elem_of_seq in Hi. lia. }
  assert (Htr : Forall (fun i => i < n) (train_positions perm n)).
  { unfold train_positions. by apply Forall_take, Forall_drop. }
  assert (Hte : Forall (fun i => i < n) (test_positions perm n)).
  { unfold test_positions. by apply Forall_take. }
  destruct (iloc_picks X _ Htr) as (Xtr & EXtr & PXtr).
  destruct (iloc_picks X _ Hte) as (Xte & EXte & PXte).
  assert (HtrY : Forall (fun i => i < length (rows Y)) (train_positions perm n)) by (by rewrite HY).
  assert (HteY : Forall (fun i => i < length (rows Y)) (test_positions perm n)) by (by rewrite HY).
  destruct (iloc_picks Y _ HtrY) as (Ytr & EYtr & PYtr).
  destruct (iloc_picks Y _ HteY) as (Yte & EYte & PYte).
  exists Xtr, Xte, Ytr, Yte. split; [|done].
  unfold train_test_split. fold n.
  rewrite run_bind. cbn [emit].
  rewrite HY. fold n. rewrite Nat.eqb_refl. cbn [negb].
  destruct (Nat.eqb_spec (n_train_of n) 0) as [Hz|Hz].
  { apply n_train_of_zero in Hz. lia. }
  rewrite run_bind. cbn [draw_permutation draws fs s3 jobs endpoints log].
  fold perm.
  rewrite run_bind. unfold lift at 1. rewrite EXtr.
  rewrite run_bind. unfold lift at 1. rewrite EXte.
  rewrite run_bind. unfold lift at 1. rewrite EYtr.
  rewrite run_bind. unfold lift at 1. rewrite EYte.
  reflexivity.
Qed.
Lemma well_shaped_inv :
  well_shaped p = true ->
  length (boston_target p) = length (boston_data p) /\
  forallb (fun r => Nat.eqb (length r) (length (boston_feature_names p)))
          (boston_data p) = true /\
  3 <= length (boston_data p).
Proof.
  unfold well_shaped. rewrite !andb_true_iff.
  intros [[H1 H2] H3]. apply Nat.eqb_eq in H1. apply Nat.leb_le in H3. done.
Qed.

Lemma cell_split_ok w :
  well_shaped p = true ->
  exists parts,
    cell_split p w =
      (Ok parts,
       mkWorld (fs w) (s3 w) (jobs w) (endpoints w) (S (S (draws w)))
         (log w ++ [EvLoadBoston; EvDataFrame; EvDataFrame;
                    EvTrainTestSplit (length (boston_data p));
                    EvTrainTestSplit (n_train_of (length (boston_data p)))])) /\
    partitioned p (draws w) parts.
Proof.
  intros (Htarget & Hwidth & Hrows)%well_shaped_inv.
  set (N := length (boston_data p)) in *.
  set (X0 := mkFrame (boston_feature_names p)
               (imap (fun i r => (i, r)) (boston_data p))).
  set (Y0 := frame_of_vector (boston_target p)).
  assert (HX0 : length (rows X0) = N) by (cbn; by rewrite length_imap).
  assert (HY0 : length (rows Y0) = length (rows X0)).
  { cbn. by rewrite !length_imap. }
  set (w1 := mkWorld (fs w) (s3 w) (jobs w) (endpoints w) (draws w)
               (log w ++ [EvLoadBoston; EvDataFrame; EvDataFrame])).
  destruct (train_test_split_ok X0 Y0 w1 HY0 ltac:(lia))
    as (X1 & Xte & Y1 & Yte & E1 & PX1 & PXte & PY1 & PYte).
  rewrite HX0 in E1, PX1, PXte, PY1, PYte. cbn [draws w1] in PX1, PXte, PY1, PYte.
  set (perm1 := shuffle p (draws w) N) in *.
  assert (Hperm1 : perm1 ≡ₚ seq 0 N) by apply shuffle_perm.
  assert (Hlen1 : length perm1 = N) by (by rewrite Hperm1, length_seq).
  destruct (split_positions_lengths perm1 N Hlen1) as [Lte1 Ltr1].
  assert (HX1 : length (rows X1) = n_train_of N).
  { by rewrite (picks_length _ _ _ PX1). }
  assert (HY1 : length (rows Y1) = length (rows X1)).
  { by rewrite (picks_length _ _ _ PY1), (picks_length _ _ _ PX1). }
  assert (Hn1 : 2 <= length (rows X1)).
  { rewrite HX1. apply n_train_of_ge2. lia. }
  set (w2 := mkWorld (fs w1) (s3 w1) (jobs w1) (endpoints w1) (S (draws w1))
               (log w1 ++ [EvTrainTestSplit N])) in *.
  destruct (train_test_split_ok X1 Y1 w2 HY1 Hn1)
    as (Xtr & Xva & Ytr & Yva & E2 & PXtr & PXva & PYtr & PYva).
  rewrite HX1 in E2, PXtr, PXva, PYtr, PYva. cbn [draws w2 w1] in PXtr, PXva, PYtr, PYva.
  set (perm2 := shuffle p (S (draws w)) (n_train_of N)) in *.
  assert (Hperm2 : perm2 ≡ₚ seq 0 (n_train_of N)) by apply shuffle_perm.
  assert (Hlen2 : length perm2 = n_train_of N) by (by rewrite Hperm2, length_seq).
  destruct (split_positions_lengths perm2 _ Hlen2) as [Lte2 Ltr2].
  exists (mkPartitions Xtr Xva Xte Ytr Yva Yte). split.
  - cbv beta iota zeta delta
      [cell_split load_boston pd_DataFrame pd_DataFrame_vector mbind M_bind
       mret M_ret emit lift].
    cbn [fst snd fs s3 jobs endpoints draws log].
    unfold frame_of_array. rewrite Hwidth. fold X0 Y0.
    rewrite <- !(assoc_L (++)). cbn [app]. fold w1.
    rewrite E1. fold w2. rewrite E2.
    f_equal. unfold w2, w1. cbn [fs s3 jobs endpoints draws log].
    by rewrite <- !(assoc_L (++)).
  - assert (IX0 : index X0 = seq 0 N) by apply labelled_index.
    assert (IY0 : index Y0 = index X0).
    { unfold index, Y0, X0, frame_of_vector. cbn [rows].
      rewrite (labelled_index (fun y => [y])), (labelled_index (fun r => r)).
      fold N. by rewrite Htarget. }
    assert (IY1 : index Y1 = index X1)
      by exact (picks_same_index _ _ _ _ _ IY0 PX1 PY1).
    assert (DX0 : drawn_from (boston_data p) X0) by apply labelled_drawn_from.
    assert (DY0 : drawn_from (targets_table p) Y0) by apply frame_of_vector_drawn_from.
    assert (DX1 : drawn_from (boston_data p) X1)
      by exact (picks_drawn_from _ _ _ _ PX1 DX0).
    assert (DY1 : drawn_from (targets_table p) Y1)
      by exact (picks_drawn_from _ _ _ _ PY1 DY0).
    assert (C1 : index Xte ++ index X1 ≡ₚ seq 0 N).
    { rewrite <- IX0. eapply (split_cover X0 perm1); rewrite ?HX0; done. }
    assert (C2 : index Xva ++ index Xtr ≡ₚ index X1).
    { eapply (split_cover X1 perm2); rewrite ?HX1; done. }
    assert (IX1 : index X1 = train_positions perm1 N).
    { apply picks_index in PX1. rewrite IX0 in PX1.
      by apply (Forall2_seq_lookup N). }
    split; cbn [part_X_train part_X_val part_X_test part_Y_train part_Y_val part_Y_test].
    + fold N perm1. apply picks_index in PXte. rewrite IX0 in PXte.
      by apply (Forall2_seq_lookup N).
    + fold N perm1 perm2. rewrite <- IX1. by apply picks_index.
    + fold N perm1 perm2. rewrite <- IX1. by apply picks_index.
    + exact (picks_same_index _ _ _ _ _ IY1 PXtr PYtr).
    + exact (picks_same_index _ _ _ _ _ IY1 PXva PYva).
    + exact (picks_same_index _ _ _ _ _ IY0 PXte PYte).
    + rewrite (assoc_L (++)). rewrite (comm (++) (index Xtr)), C2. by rewrite (comm (++)).
    + exact (picks_drawn_from _ _ _ _ PXtr DX1).
    + exact (picks_drawn_from _ _ _ _ PXva DX1).
    + exact (picks_drawn_from _ _ _ _ PXte DX0).
    + exact (picks_drawn_from _ _ _ _ PYtr DY1).
    + exact (picks_drawn_from _ _ _ _ PYva DY1).
    + exact (picks_drawn_from _ _ _ _ PYte DY0).
    + by rewrite (picks_length _ _ _ PXte).
    + by rewrite (picks_length _ _ _ PXva).
    + by rewrite (picks_length _ _ _ PXtr).
    + destruct PXtr as [-> _], PXva as [-> _], PXte as [-> _], PX1 as [-> _]. done.
    + destruct PYtr as [-> _], PYva as [-> _], PYte as [-> _], PY1 as [-> _]. done.
Qed.
End Run.

(** ** The data directory *)

Section DataDir.
Context {value : Type} (p : platform value).
Implicit Types w : world value.
Implicit Types f : gmap path node.

Lemma node_at_plain f (d : path) :
  only_dotdot d = false -> node_at f d = f !! d.
Proof. unfold node_at. by intros ->. Qed.

Lemma makedirs_data_dir f :
  path_exists f data_dir = false ->
  makedirs f data_dir =
    match node_at f (path_head data_dir) with
    | Some Dir => (<[data_dir := Dir]> f, None)
    | Some (File _) => (f, Some NotADirectoryError)
    | None => (<[data_dir := Dir]> (<[path_head data_dir := Dir]> f), None)
    end.
Proof.
  unfold path_exists, makedirs, makedirs_rev, mkdir, path_exists, node_at,
    data_dir, path_head.
  cbn.
  destruct (f !! [".."; "data"; "boston"]) as [?|] eqn:Hd;
    [intros H; discriminate H|]. intros _.
  destruct (f !! [".."; "data"]) as [[|text]|] eqn:Hh.
  - done.
  - done.
  - rewrite lookup_insert_ne by done. rewrite Hd.
    by rewrite lookup_insert_eq.
Qed.

Lemma cell_data_dir_present w :
  path_exists (fs w) data_dir = true ->
  cell_data_dir w = (Ok (), logged [EvPathExists data_dir] w).
Proof.
  intros H.
  cbv beta iota zeta delta
    [cell_data_dir os_path_exists os_makedirs mbind M_bind mret M_ret emit].
  cbn [fs s3 jobs endpoints draws log]. by rewrite H.
Qed.

Lemma cell_data_dir_absent w :
  path_exists (fs w) data_dir = false ->
  cell_data_dir w =
    match makedirs (fs w) data_dir with
    | (f, None) =>
        (Ok (), set_fs f (logged [EvPathExists data_dir; EvMakedirs data_dir] w))
    | (f, Some e) =>
        (Raise e, set_fs f (logged [EvPathExists data_dir; EvMakedirs data_dir] w))
    end.
Proof.
  intros H.
  cbv beta iota zeta delta
    [cell_data_dir os_path_exists os_makedirs mbind M_bind mret M_ret emit].
  cbn [fs s3 jobs endpoints draws log]. rewrite H. cbn [negb].
  unfold logged, set_fs. cbn [fs s3 jobs endpoints draws log].
  rewrite <- (assoc_L (++)). cbn [app].
  by destruct (makedirs (fs w) data_dir) as [f [e|]].
Qed.

(** When the data directory is usable the guard cell returns. *)
Lemma cell_data_dir_ok w :
  data_dir_usable (fs w) = true ->
  cell_data_dir w =
    (Ok (), set_fs (fs_after_guard (fs w))
              (logged (EvPathExists data_dir ::
                        (if path_exists (fs w) data_dir then []
                         else [EvMakedirs data_dir])) w)) /\
  node_at (fs_after_guard (fs w)) data_dir = Some Dir /\
  not_a_dir (fs_after_guard (fs w)) val_path = true /\
  not_a_dir (fs_after_guard (fs w)) train_path = true.
Proof.
  unfold data_dir_usable, fs_after_guard. rewrite !andb_true_iff.
  intros [[Hd Hv] Ht].
  destruct (path_exists (fs w) data_dir) eqn:Hex.
  - rewrite (cell_data_dir_present w Hex). repeat split; try done.
    unfold path_exists in Hex.
    destruct (node_at (fs w) data_dir) as [[|?]|]; done.
  - rewrite (cell_data_dir_absent w Hex), (makedirs_data_dir _ Hex).
    unfold path_exists in Hex.
    destruct (node_at (fs w) data_dir) as [?|] eqn:Hnode; [done|].
    unfold not_a_dir, node_at in Hv, Ht. cbn in Hv, Ht.
    unfold val_path, train_path.
    destruct (node_at (fs w) (path_head data_dir)) as [[|text]|] eqn:Hh; [| done |].
    + split; [reflexivity|]. repeat split.
      * unfold node_at. cbn. by rewrite lookup_insert_eq.
      * unfold not_a_dir, node_at. cbn. by rewrite lookup_insert_ne.
      * unfold not_a_dir, node_at. cbn. by rewrite lookup_insert_ne.
    + split; [reflexivity|]. repeat split.
      * unfold node_at. cbn. by rewrite lookup_insert_eq.
      * unfold not_a_dir, node_at. cbn. by rewrite !lookup_insert_ne.
      * unfold not_a_dir, node_at. cbn. by rewrite !lookup_insert_ne.
Qed.
End DataDir.

(** ** From the first cell to the training job *)

Section Train.
Context {value : Type} (p : platform value).
Implicit Types w : world value.

Lemma cell_setup_run w :
  cell_setup p w =
    (Ok (mkSession (boto_region_name p) (default_bucket p), execution_role p),
     logged [EvSession; EvGetExecutionRole] w).
Proof.
  cbv beta iota zeta delta
    [cell_setup sagemaker_Session get_execution_role mbind M_bind mret M_ret emit].
  cbn [fs s3 jobs endpoints draws log]. unfold logged.
  by rewrite <- (assoc_L (++)).
Qed.

Lemma write_file_ok (f : gmap path node) (file : path) (text : string) :
  node_at f (path_head file) = Some Dir ->
  not_a_dir f file = true ->
  write_file f file text = Ok (<[file := File text]> f).
Proof.
  unfold write_file, not_a_dir. intros -> H.
  by destruct (node_at f file) as [[|?]|].
Qed.

Lemma cell_save_run (parts : partitions) w :
  node_at (fs w) data_dir = Some Dir ->
  not_a_dir (fs w) val_path = true ->
  not_a_dir (fs w) train_path = true ->
  cell_save p parts w =
    (Ok (),
     set_fs (<[train_path := File (saved_text p (part_Y_train parts) (part_X_train parts))]>
               (<[val_path := File (saved_text p (part_Y_val parts) (part_X_val parts))]>
                  (fs w)))
       (logged [EvConcat; EvToCsv val_path false false;
                EvConcat; EvToCsv train_path false false] w)).
Proof.
  intros Hdir Hval Htrain.
  cbv beta iota zeta delta
    [cell_save pd_concat to_csv mbind M_bind mret M_ret emit].
  cbn [fs s3 jobs endpoints draws log set_fs].
  fold val_path train_path.
  fold (saved_text p (part_Y_val parts) (part_X_val parts)).
  fold (saved_text p (part_Y_train parts) (part_X_train parts)).
  rewrite (write_file_ok _ val_path _ Hdir Hval).
  cbn [fs s3 jobs endpoints draws log set_fs].
  rewrite (write_file_ok _ train_path).
  2: { change (path_head train_path) with data_dir.
       unfold node_at in *. cbn in *. by rewrite lookup_insert_ne. }
  2: { unfold not_a_dir, node_at in *. cbn in *. by rewrite lookup_insert_ne. }
  unfold set_fs, logged. cbn [fs s3 jobs endpoints draws log].
  by rewrite <- !(assoc_L (++)).
Qed.

Lemma cell_upload_run (t_val t_train : string) (f : gmap path node) w :
  let w0 := set_fs (<[train_path := File t_train]> (<[val_path := File t_val]> f)) w in
  cell_upload (mkSession (boto_region_name p) (default_bucket p)) w0 =
    (Ok (val_uri p, train_uri p),
     set_s3 (<[train_uri p := t_train]> (<[val_uri p := t_val]> (s3 w)))
       (logged [EvUploadData val_path prefix; EvUploadData train_path prefix] w0)).
Proof.
  intros w0.
  cbv beta iota zeta delta
    [cell_upload upload_data mbind M_bind mret M_ret emit].
  cbn [fs s3 jobs endpoints draws log set_s3 session_bucket].
  fold val_path train_path.
  assert (Hrv : read_file (fs w0) val_path = Ok t_val).
  { unfold read_file, node_at. cbn.
    rewrite lookup_insert_ne by done. by rewrite lookup_insert_eq. }
  assert (Hrt : read_file (fs w0) train_path = Ok t_train).
  { unfold read_file, node_at. cbn. by rewrite lookup_insert_eq. }
  rewrite Hrv. cbn [fs s3 jobs endpoints draws log set_s3 session_bucket].
  rewrite Hrt. cbn [fs s3 jobs endpoints draws log set_s3 session_bucket].
  unfold set_s3, logged. cbn [fs s3 jobs endpoints draws log].
  by rewrite <- !(assoc_L (++)).
Qed.

Lemma cell_estimator_run w :
  cell_estimator p (mkSession (boto_region_name p) (default_bucket p))
      (execution_role p) w =
    (Ok (xgboost_image p,
         mkEstimator (xgboost_image p) (execution_role p) 1 "ml.m4.xlarge"
           ("s3://" ++ default_bucket p ++ "/" ++ prefix ++ "/output") ∅ None),
     logged [EvGetImageUri (boto_region_name p) "xgboost" "0.90-1";
             EvDefaultBucket; EvEstimator (xgboost_image p)] w).
Proof.
  cbv beta iota zeta delta
    [cell_estimator get_image_uri session_default_bucket new_Estimator
     mbind M_bind mret M_ret emit].
  cbn [fs s3 jobs endpoints draws log session_region session_bucket].
  unfold logged. by rewrite <- !(assoc_L (++)).
Qed.

Lemma cell_hyperparameters_run w :
  cell_hyperparameters
      (mkEstimator (xgboost_image p) (execution_role p) 1 "ml.m4.xlarge"
         ("s3://" ++ default_bucket p ++ "/" ++ prefix ++ "/output") ∅ None) w =
    (Ok (mkEstimator (xgboost_image p) (execution_role p) 1 "ml.m4.xlarge"
           ("s3://" ++ default_bucket p ++ "/" ++ prefix ++ "/output")
           xgb_hyperparameters None),
     logged [EvSetHyperparameters] w).
Proof. reflexivity. Qed.

Lemma cell_fit_run w :
  cell_fit p
      (mkEstimator (xgboost_image p) (execution_role p) 1 "ml.m4.xlarge"
         ("s3://" ++ default_bucket p ++ "/" ++ prefix ++ "/output")
         xgb_hyperparameters None)
      (val_uri p) (train_uri p) w =
    (Ok (fitted_estimator p),
     set_s3 (<[model_uri p :=
               model_artifact p
                 (mkJob (xgboost_image p) (execution_role p) 1 "ml.m4.xlarge"
                    ("s3://" ++ default_bucket p ++ "/" ++ prefix ++ "/output")
                    xgb_hyperparameters (fit_channels p)
                    ((fun i => objects_under (s3 w) (s3_data i)) <$> fit_channels p))]>
               (s3 w))
       (set_jobs (<[endpoint_name p :=
                   mkJob (xgboost_image p) (execution_role p) 1 "ml.m4.xlarge"
                     ("s3://" ++ default_bucket p ++ "/" ++ prefix ++ "/output")
                     xgb_hyperparameters (fit_channels p)
                     ((fun i => objects_under (s3 w) (s3_data i)) <$> fit_channels p)]>
                  (jobs w))
          (logged [EvS3Input (train_uri p) "csv"; EvS3Input (val_uri p) "csv";
                   EvFit (xgboost_image p) (fit_channels p)] w))).
Proof.
  cbv beta iota zeta delta
    [cell_fit new_s3_input fit mbind M_bind mret M_ret emit].
  cbn [fs s3 jobs endpoints draws log set_jobs set_s3
       image_name role train_instance_count train_instance_type output_path
       hyperparameters latest_training_job].
  unfold logged, set_jobs, set_s3, model_uri, output_uri.
  cbn [fs s3 jobs endpoints draws log].
  by rewrite <- !(assoc_L (++)).
Qed.

Lemma notebook_train_ok w :
  well_shaped p = true ->
  data_dir_usable (fs w) = true ->
  exists parts,
    partitioned p (draws w) parts /\
    notebook_train p w =
      (Ok (parts, val_uri p, train_uri p, xgboost_image p, fitted_estimator p),
       world_after_fit p parts w).
Proof.
  intros Hshape Hfs.
  set (w1 := logged [EvSession; EvGetExecutionRole] w).
  destruct (cell_split_ok p w1 Hshape) as (parts & Esplit & Hparts).
  exists parts. split; [done|].
  set (w2 := mkWorld (fs w1) (s3 w1) (jobs w1) (endpoints w1) (S (S (draws w1))) _) in Esplit.
  destruct (cell_data_dir_ok w2 Hfs) as (Edir & Hdir & Hval & Htrain).
  unfold notebook_train.
  rewrite run_bind, cell_setup_run. fold w1.
  rewrite run_bind, Esplit.
  rewrite run_bind, Edir.
  rewrite run_bind.
  rewrite (cell_save_run parts (set_fs (fs_after_guard (fs w2)) _) Hdir Hval Htrain).
  cbn [fst snd].
  rewrite run_bind.
  rewrite cell_upload_run.
  rewrite run_bind, cell_estimator_run. cbn [fst snd].
  rewrite run_bind, cell_hyperparameters_run.
  rewrite run_bind, cell_fit_run.
  rewrite run_ret. f_equal.
  apply world_eq; unfold world_after_fit;
    cbn [fs s3 jobs endpoints draws log set_fs set_s3 set_jobs set_endpoints
         logged w1 w2]; try reflexivity.
  unfold train_events.
  destruct (path_exists (fs w) data_dir); cbn [negb];
    rewrite <- !(assoc_L (++)); reflexivity.
Qed.
End Train.

(** ** Deploy, predict, plot, delete *)

Section Tail.
Context {value : Type} (p : platform value).
Implicit Types w : world value.

Lemma logged_logged (evs1 evs2 : list (event value)) w :
  logged evs2 (logged evs1 w) = logged (evs1 ++ evs2) w.
Proof. unfold logged. cbn. by rewrite (assoc_L (++)). Qed.

Lemma cell_deploy_run w :
  cell_deploy (fitted_estimator p) w =
    (Ok (fresh_predictor p),
     set_endpoints (<[endpoint_name p := xgb_endpoint p]> (endpoints w))
       (logged [EvDeploy 1 "ml.m4.xlarge"] w)).
Proof. reflexivity. Qed.

Lemma csv_serializer_run (data : list (list value)) :
  csv_serializer p data =
    if serializable data
    then Ok (String.concat newline
               ((fun r => String.concat "," (csv_repr p <$> r)) <$> data))
    else Raise ValueError.
Proof.
  unfold csv_serializer, serializable. destruct data as [|r data]; [done|].
  by destruct (existsb _ (r :: data)).
Qed.

Lemma cell_predict_unserializable (parts : partitions) w :
  serializable (values (part_X_test parts)) = false ->
  cell_predict p (fresh_predictor p) parts w = (Raise ValueError, w).
Proof.
  intros Hs.
  cbv beta iota zeta delta
    [cell_predict predict np_fromstring_call lift mbind M_bind mret M_ret emit
     fresh_predictor].
  cbn [predictor_endpoint predictor_content_type serializer
       fs s3 jobs endpoints draws log].
  by rewrite csv_serializer_run, Hs.
Qed.

Lemma cell_predict_run (parts : partitions) (job : training_job) w :
  serializable (values (part_X_test parts)) = true ->
  endpoints w !! endpoint_name p = Some (xgb_endpoint p) ->
  jobs w !! endpoint_name p = Some job ->
  let reply :=
    invoke_endpoint p job (Some "text/csv") (request_body p parts) in
  cell_predict p (fresh_predictor p) parts w =
    match decode_utf8 reply with
    | Ok text =>
        (Ok (csv_predictor p, np_fromstring p text ","),
         logged [EvPredict (endpoint_name p) (Some "text/csv")
                   (request_body p parts); EvFromString ","] w)
    | Raise e =>
        (Raise e,
         logged [EvPredict (endpoint_name p) (Some "text/csv")
                   (request_body p parts)] w)
    end.
Proof.
  intros Hs Hep Hjob reply.
  cbv beta iota zeta delta
    [cell_predict predict np_fromstring_call lift mbind M_bind mret M_ret emit
     fresh_predictor].
  cbn [predictor_endpoint predictor_content_type serializer
       fs s3 jobs endpoints draws log].
  rewrite csv_serializer_run, Hs.
  fold (request_body p parts).
  cbn [fs s3 jobs endpoints draws log].
  rewrite Hep. cbn [option_bind served_job xgb_endpoint]. rewrite Hjob.
  fold reply. destruct (decode_utf8 reply) as [text|e]; [|done].
  unfold logged. cbn [fs s3 jobs endpoints draws log].
  by rewrite <- (assoc_L (++)).
Qed.

Lemma cell_plot_run (parts : partitions) (predictions : list value) w :
  cell_plot parts predictions w =
    if Nat.eqb (length (concat (values (part_Y_test parts)))) (length predictions)
    then
      (Ok (),
       logged [EvScatter (concat (values (part_Y_test parts))) predictions;
               EvXlabel "Median Price"; EvYlabel "Predicted Price";
               EvTitle "Median Price vs Predicted Price"] w)
    else
      (Raise ValueError,
       logged [EvScatter (concat (values (part_Y_test parts))) predictions] w).
Proof.
  cbv beta iota zeta delta
    [cell_plot plt_scatter plt_xlabel plt_ylabel plt_title raise
     mbind M_bind mret M_ret emit].
  cbn [fs s3 jobs endpoints draws log].
  destruct (Nat.eqb _ _); [|done].
  unfold logged. cbn [fs s3 jobs endpoints draws log].
  by rewrite <- !(assoc_L (++)).
Qed.

Lemma cell_delete_run (e : endpoint) w :
  endpoints w !! endpoint_name p = Some e ->
  cell_delete (csv_predictor p) w =
    (Ok (),
     set_endpoints (delete (endpoint_name p) (endpoints w))
       (logged [EvDeleteEndpoint (endpoint_name p)] w)).
Proof.
  intros He.
  cbv beta iota zeta delta
    [cell_delete delete_endpoint mbind M_bind mret M_ret emit csv_predictor].
  cbn [predictor_endpoint fs s3 jobs endpoints draws log]. by rewrite He.
Qed.

(** The run of the whole notebook, whenever the housing table and the
    data directory are usable: it ends well unless the serializer refuses
    the test rows, the endpoint's answer is not UTF-8, or it does not hold
    one number per test row. *)
Lemma notebook_run w :
  well_shaped p = true ->
  data_dir_usable (fs w) = true ->
  exists parts,
    partitioned p (draws w) parts /\
    notebook_train p w =
      (Ok (parts, val_uri p, train_uri p, xgboost_image p, fitted_estimator p),
       world_after_fit p parts w) /\
    notebook p w =
      if serializable (values (part_X_test parts)) then
        match decode_utf8 (answer p parts w) with
        | Raise e =>
            (Raise e,
             logged [EvPredict (endpoint_name p) (Some "text/csv")
                       (request_body p parts)]
               (world_after_deploy p parts w))
        | Ok text =>
            let predictions := np_fromstring p text "," in
            if Nat.eqb (length (concat (values (part_Y_test parts))))
                       (length predictions)
            then (Ok (final_namespace p parts predictions),
                  world_after_delete p parts predictions w)
            else (Raise ValueError,
                  logged [EvScatter (concat (values (part_Y_test parts))) predictions]
                    (world_after_predict p parts w))
        end
      else (Raise ValueError, world_after_deploy p parts w).
Proof.
  intros Hshape Hfs.
  destruct (notebook_train_ok p w Hshape Hfs) as (parts & Hparts & Etrain).
  exists parts. split; [done|]. split; [done|].
  unfold notebook. rewrite run_bind, Etrain.
  rewrite run_bind, cell_deploy_run. fold (world_after_deploy p parts w).
  rewrite run_bind.
  destruct (serializable (values (part_X_test parts))) eqn:Hser.
  2: { by rewrite (cell_predict_unserializable parts _ Hser). }
  rewrite (cell_predict_run parts (xgb_job p parts (s3 w)) _ Hser).
  2: { unfold world_after_deploy. cbn [endpoints set_endpoints].
       apply lookup_insert_eq. }
  2: { unfold world_after_deploy, world_after_fit.
       cbn [jobs set_endpoints logged]. apply lookup_insert_eq. }
  fold (answer p parts w).
  destruct (decode_utf8 (answer p parts w)) as [text|e]; [|done].
  fold (world_after_predict p parts w).
  cbn [fst snd]. rewrite run_bind, cell_plot_run.
  cbv zeta.
  destruct (Nat.eqb _ _); [|done].
  fold (world_after_plot p parts (np_fromstring p text ",") w).
  rewrite run_bind.
  rewrite (cell_delete_run (xgb_endpoint p)).
  2: { unfold world_after_plot, world_after_predict, world_after_deploy.
       cbn [endpoints set_endpoints logged]. apply lookup_insert_eq. }
  reflexivity.
Qed.
End Tail.

(** ** The calls of every run *)

Section Traces.
Context {value : Type} (p : platform value).
Implicit Types w : world value.
Implicit Types S : list (list string).

Lemma traces_ret {A} (a : A) : traces (mret a : @M value A) [[]].
Proof. intros w. exists []. cbn. rewrite (right_id_L [] (++)). split; [done|]. set_solver. Qed.

Lemma traces_silent {A} (m : @M value A) :
  (forall w, log (m w).2 = log w) -> traces m [[]].
Proof.
  intros H w. exists []. rewrite (right_id_L [] (++)). split; [done|].
  destruct ((m w).1); [set_solver|]. exists []. split; [set_solver|done].
Qed.

Lemma traces_lift {A} (r : result A) : traces (lift r : @M value A) [[]].
Proof. by apply traces_silent. Qed.

Lemma traces_raise {A} (e : exn) (l : list string) S :
  l ∈ S -> traces (raise e : @M value A) S.
Proof.
  intros Hl w. exists []. rewrite (right_id_L [] (++)). split; [done|].
  cbn. exists l. split; [done|]. apply prefix_nil.
Qed.

Lemma traces_emit (e : event value) : traces (emit e) [[call_name e]].
Proof. intros w. exists [e]. cbn. split; [done|]. set_solver. Qed.

Lemma traces_weaken {A} (m : @M value A) S S' :
  S ⊆ S' -> traces m S -> traces m S'.
Proof.
  intros Hsub H w. destruct (H w) as (evs & Hlog & Hr). exists evs. split; [done|].
  destruct ((m w).1); [set_solver|].
  destruct Hr as (l & Hl & Hp). exists l. split; [set_solver|done].
Qed.

Lemma elem_of_then_traces (l1 l2 : list string) S1 S2 :
  l1 ∈ S1 -> l2 ∈ S2 -> l1 ++ l2 ∈ then_traces S1 S2.
Proof.
  intros H1 H2. unfold then_traces.
  apply list_elem_of_bind. exists l1. split; [|done].
  apply list_elem_of_bind. exists l2. split; [|done]. set_solver.
Qed.

Lemma traces_bind {A B} (m : @M value A) (f : A -> @M value B) S1 S2 :
  traces m S1 -> (forall a, traces (f a) S2) -> S2 <> [] ->
  traces (m ≫= f) (then_traces S1 S2).
Proof.
  intros Hm Hf Hne w. rewrite run_bind.
  destruct (Hm w) as (evs1 & Hlog1 & Hr1).
  destruct (m w) as [[a|e] w1] eqn:Emw; cbn [fst snd] in *.
  - destruct (Hf a w1) as (evs2 & Hlog2 & Hr2).
    exists (evs1 ++ evs2). split.
    { by rewrite Hlog2, Hlog1, (assoc_L (++)). }
    rewrite fmap_app.
    destruct ((f a w1).1).
    + by apply elem_of_then_traces.
    + destruct Hr2 as (l2 & Hl2 & Hp2).
      exists ((call_name <$> evs1) ++ l2). split.
      * by apply elem_of_then_traces.
      * by apply prefix_app.
  - exists evs1. split; [done|].
    destruct Hr1 as (l1 & Hl1 & Hp1).
    destruct S2 as [|l2 S2]; [done|].
    exists (l1 ++ l2). split.
    + apply elem_of_then_traces; [done|set_solver].
    + by apply prefix_app_r.
Qed.

Lemma traces_if {A} (b : bool) (m1 m2 : @M value A) S :
  traces m1 S -> traces m2 S -> traces (if b then m1 else m2) S.
Proof. by destruct b. Qed.

Lemma traces_bind' {A B} (m : @M value A) (f : A -> @M value B) S1 S2 S :
  traces m S1 -> (forall a, traces (f a) S2) -> S2 <> [] ->
  S = then_traces S1 S2 ->
  traces (m ≫= f) S.
Proof. intros ??? ->. by apply traces_bind. Qed.

Lemma silent_ret {A} (a : A) : silent (mret a : @M value A).
Proof. done. Qed.
Lemma silent_raise {A} (e : exn) : silent (raise e : @M value A).
Proof. done. Qed.
Lemma silent_lift {A} (r : result A) : silent (lift r : @M value A).
Proof. done. Qed.
Lemma silent_bind {A B} (m : @M value A) (f : A -> @M value B) :
  silent m -> (forall a, silent (f a)) -> silent (m ≫= f).
Proof.
  intros Hm Hf w. rewrite run_bind. specialize (Hm w).
  destruct (m w) as [[a|e] w1]; cbn [fst snd] in *; [|done].
  by rewrite Hf.
Qed.

(** A library call: one event at entry, then silence. *)
Lemma traces_call {A} (e : event value) (k : @M value A) :
  silent k -> traces (emit e;; k) [[call_name e]].
Proof.
  intros Hk. eapply traces_bind'.
  - apply traces_emit.
  - intros _. by apply traces_silent.
  - done.
  - reflexivity.
Qed.

Lemma traces_load_boston : traces (load_boston p) [["load_boston"]].
Proof. apply (traces_call EvLoadBoston). apply silent_ret. Qed.

Lemma traces_pd_DataFrame data names :
  traces (pd_DataFrame (value:=value) data names) [["pd.DataFrame"]].
Proof. apply (traces_call EvDataFrame). apply silent_lift. Qed.

Lemma traces_pd_DataFrame_vector data :
  traces (pd_DataFrame_vector (value:=value) data) [["pd.DataFrame"]].
Proof. apply (traces_call EvDataFrame). apply silent_ret. Qed.

Lemma traces_train_test_split X Y :
  traces (train_test_split p X Y) [["train_test_split"]].
Proof.
  apply (traces_call (EvTrainTestSplit _)).
  destruct (negb _); [apply silent_raise|].
  destruct (Nat.eqb _ _); [apply silent_raise|].
  apply silent_bind; [done|]. intros perm.
  repeat (apply silent_bind; [apply silent_lift|]; intros ?).
  apply silent_ret.
Qed.

Lemma traces_pd_concat a b :
  traces (pd_concat (value:=value) a b) [["pd.concat"]].
Proof. apply (traces_call EvConcat). apply silent_ret. Qed.

Lemma traces_to_csv d file header index_col :
  traces (to_csv p d file header index_col) [["to_csv"]].
Proof.
  apply (traces_call (EvToCsv _ _ _)). intros w. by destruct (write_file _ _ _).
Qed.

Lemma traces_os_path_exists d :
  traces (os_path_exists (value:=value) d) [["os.path.exists"]].
Proof. by apply (traces_call (EvPathExists _)). Qed.

Lemma traces_os_makedirs d :
  traces (os_makedirs (value:=value) d) [["os.makedirs"]].
Proof.
  apply (traces_call (EvMakedirs _)). intros w. by destruct (makedirs _ _) as [? [?|]].
Qed.

Lemma traces_sagemaker_Session : traces (sagemaker_Session p) [["sagemaker.Session"]].
Proof. apply (traces_call EvSession). apply silent_ret. Qed.

Lemma traces_get_execution_role : traces (get_execution_role p) [["get_execution_role"]].
Proof. apply (traces_call EvGetExecutionRole). apply silent_ret. Qed.

Lemma traces_session_default_bucket s :
  traces (session_default_bucket (value:=value) s) [["default_bucket"]].
Proof. apply (traces_call EvDefaultBucket). apply silent_ret. Qed.

Lemma traces_upload_data s file key_prefix :
  traces (upload_data (value:=value) s file key_prefix) [["upload_data"]].
Proof.
  apply (traces_call (EvUploadData _ _)). intros w. by destruct (read_file _ _).
Qed.

Lemma traces_get_image_uri r a v : traces (get_image_uri p r a v) [["get_image_uri"]].
Proof. apply (traces_call (EvGetImageUri _ _ _)). apply silent_ret. Qed.

Lemma traces_new_Estimator i r c t o :
  traces (new_Estimator (value:=value) i r c t o) [["Estimator"]].
Proof. apply (traces_call (EvEstimator _)). apply silent_ret. Qed.

Lemma traces_set_hyperparameters e kw :
  traces (set_hyperparameters (value:=value) e kw) [["set_hyperparameters"]].
Proof. apply (traces_call EvSetHyperparameters). apply silent_ret. Qed.

Lemma traces_new_s3_input l c :
  traces (new_s3_input (value:=value) l c) [["s3_input"]].
Proof. apply (traces_call (EvS3Input _ _)). apply silent_ret. Qed.

Lemma traces_fit e inputs : traces (fit p e inputs) [["fit"]].
Proof. by apply (traces_call (EvFit _ _)). Qed.

Lemma traces_deploy e c t : traces (deploy (value:=value) e c t) [["deploy"]].
Proof.
  apply (traces_call (EvDeploy _ _)).
  destruct (latest_training_job e); [done|apply silent_raise].
Qed.

Lemma traces_predict pr data : traces (predict p pr data) [["predict"]].
Proof.
  unfold predict. destruct (serializer pr) as [serialize|].
  - apply (traces_bind' _ _ [[]] [["predict"]]); [apply traces_lift| |done|reflexivity].
    intros body. apply (traces_call (EvPredict _ _ _)). intros w. cbn.
    by destruct (_ ≫= _).
  - apply (traces_raise _ ["predict"]). set_solver.
Qed.

Lemma traces_delete_endpoint pr :
  traces (delete_endpoint (value:=value) pr) [["delete_endpoint"]].
Proof.
  apply (traces_call (EvDeleteEndpoint _)). intros w. cbn.
  by destruct (endpoints w !! _).
Qed.

Lemma traces_np_fromstring_call text sep :
  traces (np_fromstring_call p text sep) [["np.fromstring"]].
Proof. apply (traces_call (EvFromString _)). apply silent_ret. Qed.

Lemma traces_plt_scatter x y : traces (plt_scatter (value:=value) x y) [["plt.scatter"]].
Proof.
  apply (traces_call (EvScatter _ _)).
  destruct (Nat.eqb _ _); [apply silent_ret|apply silent_raise].
Qed.
End Traces.

Create HintDb traces.
#[local] Hint Resolve traces_ret traces_emit traces_load_boston traces_pd_DataFrame
  traces_pd_DataFrame_vector traces_train_test_split traces_pd_concat traces_to_csv
  traces_os_path_exists traces_os_makedirs traces_sagemaker_Session
  traces_get_execution_role traces_session_default_bucket traces_upload_data
  traces_get_image_uri traces_new_Estimator traces_set_hyperparameters
  traces_new_s3_input traces_fit traces_deploy traces_predict
  traces_delete_endpoint traces_np_fromstring_call traces_plt_scatter traces_lift
  : traces.

Ltac trace_all :=
  lazymatch goal with
  | |- traces (_ ≫= _) _ =>
      eapply traces_bind;
        [ trace_all | intros ?; trace_all | vm_compute; discriminate ]
  | |- traces (match ?x with _ => _ end) _ => destruct x; trace_all
  | |- _ => eauto with traces
  end.

Section CellTraces.
Context {value : Type} (p : platform value).

Lemma traces_eq {A} (m : @M value A) (S S' : list (list string)) :
  traces m S -> S = S' -> traces m S'.
Proof. by intros ? <-. Qed.

Lemma traces_cell_setup :
  traces (cell_setup p) [["sagemaker.Session"; "get_execution_role"]].
Proof. eapply traces_eq; [unfold cell_setup; trace_all | reflexivity]. Qed.

Lemma traces_cell_split :
  traces (cell_split p)
    [["load_boston"; "pd.DataFrame"; "pd.DataFrame";
      "train_test_split"; "train_test_split"]].
Proof. eapply traces_eq; [unfold cell_split; trace_all | reflexivity]. Qed.

Lemma traces_cell_data_dir :
  traces (cell_data_dir (value:=value))
    [["os.path.exists"]; ["os.path.exists"; "os.makedirs"]].
Proof.
  eapply traces_eq.
  - unfold cell_data_dir. eapply traces_bind; [eauto with traces| |].
    + intros present. apply traces_if.
      * eapply (traces_weaken _ [["os.makedirs"]] [[]; ["os.makedirs"]]);
          [|eauto with traces].
        intros ? ->%list_elem_of_singleton. repeat constructor.
      * eapply (traces_weaken _ [[]] [[]; ["os.makedirs"]]);
          [|eauto with traces].
        intros ? ->%list_elem_of_singleton. repeat constructor.
    + done.
  - reflexivity.
Qed.

Lemma traces_cell_save parts :
  traces (cell_save p parts) [["pd.concat"; "to_csv"; "pd.concat"; "to_csv"]].
Proof. eapply traces_eq; [unfold cell_save; trace_all | reflexivity]. Qed.

Lemma traces_cell_upload s :
  traces (cell_upload (value:=value) s) [["upload_data"; "upload_data"]].
Proof. eapply traces_eq; [unfold cell_upload; trace_all | reflexivity]. Qed.

Lemma traces_cell_estimator s r :
  traces (cell_estimator p s r) [["get_image_uri"; "default_bucket"; "Estimator"]].
Proof. eapply traces_eq; [unfold cell_estimator; trace_all | reflexivity]. Qed.

Lemma traces_cell_hyperparameters e :
  traces (cell_hyperparameters (value:=value) e) [["set_hyperparameters"]].
Proof. unfold cell_hyperparameters. eauto with traces. Qed.

Lemma traces_cell_fit e v t :
  traces (cell_fit p e v t) [["s3_input"; "s3_input"; "fit"]].
Proof. eapply traces_eq; [unfold cell_fit; trace_all | reflexivity]. Qed.

Lemma traces_cell_deploy e : traces (cell_deploy (value:=value) e) [["deploy"]].
Proof. unfold cell_deploy. eauto with traces. Qed.

Lemma traces_cell_predict pr parts :
  traces (cell_predict p pr parts) [["predict"; "np.fromstring"]].
Proof. eapply traces_eq; [unfold cell_predict; trace_all | reflexivity]. Qed.

Lemma traces_cell_plot parts preds :
  traces (cell_plot (value:=value) parts preds)
    [["plt.scatter"; "plt.xlabel"; "plt.ylabel"; "plt.title"]].
Proof.
  eapply traces_eq; [unfold cell_plot, plt_xlabel, plt_ylabel, plt_title; trace_all
                    | reflexivity].
Qed.

Lemma traces_cell_delete pr :
  traces (cell_delete (value:=value) pr) [["delete_endpoint"]].
Proof. unfold cell_delete. eauto with traces. Qed.


End CellTraces.

#[local] Hint Resolve traces_cell_setup traces_cell_split traces_cell_data_dir
  traces_cell_save traces_cell_upload traces_cell_estimator
  traces_cell_hyperparameters traces_cell_fit traces_cell_deploy
  traces_cell_predict traces_cell_plot traces_cell_delete : traces.



Section TracesByFs.
Context {value : Type} (p : platform value).
Implicit Types w : world value.

Lemma fs_kept_ret {A} (a : A) : fs_kept (mret a : @M value A).
Proof. done. Qed.
Lemma fs_kept_raise {A} (e : exn) : fs_kept (raise e : @M value A).
Proof. done. Qed.
Lemma fs_kept_lift {A} (r : result A) : fs_kept (lift r : @M value A).
Proof. done. Qed.
Lemma fs_kept_emit (e : event value) : fs_kept (emit e).
Proof. done. Qed.
Lemma fs_kept_bind {A B} (m : @M value A) (f : A -> @M value B) :
  fs_kept m -> (forall a, fs_kept (f a)) -> fs_kept (m ≫= f).
Proof.
  intros Hm Hf w. rewrite run_bind. specialize (Hm w).
  destruct (m w) as [[a|e] w1]; cbn [fst snd] in *; [|done].
  by rewrite Hf.
Qed.

Lemma fs_kept_train_test_split X Y : fs_kept (train_test_split p X Y).
Proof.
  unfold train_test_split. apply fs_kept_bind; [apply fs_kept_emit|]. intros _.
  destruct (negb _); [apply fs_kept_raise|].
  destruct (Nat.eqb _ _); [apply fs_kept_raise|].
  apply fs_kept_bind; [done|]. intros perm.
  repeat (apply fs_kept_bind; [apply fs_kept_lift|]; intros ?).
  apply fs_kept_ret.
Qed.

Lemma fs_kept_cell_setup : fs_kept (cell_setup p).
Proof.
  unfold cell_setup, sagemaker_Session, get_execution_role.
  repeat (apply fs_kept_bind; [|intros ?]);
    first [apply fs_kept_emit | apply fs_kept_ret].
Qed.

Lemma fs_kept_cell_split : fs_kept (cell_split p).
Proof.
  unfold cell_split, load_boston, pd_DataFrame, pd_DataFrame_vector.
  apply fs_kept_bind; [apply fs_kept_bind; [apply fs_kept_emit|intros; apply fs_kept_ret]|].
  intros boston.
  apply fs_kept_bind; [apply fs_kept_bind; [apply fs_kept_emit|intros; apply fs_kept_lift]|].
  intros X.
  apply fs_kept_bind; [apply fs_kept_bind; [apply fs_kept_emit|intros; apply fs_kept_ret]|].
  intros Y.
  apply fs_kept_bind; [apply fs_kept_train_test_split|].
  intros [[[? ?] ?] ?].
  apply fs_kept_bind; [apply fs_kept_train_test_split|].
  intros [[[? ?] ?] ?]. apply fs_kept_ret.
Qed.

Lemma traces_by_fs_const {A} (m : @M value A) (S : list (list string)) :
  traces m S -> traces_by_fs m (fun _ => S).
Proof. done. Qed.

Lemma traces_by_fs_bind_kept {A B} (m : @M value A) (f : A -> @M value B)
    (S1 : list (list string)) (S2 : gmap path node -> list (list string)) :
  traces m S1 -> fs_kept m ->
  (forall a, traces_by_fs (f a) S2) -> (forall f0, S2 f0 <> []) ->
  traces_by_fs (m ≫= f) (fun f0 => then_traces S1 (S2 f0)).
Proof.
  intros Hm Hkept Hf Hne w. rewrite run_bind.
  destruct (Hm w) as (evs1 & Hlog1 & Hr1). specialize (Hkept w).
  destruct (m w) as [[a|e] w1] eqn:Emw; cbn [fst snd] in *.
  - destruct (Hf a w1) as (evs2 & Hlog2 & Hr2). rewrite Hkept in Hr2.
    exists (evs1 ++ evs2). split.
    { by rewrite Hlog2, Hlog1, (assoc_L (++)). }
    rewrite fmap_app.
    destruct ((f a w1).1).
    + by apply elem_of_then_traces.
    + destruct Hr2 as (l2 & Hl2 & Hp2).
      exists ((call_name <$> evs1) ++ l2). split.
      * by apply elem_of_then_traces.
      * by apply prefix_app.
  - exists evs1. split; [done|].
    destruct Hr1 as (l1 & Hl1 & Hp1).
    specialize (Hne (fs w)).
    destruct (S2 (fs w)) as [|l2 S2'] eqn:ES2; [done|].
    exists (l1 ++ l2). split.
    + apply elem_of_then_traces; [done|]. constructor.
    + by apply prefix_app_r.
Qed.

Lemma traces_by_fs_bind_const {A B} (m : @M value A) (f : A -> @M value B)
    (S1 : gmap path node -> list (list string)) (S2 : list (list string)) :
  traces_by_fs m S1 -> (forall a, traces (f a) S2) -> S2 <> [] ->
  traces_by_fs (m ≫= f) (fun f0 => then_traces (S1 f0) S2).
Proof.
  intros Hm Hf Hne w. rewrite run_bind.
  destruct (Hm w) as (evs1 & Hlog1 & Hr1).
  destruct (m w) as [[a|e] w1] eqn:Emw; cbn [fst snd] in *.
  - destruct (Hf a w1) as (evs2 & Hlog2 & Hr2).
    exists (evs1 ++ evs2). split.
    { by rewrite Hlog2, Hlog1, (assoc_L (++)). }
    rewrite fmap_app.
    destruct ((f a w1).1).
    + by apply elem_of_then_traces.
    + destruct Hr2 as (l2 & Hl2 & Hp2).
      exists ((call_name <$> evs1) ++ l2). split.
      * by apply elem_of_then_traces.
      * by apply prefix_app.
  - exists evs1. split; [done|].
    destruct Hr1 as (l1 & Hl1 & Hp1).
    destruct S2 as [|l2 S2]; [done|].
    exists (l1 ++ l2). split.
    + apply elem_of_then_traces; [done|]. constructor.
    + by apply prefix_app_r.
Qed.

Lemma traces_by_fs_eq {A} (m : @M value A) (S S' : gmap path node -> list (list string)) :
  traces_by_fs m S -> (forall f0, S f0 = S' f0) -> traces_by_fs m S'.
Proof.
  intros H Heq w. destruct (H w) as (evs & Hlog & Hr). exists evs.
  split; [done|]. by rewrite <- Heq.
Qed.

(** The guard cell asks [os.path.exists] and, exactly when the answer is
    no, calls [os.makedirs]. *)
Lemma traces_by_fs_cell_data_dir :
  traces_by_fs (cell_data_dir (value:=value))
    (fun f0 => ["os.path.exists" ::
                (if path_exists f0 data_dir then [] else ["os.makedirs"])]).
Proof.
  intros w. destruct (path_exists (fs w) data_dir) eqn:Hex.
  - rewrite (cell_data_dir_present w Hex). exists [EvPathExists data_dir].
    split; [done|]. cbn. constructor.
  - rewrite (cell_data_dir_absent w Hex).
    exists [EvPathExists data_dir; EvMakedirs data_dir].
    destruct (makedirs (fs w) data_dir) as [f [e|]]; (split; [done|]); cbn.
    + eexists. split; [constructor|done].
    + constructor.
Qed.

Lemma traces_by_fs_notebook :
  traces_by_fs (notebook p)
    (fun f0 => [straight_line (negb (path_exists f0 data_dir))]).
Proof.
  eapply traces_by_fs_eq.
  - unfold notebook. eapply traces_by_fs_bind_const.
    + unfold notebook_train.
      eapply traces_by_fs_bind_kept;
        [apply traces_cell_setup | apply fs_kept_cell_setup | intros env | ].
      * eapply traces_by_fs_bind_kept;
          [apply traces_cell_split | apply fs_kept_cell_split | intros parts | ].
        -- eapply traces_by_fs_bind_const;
             [apply traces_by_fs_cell_data_dir | intros ? | ].
           ++ trace_all.
           ++ vm_compute. discriminate.
        -- intros f0. by destruct (path_exists f0 data_dir).
      * intros f0. by destruct (path_exists f0 data_dir).
    + intros a. trace_all.
    + vm_compute. discriminate.
  - intros f0. cbv beta.
    destruct (path_exists f0 data_dir); vm_compute; reflexivity.
Qed.
End TracesByFs.

(** ** The saved files *)

Section Concat.
Context {value : Type}.
Implicit Types d a b : DataFrame value.

Lemma loc_at d (i : nat) (r : nat * list value) :
  NoDup (index d) -> rows d !! i = Some r -> loc d r.1 = Some r.2.
Proof.
  intros Hnd Hi. unfold loc.
  assert (Hfind : list_find (fun r' => r'.1 = r.1) (rows d) = Some (i, r)).
  { apply list_find_Some. split; [done|]. split; [done|].
    intros j y Hj Hlt Heq.
    assert (i = j); [|lia].
    eapply (NoDup_lookup (index d)); [done| |].
    - unfold index. by rewrite list_lookup_fmap, Hi.
    - unfold index. rewrite list_lookup_fmap, Hj. cbn. by rewrite Heq. }
  by rewrite Hfind.
Qed.

Lemma filter_all_in (l k : list nat) :
  (forall x, x ∈ k -> x ∈ l) -> filter (fun x => x ∉ l) k = [].
Proof.
  intros H. induction k as [|x k IH]; [done|].
  rewrite filter_cons. destruct (decide (x ∉ l)) as [Hx|_].
  - destruct Hx. apply H. constructor.
  - apply IH. intros y Hy. apply H. by constructor.
Qed.

(** Two frames with the same duplicate-free index, side by side. *)
Lemma concat_axis1_aligned a b :
  index a = index b -> NoDup (index a) ->
  rows (concat_axis1 a b)
  = zip_with (fun ra rb => (ra.1, (Some <$> ra.2) ++ (Some <$> rb.2)))
             (rows a) (rows b).
Proof.
  intros Hi Hnd. unfold concat_axis1. cbn [rows].
  rewrite filter_all_in by (intros x; by rewrite Hi).
  rewrite (right_id_L [] (++)).
  apply list_eq. intros i.
  unfold index at 1. rewrite !list_lookup_fmap.
  rewrite lookup_zip_with.
  destruct (rows a !! i) as [ra|] eqn:Ha; cbn; [|done].
  assert (Hb : exists rb, rows b !! i = Some rb /\ rb.1 = ra.1).
  { assert (Hl : index b !! i = Some ra.1).
    { rewrite <- Hi. unfold index. by rewrite list_lookup_fmap, Ha. }
    unfold index in Hl. rewrite list_lookup_fmap in Hl.
    destruct (rows b !! i) as [rb|]; cbn in Hl; [|done].
    exists rb. split; [done|]. by injection Hl. }
  destruct Hb as (rb & Hb & Hlabel). rewrite Hb. cbn.
  rewrite (loc_at a i ra Hnd Ha).
  rewrite <- Hlabel. rewrite (loc_at b i rb); [done| |done].
  by rewrite <- Hi.
Qed.
End Concat.

Lemma string_app_nil_r (s : string) : (s ++ "")%string = s.
Proof.
  induction s as [|c s IH]; [done|].
  change (String c (s ++ "")%string = String c s). by rewrite IH.
Qed.

Lemma concat_lines_cons (line : string) (lines : list string) :
  String.concat "" (line :: lines) = (line ++ String.concat "" lines)%string.
Proof.
  destruct lines as [|l ls].
  - cbn [String.concat]. by rewrite string_app_nil_r.
  - reflexivity.
Qed.

Section Saved.
Context {value : Type} (p : platform value).

(** The text saved for a partition: one line per row, the target first,
    then the features, nothing else. *)
Lemma saved_text_rows (X Y : DataFrame value) :
  paired p X Y -> NoDup (index Y) ->
  exists rs : list (value * list value),
    saved_text p Y X = csv_of_rows (pandas_repr p) rs /\
    Forall2 (fun i r => boston_target p !! i = Some r.1 /\
                        boston_data p !! i = Some r.2)
            (index X) rs.
Proof.
  intros Hpaired Hnd.
  assert (Hi : index Y = index X).
  { unfold paired, index in *. destruct X as [cx xs], Y as [cy ys]. cbn [rows] in *.
    induction Hpaired as [|rx ry ? ? [H _] _ IH]; [done|].
    cbn in *. apply NoDup_cons in Hnd as [_ Hnd]. by rewrite IH, H. }
  unfold saved_text, to_csv_text. cbn [app].
  rewrite (concat_axis1_aligned Y X Hi Hnd).
  unfold csv_of_rows, index. clear Hi Hnd.
  unfold paired in Hpaired. destruct X as [cx xs], Y as [cy ys]. cbn [rows] in *.
  induction Hpaired as [|rx ry xs ys (Hl & Hx & y & Hy & Ht) _ IH].
  - exists []. split; [done|constructor].
  - destruct IH as (rs & Htext & Hrows).
    exists ((y, rx.2) :: rs). split.
    + cbn [zip_with fmap list_fmap]. rewrite !concat_lines_cons.
      cbn [fst snd]. rewrite Hy. f_equal; [|exact Htext].
      f_equal. cbn. f_equal. by rewrite <- list_fmap_compose.
    + constructor; [done|exact Hrows].
Qed.
End Saved.

(* ================================================================== *)
(** * The claims *)

Section SplitClaims.
Context {value : Type} (p : platform value).

Lemma paired_of (X Y : DataFrame value) :
  index Y = index X ->
  drawn_from (boston_data p) X ->
  drawn_from (targets_table p) Y ->
  paired p X Y.
Proof.
  unfold paired, index, drawn_from. generalize (rows Y) as ys.
  induction (rows X) as [|rx xs IH]; intros [|ry ys] Hi HX HY; try done.
  cbn in Hi. injection Hi as H1 Hi.
  apply Forall_cons in HX as [Hx HX]. apply Forall_cons in HY as [Hy HY].
  constructor; [|by apply IH].
  split; [done|]. split; [done|].
  unfold targets_table in Hy. rewrite list_lookup_fmap in Hy.
  rewrite H1 in Hy.
  destruct (boston_target p !! rx.1) as [y|]; [|done].
  exists y. cbn in Hy. by injection Hy as <-.
Qed.
End SplitClaims.

(** C4: the split cell returns six frames whose labels are pairwise disjoint
    and together exactly the labels [0 .. N-1] of the loaded table, and in
    each of the three partitions every feature row stands next to the target
    the table has for it. *)
Theorem split_is_a_partition {value : Type} (p : platform value) (w : world value) :
  well_shaped p = true ->
  exists parts w',
    cell_split p w = (Ok parts, w') /\
    let train := index (part_X_train parts) in
    let val := index (part_X_val parts) in
    let test := index (part_X_test parts) in
    NoDup (train ++ val ++ test) /\
    (forall i, i ∈ train ++ val ++ test <-> i < length (boston_data p)) /\
    paired p (part_X_train parts) (part_Y_train parts) /\
    paired p (part_X_val parts) (part_Y_val parts) /\
    paired p (part_X_test parts) (part_Y_test parts).
Proof.
  intros Hshape.
  destruct (cell_split_ok p w Hshape) as (parts & E & H).
  eexists parts, _. split; [exact E|]. cbv zeta.
  pose proof (cover _ _ _ H) as Hcover.
  split; [|split; [|split; [|split]]].
  - rewrite Hcover. apply NoDup_seq.
  - intros i. rewrite Hcover, elem_of_seq. lia.
  - apply paired_of; apply H.
  - apply paired_of; apply H.
  - apply paired_of; apply H.
Qed.

Lemma split_is_a_partition_witness :
  exists parts w',
    cell_split (demo 6) empty_world = (Ok parts, w') /\
    let train := index (part_X_train parts) in
    let val := index (part_X_val parts) in
    let test := index (part_X_test parts) in
    NoDup (train ++ val ++ test) /\
    (forall i, i ∈ train ++ val ++ test <-> i < length (boston_data (demo 6))) /\
    paired (demo 6) (part_X_train parts) (part_Y_train parts) /\
    paired (demo 6) (part_X_val parts) (part_Y_val parts) /\
    paired (demo 6) (part_X_test parts) (part_Y_test parts).
Proof. apply (split_is_a_partition (demo 6) empty_world). reflexivity. Defined.

Lemma n_test_of_ceiling (n : nat) : is_ceiling_033 n (n_test_of n).
Proof. apply n_test_of_bounds. Qed.

(** C10, as amended: for a table of at least three rows the split cell
    returns, the test partition has the ceiling of [0.33 * N] rows, the
    validation partition the ceiling of [0.33] times the rest, the train
    partition what remains, and the target frames have the same sizes; for
    506 rows this is 167, 112 and 227. *)
Theorem split_sizes {value : Type} (p : platform value) (w : world value) :
  well_shaped p = true ->
  exists parts w',
    cell_split p w = (Ok parts, w') /\
    let N := length (boston_data p) in
    let test := length (rows (part_X_test parts)) in
    let val := length (rows (part_X_val parts)) in
    let train := length (rows (part_X_train parts)) in
    is_ceiling_033 N test /\
    is_ceiling_033 (N - test) val /\
    train = N - test - val /\
    length (rows (part_Y_test parts)) = test /\
    length (rows (part_Y_val parts)) = val /\
    length (rows (part_Y_train parts)) = train /\
    (N = 506 -> test = 167 /\ val = 112 /\ train = 227).
Proof.
  intros Hshape.
  destruct (cell_split_ok p w Hshape) as (parts & E & H).
  eexists parts, _. split; [exact E|]. cbv zeta.
  assert (HY : forall X Y : DataFrame value,
             index Y = index X -> length (rows Y) = length (rows X)).
  { intros X Y HI. unfold index in HI.
    by rewrite <- (length_fmap fst (rows Y)), HI, length_fmap. }
  rewrite (HY _ _ (same_index_test _ _ _ H)), (HY _ _ (same_index_val _ _ _ H)),
    (HY _ _ (same_index_train _ _ _ H)).
  rewrite (size_test _ _ _ H), (size_val _ _ _ H), (size_train _ _ _ H).

  split; [apply n_test_of_ceiling|].
  split; [apply n_test_of_ceiling|].
  split; [reflexivity|].
  do 3 (split; [reflexivity|]).
  intros ->. by vm_compute.
Qed.

Lemma split_sizes_witness :
  exists parts w',
    cell_split (demo 506) empty_world = (Ok parts, w') /\
    let N := length (boston_data (demo 506)) in
    let test := length (rows (part_X_test parts)) in
    let val := length (rows (part_X_val parts)) in
    let train := length (rows (part_X_train parts)) in
    is_ceiling_033 N test /\
    is_ceiling_033 (N - test) val /\
    train = N - test - val /\
    length (rows (part_Y_test parts)) = test /\
    length (rows (part_Y_val parts)) = val /\
    length (rows (part_Y_train parts)) = train /\
    (N = 506 -> test = 167 /\ val = 112 /\ train = 227).
Proof. apply (split_sizes (demo 506) empty_world). vm_compute. reflexivity. Defined.

(** C10 as stated fails for small tables: with two rows the second split
    would leave an empty train side, so the cell raises and binds no
    partitions at all. *)
Lemma split_sizes_two_rows :
  ~ exists parts w', cell_split (demo 2) empty_world = (Ok parts, w').
Proof. intros (parts & w' & H). vm_compute in H. discriminate H. Qed.

Lemma added_logged {value : Type} (evs : list (event value)) (w : world value) :
  added w (logged evs w) = evs.
Proof. unfold added, logged. cbn. apply drop_app_length. Qed.

Lemma added_set_fs {value : Type} (f : gmap path node) (w0 w : world value) :
  added w0 (set_fs f w) = added w0 w.
Proof. reflexivity. Qed.

(** C9, as amended: [os.makedirs] is called exactly when
    [os.path.exists('../data/boston')] is false; when the cell returns the
    path exists, and it is a directory unless a plain file was already in
    its place; from a state where the path exists the cell only asks
    [os.path.exists] and leaves the world as it is, so running it again after
    it returned changes nothing. *)
Theorem data_dir_guard {value : Type} (w : world value) :
  let r := cell_data_dir w in
  (EvMakedirs data_dir ∈ added w r.2 <-> path_exists (fs w) data_dir = false) /\
  (r.1 = Ok () -> path_exists (fs r.2) data_dir = true) /\
  (r.1 = Ok () -> (forall text, node_at (fs w) data_dir <> Some (File text)) ->
   path_isdir (fs r.2) data_dir = true) /\
  (path_exists (fs w) data_dir = true ->
   r = (Ok (), logged [EvPathExists data_dir] w)) /\
  (r.1 = Ok () ->
   cell_data_dir r.2 = (Ok (), logged [EvPathExists data_dir] r.2)).
Proof.
  cbv zeta. destruct (path_exists (fs w) data_dir) eqn:Hex.
  - rewrite (cell_data_dir_present w Hex). cbn [fst snd].
    rewrite added_logged. cbn [logged fs].
    assert (Hagain : cell_data_dir (logged [EvPathExists data_dir] w)
                     = (Ok (), logged [EvPathExists data_dir]
                                 (logged [EvPathExists data_dir] w))).
    { by apply cell_data_dir_present. }
    repeat split; try done.
    + intros Hin. apply list_elem_of_singleton in Hin. discriminate Hin.
    + intros _ Hfile. unfold path_exists, path_isdir in *.
      destruct (node_at (fs w) data_dir) as [[|text]|]; try done.
      by destruct (Hfile text).
  - rewrite (cell_data_dir_absent w Hex), (makedirs_data_dir _ Hex).
    assert (Hnone : node_at (fs w) data_dir = None).
    { unfold path_exists in Hex. by destruct (node_at (fs w) data_dir). }
    assert (Hmade : forall f : gmap path node,
               node_at (<[data_dir := Dir]> f) data_dir = Some Dir).
    { intros f. unfold node_at. cbn. apply lookup_insert_eq. }
    destruct (node_at (fs w) (path_head data_dir)) as [[|text]|] eqn:Hh;
      cbn [fst snd]; rewrite added_set_fs, added_logged;
      cbn [set_fs logged fs].
    + repeat split; try done.
      * intros _. repeat constructor.
      * intros _. unfold path_exists. by rewrite Hmade.
      * intros _ _. unfold path_isdir. by rewrite Hmade.
      * intros _. apply cell_data_dir_present. cbn [fs set_fs logged].
        unfold path_exists. by rewrite Hmade.
    + repeat split; try done. intros _. repeat constructor.
    + repeat split; try done.
      * intros _. repeat constructor.
      * intros _. unfold path_exists. by rewrite Hmade.
      * intros _ _. unfold path_isdir. by rewrite Hmade.
      * intros _. apply cell_data_dir_present. cbn [fs set_fs logged].
        unfold path_exists. by rewrite Hmade.
Qed.

(** C9 as stated fails when a plain file already has the directory's name:
    [os.path.exists] answers true, nothing is made, and the cell returns
    without there being a directory. *)
Lemma data_dir_guard_plain_file :
  (cell_data_dir world_with_file).1 = Ok () /\
  path_isdir (fs (cell_data_dir world_with_file).2) data_dir = false.
Proof. split; vm_compute; reflexivity. Qed.

Lemma drawn_from_values {value : Type} (table : list (list value)) (d : DataFrame value) :
  drawn_from table d ->
  Forall2 (fun i r => table !! i = Some r) (index d) (values d).
Proof.
  unfold drawn_from, index, values. induction 1; cbn; by constructor.
Qed.

Lemma well_shaped_width {value : Type} (p : platform value) (i : nat) (r : list value) :
  well_shaped p = true -> boston_data p !! i = Some r ->
  length r = length (boston_feature_names p).
Proof.
  intros (_ & Hw & _)%well_shaped_inv Hi.
  rewrite forallb_forall in Hw. apply Nat.eqb_eq, Hw.
  apply list_elem_of_In. by eapply list_elem_of_lookup_2.
Qed.

(** Whatever happens after [fit], the files and the store stay as [fit]
    left them; [deploy] is called, and after it only calls of the last
    cells. *)
Lemma run_after_fit {value : Type} (p : platform value) (w : world value) :
  well_shaped p = true ->
  data_dir_usable (fs w) = true ->
  exists parts tail,
    partitioned p (draws w) parts /\
    notebook_train p w =
      (Ok (parts, val_uri p, train_uri p, xgboost_image p, fitted_estimator p),
       world_after_fit p parts w) /\
    fs (notebook p w).2 = fs_after_save p parts (fs w) /\
    s3 (notebook p w).2 = store_after_fit p parts (s3 w) /\
    added w (notebook p w).2
    = train_events p (negb (path_exists (fs w) data_dir))
      ++ EvDeploy 1 "ml.m4.xlarge" :: tail /\
    call_name <$> tail
      `prefix_of` ["predict"; "np.fromstring"; "plt.scatter"; "plt.xlabel";
                   "plt.ylabel"; "plt.title"; "delete_endpoint"] /\
    (serializable (values (part_X_test parts)) = true ->
     exists tail', tail = EvPredict (endpoint_name p) (Some "text/csv")
                            (request_body p parts) :: tail').
Proof.
  intros Hshape Hfs.
  destruct (notebook_run p w Hshape Hfs) as (parts & Hparts & Etrain & Erun).
  exists parts. rewrite Erun.
  destruct (serializable (values (part_X_test parts))) eqn:Hser;
    [destruct (decode_utf8 (answer p parts w)) as [text|e]; cbv zeta;
     [destruct (Nat.eqb _ _)|]|];
    eexists; (split; [exact Hparts|]); (split; [exact Etrain|]);
    (split; [reflexivity|]); (split; [reflexivity|]);
    (split;
     [unfold added, world_after_delete, world_after_plot, world_after_predict,
        world_after_deploy, world_after_fit;
      cbn [fst snd log set_endpoints logged];
      rewrite <- ?(assoc_L (++)), drop_app_length; cbn [app]; reflexivity|]);
    (split; [by eexists|]); intros Hs; try discriminate Hs; by eexists.
Qed.

Lemma filter_names_nil {value : Type} (name : string) (evs : list (event value))
    (names : list string) :
  call_name <$> evs `prefix_of` names -> name ∉ names ->
  filter (fun e => call_name e = name) evs = [].
Proof.
  intros [rest Hrest] Hnot.
  induction evs as [|e evs IH] in names, rest, Hrest, Hnot |- *; [done|].
  cbn in Hrest. destruct names as [|n names]; [done|]. injection Hrest as -> Hrest.
  rewrite filter_cons_False.
  - apply (IH names rest Hrest). intros Hin. apply Hnot. by right.
  - intros E. apply Hnot. rewrite E. by left.
Qed.

(** In a usable table with at least one feature column the serializer
    accepts the test rows. *)
Lemma test_targets_count {value : Type} (p : platform value) (k : nat)
    (parts : partitions) :
  partitioned p k parts ->
  length (concat (values (part_Y_test parts))) = n_test_of (length (boston_data p)).
Proof.
  intros H.
  assert (HC : length (concat (values (part_Y_test parts)))
               = length (rows (part_Y_test parts))).
  { pose proof (targets_test _ _ _ H) as HD. unfold drawn_from, values in *.
    induction HD as [|r rs Hr _ IH]; [done|].
    cbn. rewrite length_app, IH. unfold targets_table in Hr.
    rewrite list_lookup_fmap in Hr. destruct (boston_target p !! r.1); [|done].
    cbn in Hr. injection Hr as Hr. by rewrite <- Hr. }
  rewrite HC, <- (size_test _ _ _ H).
  pose proof (same_index_test _ _ _ H) as HI. unfold index in HI.
  by rewrite <- (length_fmap fst (rows (part_Y_test parts))), HI, length_fmap.
Qed.

Lemma test_rows_serializable {value : Type} (p : platform value) (k : nat)
    (parts : partitions) :
  well_shaped p = true -> partitioned p k parts ->
  serializable (values (part_X_test parts))
  = negb (Nat.eqb (length (boston_feature_names p)) 0).
Proof.
  intros Hshape H.
  pose proof (drawn_from_values _ _ (features_test _ _ _ H)) as HD.
  assert (Hw : Forall (fun r => length r = length (boston_feature_names p))
                 (values (part_X_test parts))).
  { apply Forall_forall. intros r Hin.
    apply list_elem_of_lookup in Hin as [j Hj].
    destruct (Forall2_lookup_r _ _ _ _ _ HD Hj) as (i & _ & Hi).
    exact (well_shaped_width p i r Hshape Hi). }
  assert (Hn : length (values (part_X_test parts)) <> 0).
  { unfold values. rewrite length_fmap, (size_test _ _ _ H).
    destruct (well_shaped_inv p Hshape) as (_ & _ & H3).
    pose proof (n_test_of_bounds (length (boston_data p))). lia. }
  unfold serializable.
  destruct (values (part_X_test parts)) as [|r rows]; [done|]. f_equal.
  destruct (Nat.eqb_spec (length (boston_feature_names p)) 0) as [E|E].
  - apply Forall_cons in Hw as [Hr _]. cbn. by rewrite Hr, E.
  - apply not_true_is_false. intros (r' & Hin & Hz)%existsb_exists.
    apply Nat.eqb_eq in Hz. apply list_elem_of_In in Hin.
    rewrite Forall_forall in Hw. rewrite (Hw r' Hin) in Hz. done.
Qed.



Lemma calls_made_traced {value : Type} (p : platform value) (w : world value) :
  let line := straight_line (negb (path_exists (fs w) data_dir)) in
  calls_made p w `prefix_of` line /\
  (completes p w = true -> calls_made p w = line).
Proof.
  destruct (traces_by_fs_notebook p w) as (evs & Hlog & Hr).
  unfold calls_made, completes. rewrite Hlog, drop_app_length. cbv zeta.
  destruct ((notebook p w).1) as [ns|e].
  - apply list_elem_of_singleton in Hr as ->. done.
  - destruct Hr as (l & ->%list_elem_of_singleton & Hp). done.
Qed.




(** C3 as stated fails: started without the data directory the notebook
    calls [os.makedirs], started with it it does not, so the two runs do
    not execute the same sequence of operations. *)
Lemma same_calls_fails :
  completes (demo 6) empty_world = true /\
  completes (demo 6) world_with_dir = true /\
  calls_made (demo 6) empty_world <> calls_made (demo 6) world_with_dir.
Proof. repeat split; try (vm_compute; reflexivity). vm_compute. discriminate. Qed.

(** C3, as amended: the notebook has one branch, the guard of
    [os.makedirs].  A run that completes executes the straight line of
    calls with [os.makedirs] in it exactly when ['../data/boston'] did not
    exist at the start; so two completed runs execute the same calls once
    [os.makedirs] is left out, and the very same calls when they start from
    states that agree on the directory. *)
Theorem one_branch_only {value : Type} (p1 p2 : platform value)
    (w1 w2 : world value) :
  completes p1 w1 = true ->
  completes p2 w2 = true ->
  calls_made p1 w1 = straight_line (negb (path_exists (fs w1) data_dir)) /\
  calls_made p2 w2 = straight_line (negb (path_exists (fs w2) data_dir)) /\
  (path_exists (fs w1) data_dir = path_exists (fs w2) data_dir ->
   calls_made p1 w1 = calls_made p2 w2) /\
  filter (fun name => name <> "os.makedirs") (calls_made p1 w1)
  = filter (fun name => name <> "os.makedirs") (calls_made p2 w2).
Proof.
  intros H1 H2.
  destruct (calls_made_traced p1 w1) as (_ & E1).
  destruct (calls_made_traced p2 w2) as (_ & E2).
  rewrite (E1 H1), (E2 H2).
  split; [done|]. split; [done|]. split; [by intros ->|].
  by destruct (path_exists (fs w1) data_dir), (path_exists (fs w2) data_dir).
Qed.

Lemma one_branch_only_witness :
  calls_made (demo 6) empty_world
  = straight_line (negb (path_exists (fs empty_world) data_dir)) /\
  calls_made (demo 6) world_with_dir
  = straight_line (negb (path_exists (fs world_with_dir) data_dir)) /\
  (path_exists (fs empty_world) data_dir = path_exists (fs world_with_dir) data_dir ->
   calls_made (demo 6) empty_world = calls_made (demo 6) world_with_dir) /\
  filter (fun name => name <> "os.makedirs") (calls_made (demo 6) empty_world)
  = filter (fun name => name <> "os.makedirs") (calls_made (demo 6) world_with_dir).
Proof.
  apply (one_branch_only (demo 6) (demo 6) empty_world world_with_dir);
    vm_compute; reflexivity.
Defined.

(** A completed run, spelled out. *)
Lemma completed_run {value : Type} (p : platform value) (w : world value) :
  well_shaped p = true ->
  data_dir_usable (fs w) = true ->
  completes p w = true ->
  exists parts text,
    partitioned p (draws w) parts /\
    notebook_train p w =
      (Ok (parts, val_uri p, train_uri p, xgboost_image p, fitted_estimator p),
       world_after_fit p parts w) /\
    decode_utf8 (answer p parts w) = Ok text /\
    length (concat (values (part_Y_test parts)))
    = length (np_fromstring p text ",") /\
    notebook p w =
      (Ok (final_namespace p parts (np_fromstring p text ",")),
       world_after_delete p parts (np_fromstring p text ",") w) /\
    serializable (values (part_X_test parts)) = true.
Proof.
  intros Hshape Hfs Hc.
  destruct (notebook_run p w Hshape Hfs) as (parts & Hparts & Etrain & Erun).
  unfold completes in Hc. rewrite Erun in Hc.
  destruct (serializable (values (part_X_test parts))) eqn:Hser; [|discriminate Hc].
  destruct (decode_utf8 (answer p parts w)) as [text|e] eqn:Hdec; [|discriminate Hc].
  cbv zeta in Hc, Erun.
  destruct (Nat.eqb_spec (length (concat (values (part_Y_test parts))))
              (length (np_fromstring p text ","))) as [Hlen|Hlen];
    [|discriminate Hc].
  by exists parts, text.
Qed.

Lemma added_after_delete {value : Type} (p : platform value) (parts : partitions)
    (preds : list value) (w : world value) :
  added w (world_after_delete p parts preds w)
  = train_events p (negb (path_exists (fs w) data_dir))
    ++ [EvDeploy 1 "ml.m4.xlarge";
        EvPredict (endpoint_name p) (Some "text/csv") (request_body p parts);
        EvFromString ",";
        EvScatter (concat (values (part_Y_test parts))) preds;
        EvXlabel "Median Price"; EvYlabel "Predicted Price";
        EvTitle "Median Price vs Predicted Price";
        EvDeleteEndpoint (endpoint_name p)].
Proof.
  unfold added, world_after_delete, world_after_plot, world_after_predict,
    world_after_deploy, world_after_fit.
  cbn [log set_endpoints logged].
  rewrite <- !(assoc_L (++)). rewrite drop_app_length. reflexivity.
Qed.

Lemma added_after_fit {value : Type} (p : platform value) (parts : partitions)
    (w : world value) :
  added w (world_after_fit p parts w)
  = train_events p (negb (path_exists (fs w) data_dir)).
Proof. unfold added, world_after_fit. cbn [log]. apply drop_app_length. Qed.

(** C8: the endpoint is made by [deploy], with one instance of type
    ['ml.m4.xlarge'] and under the name the returned predictor carries; the
    cells before [deploy] leave the account's endpoints as they were, the
    predict and plot cells leave the new endpoint in service, and
    [delete_endpoint], called on that same predictor, takes out exactly this
    endpoint.  [deploy] and [delete_endpoint] are each called once. *)
Theorem endpoint_lifecycle {value : Type} (p : platform value) (w : world value) :
  well_shaped p = true ->
  data_dir_usable (fs w) = true ->
  completes p w = true ->
  exists parts val_loc train_loc image est w_fit
         deployed w_deploy used preds w_predict w_plot w_end,
    notebook_train p w = (Ok (parts, val_loc, train_loc, image, est), w_fit) /\
    cell_deploy est w_fit = (Ok deployed, w_deploy) /\
    cell_predict p deployed parts w_deploy = (Ok (used, preds), w_predict) /\
    cell_plot parts preds w_predict = (Ok (), w_plot) /\
    cell_delete used w_plot = (Ok (), w_end) /\
    (notebook p w).2 = w_end /\
    let name := predictor_endpoint deployed in
    predictor_endpoint used = name /\
    endpoints w_fit = endpoints w /\
    endpoints w_deploy = <[name := mkEndpoint name 1 "ml.m4.xlarge"]> (endpoints w) /\
    endpoints w_predict = endpoints w_deploy /\
    endpoints w_plot = endpoints w_deploy /\
    endpoints w_end = delete name (endpoints w) /\
    filter (fun e => call_name e = "deploy" \/ call_name e = "delete_endpoint")
           (added w w_end)
    = [EvDeploy 1 "ml.m4.xlarge"; EvDeleteEndpoint name].
Proof.
  intros Hshape Hfs Hc.
  destruct (completed_run p w Hshape Hfs Hc)
    as (parts & text & Hparts & Etrain & Hdec & Hlen & Erun & Hser).
  set (preds := np_fromstring p text ",") in *.
  exists parts, (val_uri p), (train_uri p), (xgboost_image p), (fitted_estimator p),
    (world_after_fit p parts w), (fresh_predictor p), (world_after_deploy p parts w),
    (csv_predictor p), preds, (world_after_predict p parts w),
    (world_after_plot p parts preds w), (world_after_delete p parts preds w).
  split; [exact Etrain|].
  split; [exact (cell_deploy_run p (world_after_fit p parts w))|].
  split.
  { rewrite (cell_predict_run p parts (xgb_job p parts (s3 w))).
    - fold (answer p parts w). by rewrite Hdec.
    - exact Hser.
    - unfold world_after_deploy. cbn [endpoints set_endpoints]. apply lookup_insert_eq.
    - unfold world_after_deploy, world_after_fit.
      cbn [jobs set_endpoints logged]. apply lookup_insert_eq. }
  split.
  { rewrite cell_plot_run. apply Nat.eqb_eq in Hlen. by rewrite Hlen. }
  split.
  { apply (cell_delete_run p (xgb_endpoint p) (world_after_plot p parts preds w)).
    unfold world_after_plot, world_after_predict, world_after_deploy.
    cbn [endpoints set_endpoints logged]. apply lookup_insert_eq. }
  split; [by rewrite Erun|].
  cbv zeta. cbn [predictor_endpoint fresh_predictor csv_predictor].
  split; [done|]. split; [done|]. split; [done|]. split; [done|]. split; [done|].
  split.
  { unfold world_after_delete, world_after_plot, world_after_predict,
      world_after_deploy, world_after_fit.
    cbn [endpoints set_endpoints logged]. apply delete_insert_eq. }
  rewrite added_after_delete. unfold train_events.
  by destruct (path_exists (fs w) data_dir).
Qed.



Lemma endpoint_lifecycle_witness :
  exists parts val_loc train_loc image est w_fit
         deployed w_deploy used preds w_predict w_plot w_end,
    notebook_train (demo 6) empty_world
    = (Ok (parts, val_loc, train_loc, image, est), w_fit) /\
    cell_deploy est w_fit = (Ok deployed, w_deploy) /\
    cell_predict (demo 6) deployed parts w_deploy = (Ok (used, preds), w_predict) /\
    cell_plot parts preds w_predict = (Ok (), w_plot) /\
    cell_delete used w_plot = (Ok (), w_end) /\
    (notebook (demo 6) empty_world).2 = w_end /\
    let name := predictor_endpoint deployed in
    predictor_endpoint used = name /\
    endpoints w_fit = endpoints empty_world /\
    endpoints w_deploy
    = <[name := mkEndpoint name 1 "ml.m4.xlarge"]> (endpoints empty_world) /\
    endpoints w_predict = endpoints w_deploy /\
    endpoints w_plot = endpoints w_deploy /\
    endpoints w_end = delete name (endpoints empty_world) /\
    filter (fun e => call_name e = "deploy" \/ call_name e = "delete_endpoint")
           (added empty_world w_end)
    = [EvDeploy 1 "ml.m4.xlarge"; EvDeleteEndpoint name].
Proof.
  apply (endpoint_lifecycle (demo 6) empty_world); vm_compute; reflexivity.
Defined.

Lemma string_app_inj_l (s a b : string) : (s ++ a = s ++ b)%string -> a = b.
Proof.
  induction s as [|c s IH]; [done|].
  change (String c (s ++ a)%string = String c (s ++ b)%string -> a = b).
  intros H. injection H as H. by apply IH.
Qed.

Lemma string_app_assoc (a b c : string) : ((a ++ b) ++ c = a ++ (b ++ c))%string.
Proof.
  induction a as [|x a IH]; [done|].
  change (String x ((a ++ b) ++ c)%string = String x (a ++ (b ++ c))%string).
  by rewrite IH.
Qed.

Lemma val_uri_train_uri {value : Type} (p : platform value) : val_uri p <> train_uri p.
Proof.
  unfold val_uri, train_uri, s3_uri. intros H.
  do 5 apply string_app_inj_l in H. discriminate H.
Qed.

(** The model artifact lands beside the two CSV objects, not on them. *)
Lemma model_uri_csv_uris {value : Type} (p : platform value) :
  model_uri p <> val_uri p /\ model_uri p <> train_uri p.
Proof.
  unfold model_uri, artifact_uri, output_uri, val_uri, train_uri, s3_uri.
  rewrite !string_app_assoc.
  split; intros H; do 4 apply string_app_inj_l in H; discriminate H.
Qed.

Lemma partitioned_NoDup {value : Type} (p : platform value) (k : nat) (parts : partitions) :
  partitioned p k parts ->
  NoDup (index (part_X_train parts)) /\ NoDup (index (part_X_val parts)) /\
  NoDup (index (part_X_test parts)) /\
  (forall i, i ∈ index (part_X_test parts) -> i ∉ index (part_X_train parts)) /\
  (forall i, i ∈ index (part_X_test parts) -> i ∉ index (part_X_val parts)).
Proof.
  intros H. pose proof (cover _ _ _ H) as Hc.
  assert (Hnd : NoDup (index (part_X_train parts) ++ index (part_X_val parts)
                        ++ index (part_X_test parts))).
  { rewrite Hc. apply NoDup_seq. }
  apply NoDup_app in Hnd as (Htr & Hdis & Hrest).
  apply NoDup_app in Hrest as (Hva & Hdis2 & Hte).
  repeat split; try done.
  - intros i Hi Hin. apply (Hdis i Hin). apply elem_of_app. by right.
  - intros i Hi Hin. by apply (Hdis2 i Hin).
Qed.

(** C5: a run uploads exactly two files, first [validation.csv] and then
    [train.csv] from the data directory, both under the key prefix
    ['boston-xgboost-deploy-hl'] of the default bucket, and both before the
    training job.  Each of the two objects is a CSV text without header line
    and index column, with one line per row of its partition: the row's
    target, then its thirteen feature values, separated by commas.  Besides
    the two objects the store gains only the model artifact, which the
    training job writes under the estimator's output path while [fit]
    waits; the cells after [fit] leave the store as it is. *)
Theorem two_csv_uploads {value : Type} (p : platform value) (w : world value) :
  well_shaped p = true ->
  data_dir_usable (fs w) = true ->
  length (boston_feature_names p) = 13 ->
  exists parts val_loc train_loc image est w' val_rows train_rows name job,
    notebook_train p w = (Ok (parts, val_loc, train_loc, image, est), w') /\
    filter (fun e => call_name e = "upload_data") (added w w')
    = [EvUploadData [".."; "data"; "boston"; "validation.csv"] "boston-xgboost-deploy-hl";
       EvUploadData [".."; "data"; "boston"; "train.csv"] "boston-xgboost-deploy-hl"] /\
    val_loc = ("s3://" ++ default_bucket p
               ++ "/boston-xgboost-deploy-hl/validation.csv")%string /\
    train_loc = ("s3://" ++ default_bucket p
                 ++ "/boston-xgboost-deploy-hl/train.csv")%string /\
    val_loc <> train_loc /\
    filter (fun e => call_name e = "upload_data") (added w (notebook p w).2)
    = [EvUploadData [".."; "data"; "boston"; "validation.csv"] "boston-xgboost-deploy-hl";
       EvUploadData [".."; "data"; "boston"; "train.csv"] "boston-xgboost-deploy-hl"] /\
    s3 (notebook p w).2 = s3 w' /\
    latest_training_job est = Some name /\
    jobs w' !! name = Some job /\
    s3 w' = <[("s3://" ++ default_bucket p ++ "/boston-xgboost-deploy-hl/output/"
               ++ name ++ "/output/model.tar.gz")%string := model_artifact p job]>
              (<[train_loc :=
                   String.concat ""
                     ((fun r => (String.concat ","
                                   (pandas_repr p r.1 :: (pandas_repr p <$> r.2))
                                 ++ LF)%string) <$> train_rows)]>
                 (<[val_loc :=
                      String.concat ""
                        ((fun r => (String.concat ","
                                      (pandas_repr p r.1 :: (pandas_repr p <$> r.2))
                                    ++ LF)%string) <$> val_rows)]>
                    (s3 w))) /\
    Forall2 (fun i r => boston_target p !! i = Some r.1 /\
                        boston_data p !! i = Some r.2 /\ length r.2 = 13)
            (index (part_X_val parts)) val_rows /\
    Forall2 (fun i r => boston_target p !! i = Some r.1 /\
                        boston_data p !! i = Some r.2 /\ length r.2 = 13)
            (index (part_X_train parts)) train_rows.
Proof.
  intros Hshape Hfs Hnames.
  destruct (run_after_fit p w Hshape Hfs)
    as (parts & tail & Hparts & Etrain & _ & Es3 & Eadded & Htail & _).
  destruct (partitioned_NoDup p _ parts Hparts) as (Htr & Hva & _).
  destruct (saved_text_rows p (part_X_val parts) (part_Y_val parts))
    as (val_rows & Hvt & Hvr).
  { apply paired_of; apply Hparts. }
  { by rewrite (same_index_val _ _ _ Hparts). }
  destruct (saved_text_rows p (part_X_train parts) (part_Y_train parts))
    as (train_rows & Htt & Htr').
  { apply paired_of; apply Hparts. }
  { by rewrite (same_index_train _ _ _ Hparts). }
  exists parts, (val_uri p), (train_uri p), (xgboost_image p), (fitted_estimator p),
    (world_after_fit p parts w), val_rows, train_rows, (endpoint_name p),
    (xgb_job p parts (s3 w)).
  assert (Hup : filter (fun e : event value => call_name e = "upload_data")
                  (train_events p (negb (path_exists (fs w) data_dir)))
                = [EvUploadData [".."; "data"; "boston"; "validation.csv"]
                     "boston-xgboost-deploy-hl";
                   EvUploadData [".."; "data"; "boston"; "train.csv"]
                     "boston-xgboost-deploy-hl"]).
  { unfold train_events. by destruct (path_exists (fs w) data_dir). }
  split; [exact Etrain|].
  rewrite added_after_fit.
  split; [exact Hup|].
  split; [reflexivity|]. split; [reflexivity|].
  split; [apply val_uri_train_uri|].
  split.
  { rewrite Eadded, filter_app, Hup, filter_cons_False by done.
    rewrite (filter_names_nil _ _ _ Htail); [done|].
    apply (bool_decide_unpack _). by vm_compute. }
  split; [exact Es3|].
  split; [reflexivity|].
  split.
  { unfold world_after_fit. cbn [jobs]. apply lookup_insert_eq. }
  split.
  { unfold world_after_fit, store_after_fit, store_after_upload. cbn [s3].
    rewrite Hvt, Htt. unfold csv_of_rows. f_equal.
    unfold model_uri, artifact_uri, output_uri, endpoint_name, prefix.
    by rewrite !string_app_assoc. }
  split.
  - eapply Forall2_impl; [exact Hvr|]. intros i r (Ht & Hd).
    split; [done|]. split; [done|].
    rewrite <- Hnames. by eapply well_shaped_width.
  - eapply Forall2_impl; [exact Htr'|]. intros i r (Ht & Hd).
    split; [done|]. split; [done|].
    rewrite <- Hnames. by eapply well_shaped_width.
Qed.

Lemma two_csv_uploads_witness :
  exists parts val_loc train_loc image est w' val_rows train_rows name job,
    notebook_train (demo 6) empty_world
    = (Ok (parts, val_loc, train_loc, image, est), w') /\
    filter (fun e => call_name e = "upload_data") (added empty_world w')
    = [EvUploadData [".."; "data"; "boston"; "validation.csv"] "boston-xgboost-deploy-hl";
       EvUploadData [".."; "data"; "boston"; "train.csv"] "boston-xgboost-deploy-hl"] /\
    val_loc = ("s3://" ++ default_bucket (demo 6)
               ++ "/boston-xgboost-deploy-hl/validation.csv")%string /\
    train_loc = ("s3://" ++ default_bucket (demo 6)
                 ++ "/boston-xgboost-deploy-hl/train.csv")%string /\
    val_loc <> train_loc /\
    filter (fun e => call_name e = "upload_data")
           (added empty_world (notebook (demo 6) empty_world).2)
    = [EvUploadData [".."; "data"; "boston"; "validation.csv"] "boston-xgboost-deploy-hl";
       EvUploadData [".."; "data"; "boston"; "train.csv"] "boston-xgboost-deploy-hl"] /\
    s3 (notebook (demo 6) empty_world).2 = s3 w' /\
    latest_training_job est = Some name /\
    jobs w' !! name = Some job /\
    s3 w' = <[("s3://" ++ default_bucket (demo 6)
               ++ "/boston-xgboost-deploy-hl/output/"
               ++ name ++ "/output/model.tar.gz")%string
              := model_artifact (demo 6) job]>
              (<[train_loc :=
                   String.concat ""
                     ((fun r => (String.concat ","
                                   (pandas_repr (demo 6) r.1
                                    :: (pandas_repr (demo 6) <$> r.2))
                                 ++ LF)%string) <$> train_rows)]>
                 (<[val_loc :=
                      String.concat ""
                        ((fun r => (String.concat ","
                                      (pandas_repr (demo 6) r.1
                                       :: (pandas_repr (demo 6) <$> r.2))
                                    ++ LF)%string) <$> val_rows)]>
                    (s3 empty_world))) /\
    Forall2 (fun i r => boston_target (demo 6) !! i = Some r.1 /\
                        boston_data (demo 6) !! i = Some r.2 /\ length r.2 = 13)
            (index (part_X_val parts)) val_rows /\
    Forall2 (fun i r => boston_target (demo 6) !! i = Some r.1 /\
                        boston_data (demo 6) !! i = Some r.2 /\ length r.2 = 13)
            (index (part_X_train parts)) train_rows.
Proof. apply (two_csv_uploads (demo 6) empty_world); reflexivity. Defined.



(** ** What lies under a location in the store *)

Lemma prefix_refl (s : string) : String.prefix s s = true.
Proof.
  induction s as [|a s IH]; [done|]. cbn.
  by destruct (Ascii.ascii_dec a a).
Qed.

Lemma prefix_app (s a b : string) :
  String.prefix (s ++ a) (s ++ b) = String.prefix a b.
Proof.
  induction s as [|c s IH]; [done|].
  change (String.prefix (String c (s ++ a)) (String c (s ++ b)) = String.prefix a b).
  cbn. by destruct (Ascii.ascii_dec c c).
Qed.

Lemma uri_prefix (bucket a b : string) :
  String.prefix (s3_uri bucket prefix a) (s3_uri bucket prefix b) = String.prefix a b.
Proof.
  unfold s3_uri.
  by rewrite (prefix_app "s3://"), (prefix_app bucket), (prefix_app "/"),
    (prefix_app prefix), (prefix_app "/").
Qed.

Section Channels.
Context {value : Type} (p : platform value).

Lemma objects_under_train (t v : string) (store : gmap string string) :
  objects_under (<[train_uri p := t]> (<[val_uri p := v]> store)) (train_uri p)
  = <[train_uri p := t]> (objects_under store (train_uri p)).
Proof.
  unfold objects_under.
  rewrite map_filter_insert_True by apply prefix_refl.
  f_equal.
  rewrite map_filter_insert_False.
  2: { cbn. unfold train_uri, val_uri. rewrite uri_prefix. by vm_compute. }
  rewrite map_filter_delete. apply delete_id.
  apply map_lookup_filter_None. right. intros x _. cbn.
  unfold train_uri, val_uri. rewrite uri_prefix. by vm_compute.
Qed.

Lemma objects_under_val (t v : string) (store : gmap string string) :
  objects_under (<[train_uri p := t]> (<[val_uri p := v]> store)) (val_uri p)
  = <[val_uri p := v]> (objects_under store (val_uri p)).
Proof.
  unfold objects_under.
  assert (Hno : String.prefix (val_uri p) (train_uri p) <> true).
  { unfold train_uri, val_uri. rewrite uri_prefix. by vm_compute. }
  rewrite map_filter_insert_False by exact Hno.
  rewrite map_filter_delete.
  rewrite map_filter_insert_True by apply prefix_refl.
  rewrite delete_insert_ne by (intros E; by apply (val_uri_train_uri p)).
  f_equal. apply delete_id.
  apply map_lookup_filter_None. right. by intros x _.
Qed.

Lemma only_object (location text : string) (store : gmap string string) :
  (forall k, is_Some (store !! k) -> String.prefix location k = true -> k = location) ->
  <[location := text]> (objects_under store location) = {[location := text]}.
Proof.
  intros Hclean. apply map_eq. intros k.
  destruct (decide (location = k)) as [<-|Hne].
  - by rewrite lookup_insert_eq, lookup_singleton_eq.
  - rewrite lookup_insert_ne, lookup_singleton_ne by done.
    apply map_lookup_filter_None. right. intros x Hx Hp. cbn in Hp.
    apply Hne. symmetry. apply Hclean; [by eexists|done].
Qed.
End Channels.

(** ** Frames are determined by their labels and the table *)

Section Determined.
Context {value : Type}.

Lemma Forall2_lookup_functional {A} (l : list A) (positions : list nat) (a b : list A) :
  Forall2 (fun j x => l !! j = Some x) positions a ->
  Forall2 (fun j x => l !! j = Some x) positions b ->
  a = b.
Proof.
  intros Ha. revert b. induction Ha as [|j x ? ? Hx _ IH]; intros b Hb;
    inversion Hb as [|? y ? ? Hy Hrest]; subst; [done|].
  f_equal; [congruence|]. by apply IH.
Qed.

Lemma frame_determined (t1 t2 : list (list value)) (d1 d2 : DataFrame value) :
  columns d1 = columns d2 -> index d1 = index d2 ->
  drawn_from t1 d1 -> drawn_from t2 d2 ->
  (forall i, i ∈ index d1 -> t1 !! i = t2 !! i) ->
  d1 = d2.
Proof.
  destruct d1 as [c1 r1], d2 as [c2 r2]. unfold index, drawn_from. cbn.
  intros -> Hi H1 H2 Hsame. f_equal.
  revert r2 Hi H2. induction r1 as [|[l1 x1] r1 IH]; intros [|[l2 x2] r2] Hi H2;
    try done.
  cbn in Hi. injection Hi as -> Hi.
  apply Forall_cons in H1 as [Hx1 H1]. apply Forall_cons in H2 as [Hx2 H2].
  cbn in Hx1, Hx2.
  assert (x1 = x2).
  { rewrite (Hsame l2) in Hx1 by (cbn; constructor). congruence. }
  subst. f_equal. apply IH; try done.
  intros i Hin. apply Hsame. cbn. by constructor.
Qed.

Lemma to_csv_text_ext (r1 r2 : value -> string) (d : DataFrame (option value))
    (header index_col : bool) :
  (forall v, r1 v = r2 v) ->
  to_csv_text r1 d header index_col = to_csv_text r2 d header index_col.
Proof.
  intros Hr. unfold to_csv_text. do 2 f_equal.
  apply list_fmap_ext. intros _ r _.
  assert (E : forall cells : list (option value),
            (fun c => match c with Some v => r1 v | None => "" end) <$> cells
            = (fun c => match c with Some v => r2 v | None => "" end) <$> cells).
  { intros cells. apply list_fmap_ext. intros _ [v|] _; [apply Hr|done]. }
  cbv beta. by rewrite E.
Qed.
End Determined.

Lemma partitions_agree {value : Type} (p1 p2 : platform value) (k : nat)
    (parts1 parts2 : partitions) :
  same_but_test_rows p1 p2 k ->
  partitioned p1 k parts1 -> partitioned p2 k parts2 ->
  part_X_train parts1 = part_X_train parts2 /\
  part_X_val parts1 = part_X_val parts2 /\
  part_Y_train parts1 = part_Y_train parts2 /\
  part_Y_val parts1 = part_Y_val parts2.
Proof.
  intros Hsame H1 H2.
  pose proof (same_row_count _ _ _ Hsame) as HN.
  pose proof (same_shuffle _ _ _ Hsame) as Hsh.
  destruct (partitioned_NoDup p1 k parts1 H1) as (_ & _ & _ & Hdtr & Hdva).
  assert (Itest : index (part_X_test parts1)
                  = test_positions (shuffle p1 k (length (boston_data p1)))
                                   (length (boston_data p1))) by apply H1.
  assert (Itr : index (part_X_train parts1) = index (part_X_train parts2)).
  { eapply Forall2_lookup_functional; [apply (labels_train _ _ _ H1)|].
    rewrite HN, !Hsh. apply (labels_train _ _ _ H2). }
  assert (Iva : index (part_X_val parts1) = index (part_X_val parts2)).
  { eapply Forall2_lookup_functional; [apply (labels_val _ _ _ H1)|].
    rewrite HN, !Hsh. apply (labels_val _ _ _ H2). }
  assert (Hrows_tr : forall i, i ∈ index (part_X_train parts1) ->
            boston_data p1 !! i = boston_data p2 !! i /\
            boston_target p1 !! i = boston_target p2 !! i).
  { intros i Hi. apply (same_other_rows _ _ _ Hsame). rewrite <- Itest.
    intros Hte. by apply (Hdtr i Hte). }
  assert (Hrows_va : forall i, i ∈ index (part_X_val parts1) ->
            boston_data p1 !! i = boston_data p2 !! i /\
            boston_target p1 !! i = boston_target p2 !! i).
  { intros i Hi. apply (same_other_rows _ _ _ Hsame). rewrite <- Itest.
    intros Hte. by apply (Hdva i Hte). }
  destruct (columns_X _ _ _ H1) as (C1tr & C1va & _).
  destruct (columns_X _ _ _ H2) as (C2tr & C2va & _).
  destruct (columns_Y _ _ _ H1) as (D1tr & D1va & _).
  destruct (columns_Y _ _ _ H2) as (D2tr & D2va & _).
  pose proof (same_names _ _ _ Hsame) as Hnames.
  repeat split.
  - eapply frame_determined; [congruence | exact Itr | apply H1 | apply H2 |].
    intros i Hi. by apply Hrows_tr.
  - eapply frame_determined; [congruence | exact Iva | apply H1 | apply H2 |].
    intros i Hi. by apply Hrows_va.
  - eapply frame_determined; [congruence | | apply H1 | apply H2 |].
    + rewrite (same_index_train _ _ _ H1), (same_index_train _ _ _ H2). exact Itr.
    + intros i Hi. rewrite (same_index_train _ _ _ H1) in Hi.
      unfold targets_table. rewrite !list_lookup_fmap.
      by rewrite (proj2 (Hrows_tr i Hi)).
  - eapply frame_determined; [congruence | | apply H1 | apply H2 |].
    + rewrite (same_index_val _ _ _ H1), (same_index_val _ _ _ H2). exact Iva.
    + intros i Hi. rewrite (same_index_val _ _ _ H1) in Hi.
      unfold targets_table. rewrite !list_lookup_fmap.
      by rewrite (proj2 (Hrows_va i Hi)).
Qed.

(** C2: what the notebook writes and uploads is built from the train and
    validation frames alone.  The labels of the test partition occur in
    neither of them, and the two local files and the two uploaded objects
    hold the text of these frames.  When [fit] has returned the store holds,
    besides them, only the model artifact the training job wrote.  A second
    platform that differs from the first only in the rows of the test
    partition leads to the very same world when [fit] has returned: the same
    files, the same objects, the same training job with the same inputs, the
    same model artifact and the same estimator.  The cells after [fit]
    change neither the files nor the store. *)
Theorem test_rows_stay_local {value : Type} (p1 p2 : platform value)
    (w : world value) :
  well_shaped p1 = true ->
  well_shaped p2 = true ->
  data_dir_usable (fs w) = true ->
  same_but_test_rows p1 p2 (draws w) ->
  exists parts1 parts2 val_loc train_loc image est w' name job,
    notebook_train p1 w = (Ok (parts1, val_loc, train_loc, image, est), w') /\
    notebook_train p2 w = (Ok (parts2, val_loc, train_loc, image, est), w') /\
    (forall i, i ∈ index (part_X_test parts1) ->
               i ∉ index (part_X_train parts1) ++ index (part_X_val parts1)) /\
    fs w' !! val_path
    = Some (File (saved_text p1 (part_Y_val parts1) (part_X_val parts1))) /\
    fs w' !! train_path
    = Some (File (saved_text p1 (part_Y_train parts1) (part_X_train parts1))) /\
    latest_training_job est = Some name /\
    jobs w' !! name = Some job /\
    job_data job !! "train"
    = Some (<[train_loc := saved_text p1 (part_Y_train parts1) (part_X_train parts1)]>
              (objects_under (s3 w) train_loc)) /\
    job_data job !! "validation"
    = Some (<[val_loc := saved_text p1 (part_Y_val parts1) (part_X_val parts1)]>
              (objects_under (s3 w) val_loc)) /\
    s3 w' = <[(output_path est ++ "/" ++ name ++ "/output/model.tar.gz")%string
              := model_artifact p1 job]>
              (<[train_loc := saved_text p1 (part_Y_train parts1) (part_X_train parts1)]>
                 (<[val_loc := saved_text p1 (part_Y_val parts1) (part_X_val parts1)]>
                    (s3 w))) /\
    fs (notebook p1 w).2 = fs w' /\
    s3 (notebook p1 w).2 = s3 w' /\
    part_X_train parts1 = part_X_train parts2 /\
    part_X_val parts1 = part_X_val parts2 /\
    part_Y_train parts1 = part_Y_train parts2 /\
    part_Y_val parts1 = part_Y_val parts2.
Proof.
  intros Hs1 Hs2 Hfs Hsame.
  destruct (run_after_fit p1 w Hs1 Hfs)
    as (parts1 & tail & H1 & E1 & Efs & Es3 & _).
  destruct (notebook_train_ok p2 w Hs2 Hfs) as (parts2 & H2 & E2).
  destruct (partitions_agree p1 p2 _ parts1 parts2 Hsame H1 H2)
    as (Extr & Exva & Eytr & Eyva).
  destruct (partitioned_NoDup p1 _ parts1 H1) as (_ & _ & _ & Hdtr & Hdva).
  pose proof (same_row_count _ _ _ Hsame) as HN.
  pose proof (same_region _ _ _ Hsame) as Hregion.
  pose proof (same_bucket _ _ _ Hsame) as Hbucket.
  pose proof (same_role _ _ _ Hsame) as Hrole.
  assert (Himage : xgboost_image p1 = xgboost_image p2).
  { unfold xgboost_image. by rewrite (same_image_uri _ _ _ Hsame), Hregion. }
  assert (Hval : val_uri p1 = val_uri p2) by (unfold val_uri; by rewrite Hbucket).
  assert (Htrain : train_uri p1 = train_uri p2) by (unfold train_uri; by rewrite Hbucket).
  assert (Hchannels : fit_channels p1 = fit_channels p2).
  { unfold fit_channels. by rewrite Hval, Htrain. }
  assert (Hest : fitted_estimator p1 = fitted_estimator p2).
  { unfold fitted_estimator.
    by rewrite Himage, Hrole, Hbucket, (same_job_name _ _ _ Hsame). }
  assert (Htext : forall Y X : DataFrame value, saved_text p1 Y X = saved_text p2 Y X).
  { intros Y X. apply to_csv_text_ext. apply Hsame. }
  assert (Hstore : store_after_upload p1 parts1 (s3 w)
                   = store_after_upload p2 parts2 (s3 w)).
  { unfold store_after_upload. by rewrite Hval, Htrain, Extr, Exva, Eytr, Eyva, !Htext. }
  assert (Hjob : xgb_job p1 parts1 (s3 w) = xgb_job p2 parts2 (s3 w)).
  { unfold xgb_job. by rewrite Himage, Hstore, Hrole, Hbucket, Hchannels. }
  assert (Hmodel : model_uri p1 = model_uri p2).
  { unfold model_uri, output_uri.
    by rewrite Himage, Hbucket, (same_job_name _ _ _ Hsame). }
  assert (Hworld : world_after_fit p1 parts1 w = world_after_fit p2 parts2 w).
  { unfold world_after_fit. f_equal.
    - unfold fs_after_save. by rewrite Extr, Exva, Eytr, Eyva, !Htext.
    - unfold store_after_fit.
      by rewrite Hmodel, Hjob, Hstore, (same_training _ _ _ Hsame).
    - by rewrite Hjob, Himage, (same_job_name _ _ _ Hsame).
    - f_equal. unfold train_events.
      by rewrite HN, Himage, Hregion, Hval, Htrain, Hchannels. }
  exists parts1, parts2, (val_uri p1), (train_uri p1), (xgboost_image p1),
    (fitted_estimator p1), (world_after_fit p1 parts1 w), (endpoint_name p1),
    (xgb_job p1 parts1 (s3 w)).
  split; [exact E1|].
  split; [by rewrite E2, Hval, Htrain, Himage, Hest, Hworld|].
  split.
  { intros i Hi [Hin|Hin]%elem_of_app; [by apply (Hdtr i Hi)|by apply (Hdva i Hi)]. }
  split.
  { unfold world_after_fit, fs_after_save. cbn [fs].
    rewrite lookup_insert_ne by done. apply lookup_insert_eq. }
  split.
  { unfold world_after_fit, fs_after_save. cbn [fs]. apply lookup_insert_eq. }
  split; [reflexivity|].
  split.
  { unfold world_after_fit. cbn [jobs]. apply lookup_insert_eq. }
  split.
  { unfold xgb_job, fit_channels, store_after_upload. cbn [job_data].
    rewrite lookup_fmap, lookup_insert_eq. cbn [fmap option_fmap option_map s3_data].
    by rewrite objects_under_train. }
  split.
  { unfold xgb_job, fit_channels, store_after_upload. cbn [job_data].
    rewrite lookup_fmap, lookup_insert_ne by done. rewrite lookup_insert_eq.
    cbn [fmap option_fmap option_map s3_data].
    by rewrite objects_under_val. }
  split; [reflexivity|].
  split; [exact Efs|]. split; [exact Es3|].
  done.
Qed.

Lemma demo_other_same_but_test_rows : same_but_test_rows (demo 6) demo_other 0.
Proof.
  split; try reflexivity; try (intros; reflexivity).
  intros i Hi.
  change (i ∉ [5; 4]) in Hi.
  do 4 (destruct i as [|i]; [split; reflexivity|]).
  destruct i as [|i]; [exfalso; apply Hi; repeat constructor|].
  destruct i as [|i]; [exfalso; apply Hi; repeat constructor|].
  split; reflexivity.
Qed.

Lemma test_rows_stay_local_witness :
  exists parts1 parts2 val_loc train_loc image est w' name job,
    notebook_train (demo 6) empty_world
    = (Ok (parts1, val_loc, train_loc, image, est), w') /\
    notebook_train demo_other empty_world
    = (Ok (parts2, val_loc, train_loc, image, est), w') /\
    (forall i, i ∈ index (part_X_test parts1) ->
               i ∉ index (part_X_train parts1) ++ index (part_X_val parts1)) /\
    fs w' !! val_path
    = Some (File (saved_text (demo 6) (part_Y_val parts1) (part_X_val parts1))) /\
    fs w' !! train_path
    = Some (File (saved_text (demo 6) (part_Y_train parts1) (part_X_train parts1))) /\
    latest_training_job est = Some name /\
    jobs w' !! name = Some job /\
    job_data job !! "train"
    = Some (<[train_loc := saved_text (demo 6) (part_Y_train parts1)
                                      (part_X_train parts1)]>
              (objects_under (s3 empty_world) train_loc)) /\
    job_data job !! "validation"
    = Some (<[val_loc := saved_text (demo 6) (part_Y_val parts1)
                                    (part_X_val parts1)]>
              (objects_under (s3 empty_world) val_loc)) /\
    s3 w' = <[(output_path est ++ "/" ++ name ++ "/output/model.tar.gz")%string
              := model_artifact (demo 6) job]>
              (<[train_loc := saved_text (demo 6) (part_Y_train parts1)
                                         (part_X_train parts1)]>
                 (<[val_loc := saved_text (demo 6) (part_Y_val parts1)
                                          (part_X_val parts1)]>
                    (s3 empty_world))) /\
    fs (notebook (demo 6) empty_world).2 = fs w' /\
    s3 (notebook (demo 6) empty_world).2 = s3 w' /\
    part_X_train parts1 = part_X_train parts2 /\
    part_X_val parts1 = part_X_val parts2 /\
    part_Y_train parts1 = part_Y_train parts2 /\
    part_Y_val parts1 = part_Y_val parts2.
Proof.
  apply (test_rows_stay_local (demo 6) demo_other empty_world);
    [reflexivity | reflexivity | reflexivity | exact demo_other_same_but_test_rows].
Defined.

(* ================================================================== *)
(** * Further properties of the notebook *)

(** ** The split sizes in double precision *)

(** X2: sklearn computes [ceil(0.33 * n)] in binary64.  For every table of
    fewer than ten thousand rows the double nearest to 0.33, multiplied by
    the row count and rounded up, is the integer the exact product rounds up
    to. *)
Theorem binary64_split_sizes (n : nat) :
  n < 10 * 1000 -> n_test_binary64 n = n_test_of n.
Proof.
  intros Hn. pose proof n_test_binary64_agrees as H.
  rewrite List.forallb_forall in H.
  apply Nat.eqb_eq, H, List.in_seq. lia.
Qed.

Lemma binary64_split_sizes_witness : n_test_binary64 506 = n_test_of 506.
Proof. apply binary64_split_sizes. lia. Defined.

(** ** When the split cell returns *)

Section SplitEdge.
Context {value : Type} (p : platform value).
Implicit Types w : world value.

Lemma train_test_split_raises (X Y : DataFrame value) w :
  length (rows Y) <> length (rows X) \/ length (rows X) <= 1 ->
  (train_test_split p X Y w).1 = Raise ValueError.
Proof.
  intros H. unfold train_test_split. rewrite run_bind. cbn [emit].
  destruct (Nat.eqb_spec (length (rows Y)) (length (rows X))) as [HY|HY]; [|done].
  cbn [negb]. destruct H as [H|H]; [done|].
  destruct (Nat.eqb_spec (n_train_of (length (rows X))) 0) as [Hz|Hz]; [done|].
  exfalso. apply Hz. by apply n_train_of_zero.
Qed.

Lemma cell_split_raises w :
  well_shaped p = false -> (cell_split p w).1 = Raise ValueError.
Proof.
  intros Hshape.
  set (N := length (boston_data p)) in *.
  set (X0 := mkFrame (boston_feature_names p)
               (imap (fun i r => (i, r)) (boston_data p))).
  set (Y0 := frame_of_vector (boston_target p)).
  assert (HX0 : length (rows X0) = N) by (cbn; by rewrite length_imap).
  assert (HY0 : length (rows Y0) = length (boston_target p)).
  { cbn. by rewrite !length_imap. }
  cbv beta iota zeta delta
    [cell_split load_boston pd_DataFrame pd_DataFrame_vector mbind M_bind
     mret M_ret emit lift].
  cbn [fst snd fs s3 jobs endpoints draws log].
  unfold frame_of_array.
  destruct (forallb _ (boston_data p)) eqn:Hwidth; [|done].
  fold X0 Y0.
  set (w1 := mkWorld _ _ _ _ _ _).
  destruct (decide (length (boston_target p) = N /\ 2 <= N)) as [[Ht HN]|Hbad].
  - assert (HY : length (rows Y0) = length (rows X0)) by congruence.
    destruct (train_test_split_ok p X0 Y0 w1 HY ltac:(lia))
      as (X1 & Xte & Y1 & Yte & E1 & PX1 & _ & PY1 & _).
    rewrite E1.
    set (w2 := mkWorld _ _ _ _ _ _).
    assert (Hperm : length (shuffle p (draws w1) (length (rows X0))) = length (rows X0)).
    { by rewrite (shuffle_perm p), length_seq. }
    destruct (split_positions_lengths _ _ Hperm) as [_ Ltr].
    assert (HX1 : length (rows X1) = n_train_of N).
    { rewrite (picks_length _ _ _ PX1), Ltr. by rewrite HX0. }
    assert (Hsmall : length (rows X1) <= 1).
    { rewrite HX1. destruct (decide (3 <= N)) as [H3|H3].
      - exfalso. unfold well_shaped in Hshape. fold N in Hshape.
        rewrite Ht, Nat.eqb_refl, Hwidth in Hshape. cbn [andb] in Hshape.
        apply Nat.leb_gt in Hshape. lia.
      - pose proof (proj1 (n_train_of_ge2 N)). lia. }
    pose proof (train_test_split_raises X1 Y1 w2 (or_intror Hsmall)) as E2.
    by destruct (train_test_split p X1 Y1 w2) as [[[[[? ?] ?] ?]|e] w3];
      cbn in E2; [discriminate E2|injection E2 as ->].
  - assert (Hor : length (rows Y0) <> length (rows X0) \/ length (rows X0) <= 1).
    { rewrite HY0, HX0. lia. }
    pose proof (train_test_split_raises X0 Y0 w1 Hor) as E1.
    by destruct (train_test_split p X0 Y0 w1) as [[[[[? ?] ?] ?]|e] w3];
      cbn in E1; [discriminate E1|injection E1 as ->].
Qed.
End SplitEdge.

(** X1: the split cell returns its six frames exactly when the table is
    usable: one target per row, every row as wide as the list of feature
    names, and at least three rows.  For any other table it raises
    [ValueError].  Either way it leaves the local files alone. *)
Theorem split_cell_returns_iff {value : Type} (p : platform value) (w : world value) :
  is_ok (cell_split p w).1 = well_shaped p /\
  (well_shaped p = false -> (cell_split p w).1 = Raise ValueError) /\
  fs (cell_split p w).2 = fs w.
Proof.
  split; [|split].
  - destruct (well_shaped p) eqn:Hshape.
    + destruct (cell_split_ok p w Hshape) as (parts & -> & _). done.
    + by rewrite (cell_split_raises p w Hshape).
  - apply cell_split_raises.
  - apply fs_kept_cell_split.
Qed.

(** ** How a run can end *)

(** X7: over a usable table and data directory the run completes exactly
    when the table has at least one feature column (without one the
    serializer raises before any request is sent), the endpoint's answer is
    well-formed UTF-8, and [np.fromstring] finds in it one number per row of
    the test partition, that is the ceiling of 0.33 times the number of rows
    of the table. *)
Theorem run_completes_iff {value : Type} (p : platform value) (w : world value) :
  well_shaped p = true ->
  data_dir_usable (fs w) = true ->
  exists parts,
    partitioned p (draws w) parts /\
    (completes p w = true <->
     boston_feature_names p <> [] /\
     exists text,
       decode_utf8 (answer p parts w) = Ok text /\
       length (np_fromstring p text ",") = n_test_of (length (boston_data p))) /\
    (boston_feature_names p = [] ->
     (notebook p w).1 = Raise ValueError /\
     "deploy" ∈ calls_made p w /\ "predict" ∉ calls_made p w).
Proof.
  intros Hshape Hfs.
  destruct (notebook_run p w Hshape Hfs) as (parts & Hparts & _ & Erun).
  exists parts. split; [done|].
  unfold completes, calls_made.
  rewrite Erun, <- (test_targets_count p _ parts Hparts).
  rewrite (test_rows_serializable p _ parts Hshape Hparts).
  destruct (boston_feature_names p) as [|name names]; cbn [length Nat.eqb negb].
  - split.
    + cbn. split; [done|]. by intros [? _].
    + intros _. cbn [fst snd]. split; [done|].
      unfold world_after_deploy, world_after_fit.
      cbn [log set_endpoints logged].
      rewrite <- !(assoc_L (++)), drop_app_length. unfold train_events.
      split; destruct (path_exists (fs w) data_dir); cbn;
        apply (bool_decide_unpack _); by vm_compute.
  - split; [|done].
    destruct (decode_utf8 (answer p parts w)) as [text|e]; cbv zeta.
    + destruct (Nat.eqb_spec (length (concat (values (part_Y_test parts))))
                  (length (np_fromstring p text ","))) as [Hlen|Hlen]; cbn.
      * split; [|done]. intros _. split; [done|]. by exists text.
      * split; [done|]. intros (_ & text' & [= <-] & Hl). by rewrite Hl in Hlen.
    + cbn. split; [done|]. by intros (_ & text' & [=] & _).
Qed.

Lemma run_completes_iff_witness :
  exists parts,
    partitioned (demo 6) (draws empty_world) parts /\
    (completes (demo 6) empty_world = true <->
     boston_feature_names (demo 6) <> [] /\
     exists text,
       decode_utf8 (answer (demo 6) parts empty_world) = Ok text /\
       length (np_fromstring (demo 6) text ",")
       = n_test_of (length (boston_data (demo 6)))) /\
    (boston_feature_names (demo 6) = [] ->
     (notebook (demo 6) empty_world).1 = Raise ValueError /\
     "deploy" ∈ calls_made (demo 6) empty_world /\
     "predict" ∉ calls_made (demo 6) empty_world).
Proof. apply (run_completes_iff (demo 6) empty_world); reflexivity. Defined.

(** X8: when a run over a usable table and data directory does not
    complete, it stopped after [deploy]: at the decoding of the answer with
    [UnicodeDecodeError], or with [ValueError] at [plt.scatter] or, for a
    table without feature column, in the serializer.  The
    endpoint [deploy] made is then still in service, with its one
    ['ml.m4.xlarge'] instance, and [delete_endpoint] was never called. *)
Theorem failed_prediction_leaves_endpoint {value : Type} (p : platform value)
    (w : world value) :
  well_shaped p = true ->
  data_dir_usable (fs w) = true ->
  completes p w = false ->
  ((notebook p w).1 = Raise UnicodeDecodeError \/
   (notebook p w).1 = Raise ValueError) /\
  endpoints (notebook p w).2 !! new_job_name p (xgboost_image p)
  = Some (mkEndpoint (new_job_name p (xgboost_image p)) 1 "ml.m4.xlarge") /\
  "deploy" ∈ calls_made p w /\
  "delete_endpoint" ∉ calls_made p w.
Proof.
  intros Hshape Hfs Hc.
  destruct (notebook_run p w Hshape Hfs) as (parts & Hparts & _ & Erun).
  unfold completes in Hc. unfold calls_made. rewrite Erun in *.
  destruct (serializable (values (part_X_test parts))).
  2: { cbn [fst snd]. split; [by right|]. split.
       { unfold world_after_deploy. cbn [endpoints set_endpoints logged].
         apply lookup_insert_eq. }
       unfold world_after_deploy, world_after_fit.
       cbn [log set_endpoints logged].
       rewrite <- !(assoc_L (++)), drop_app_length. unfold train_events.
       split; destruct (path_exists (fs w) data_dir); cbn;
         apply (bool_decide_unpack _); by vm_compute. }
  destruct (decode_utf8 (answer p parts w)) as [text|e] eqn:Hdec; cbv zeta in *.
  - destruct (Nat.eqb _ _); [discriminate Hc|]. cbn [fst snd].
    split; [by right|]. split.
    { unfold world_after_predict, world_after_deploy.
      cbn [endpoints set_endpoints logged]. apply lookup_insert_eq. }
    unfold world_after_predict, world_after_deploy, world_after_fit.
    cbn [log set_endpoints logged].
    rewrite <- !(assoc_L (++)), drop_app_length. unfold train_events.
    split.
    + destruct (path_exists (fs w) data_dir); cbn; apply (bool_decide_unpack _); by vm_compute.
    + destruct (path_exists (fs w) data_dir); cbn; apply (bool_decide_unpack _); by vm_compute.
  - cbn [fst snd]. split.
    { left. unfold decode_utf8 in Hdec. destruct (utf8_valid _); [done|].
      by injection Hdec as <-. }
    split.
    { unfold world_after_deploy. cbn [endpoints set_endpoints logged].
      apply lookup_insert_eq. }
    unfold world_after_deploy, world_after_fit.
    cbn [log set_endpoints logged].
    rewrite <- !(assoc_L (++)), drop_app_length. unfold train_events.
    split.
    + destruct (path_exists (fs w) data_dir); cbn; apply (bool_decide_unpack _); by vm_compute.
    + destruct (path_exists (fs w) data_dir); cbn; apply (bool_decide_unpack _); by vm_compute.
Qed.

Lemma failed_prediction_leaves_endpoint_witness :
  let p := demo_replying [Byte.xff] 6 in
  ((notebook p empty_world).1 = Raise UnicodeDecodeError \/
   (notebook p empty_world).1 = Raise ValueError) /\
  endpoints (notebook p empty_world).2 !! new_job_name p (xgboost_image p)
  = Some (mkEndpoint (new_job_name p (xgboost_image p)) 1 "ml.m4.xlarge") /\
  "deploy" ∈ calls_made p empty_world /\
  "delete_endpoint" ∉ calls_made p empty_world.
Proof.
  apply (failed_prediction_leaves_endpoint (demo_replying [Byte.xff] 6) empty_world);
    vm_compute; reflexivity.
Defined.

(** ** Making the data directory *)

(** X3: when ['../data/boston'] does not exist, the guard cell calls
    [os.makedirs], which also makes the missing parent ['../data']; with
    the parent in place only ['../data/boston'] is made; and when the parent
    is a plain file the cell raises [NotADirectoryError] and leaves the file
    system as it was. *)
Theorem makedirs_makes_parents {value : Type} (w : world value) :
  path_exists (fs w) data_dir = false ->
  let r := cell_data_dir w in
  match node_at (fs w) [".."; "data"] with
  | None =>
      r.1 = Ok () /\
      fs r.2 = <[[".."; "data"; "boston"] := Dir]> (<[[".."; "data"] := Dir]> (fs w))
  | Some Dir =>
      r.1 = Ok () /\ fs r.2 = <[[".."; "data"; "boston"] := Dir]> (fs w)
  | Some (File _) =>
      r.1 = Raise NotADirectoryError /\ fs r.2 = fs w
  end.
Proof.
  intros Hex. cbv zeta.
  rewrite (cell_data_dir_absent w Hex), (makedirs_data_dir _ Hex).
  change (path_head data_dir) with [".."; "data"].
  by destruct (node_at (fs w) [".."; "data"]) as [[|text]|].
Qed.

Lemma makedirs_makes_parents_witness :
  let r := cell_data_dir empty_world in
  match node_at (fs empty_world) [".."; "data"] with
  | None =>
      r.1 = Ok () /\
      fs r.2 = <[[".."; "data"; "boston"] := Dir]>
                 (<[[".."; "data"] := Dir]> (fs empty_world))
  | Some Dir =>
      r.1 = Ok () /\ fs r.2 = <[[".."; "data"; "boston"] := Dir]> (fs empty_world)
  | Some (File _) =>
      r.1 = Raise NotADirectoryError /\ fs r.2 = fs empty_world
  end.
Proof. apply (makedirs_makes_parents empty_world). reflexivity. Defined.

(** ** A data directory that cannot be used *)

Section Blocked.
Context {value : Type} (p : platform value).
Implicit Types w : world value.

Lemma cell_save_general (parts : partitions) w :
  cell_save p parts w =
    match write_file (fs w) val_path
            (saved_text p (part_Y_val parts) (part_X_val parts)) with
    | Raise e => (Raise e, logged [EvConcat; EvToCsv val_path false false] w)
    | Ok f1 =>
        match write_file f1 train_path
                (saved_text p (part_Y_train parts) (part_X_train parts)) with
        | Raise e =>
            (Raise e,
             set_fs f1 (logged [EvConcat; EvToCsv val_path false false;
                                EvConcat; EvToCsv train_path false false] w))
        | Ok f2 =>
            (Ok (),
             set_fs f2 (logged [EvConcat; EvToCsv val_path false false;
                                EvConcat; EvToCsv train_path false false] w))
        end
    end.
Proof.
  cbv beta iota zeta delta
    [cell_save pd_concat to_csv mbind M_bind mret M_ret emit].
  cbn [fs s3 jobs endpoints draws log set_fs].
  fold val_path train_path.
  fold (saved_text p (part_Y_val parts) (part_X_val parts)).
  fold (saved_text p (part_Y_train parts) (part_X_train parts)).
  destruct (write_file (fs w) val_path _) as [f1|e].
  - cbn [fs s3 jobs endpoints draws log set_fs].
    destruct (write_file f1 train_path _) as [f2|e];
      unfold set_fs, logged; cbn [fs s3 jobs endpoints draws log];
      by rewrite <- !(assoc_L (++)).
  - unfold logged. cbn [fs s3 jobs endpoints draws log].
    by rewrite <- !(assoc_L (++)).
Qed.

(** The save cell in a directory where one of the two names is taken by a
    directory. *)
Lemma cell_save_blocked (parts : partitions) w :
  node_at (fs w) data_dir = Some Dir ->
  not_a_dir (fs w) val_path && not_a_dir (fs w) train_path = false ->
  exists f evs,
    cell_save p parts w = (Raise IsADirectoryError, set_fs f (logged evs w)) /\
    call_name <$> evs `prefix_of` ["pd.concat"; "to_csv"; "pd.concat"; "to_csv"].
Proof.
  intros Hdir Hbad. rewrite cell_save_general.
  assert (Hv : node_at (fs w) (path_head val_path) = Some Dir) by exact Hdir.
  destruct (not_a_dir (fs w) val_path) eqn:Hval.
  - rewrite (write_file_ok _ val_path _ Hv Hval).
    cbn [andb] in Hbad.
    unfold write_file. change (path_head train_path) with data_dir.
    assert (Hd' : forall text, node_at (<[val_path := File text]> (fs w)) data_dir = Some Dir).
    { intros text. unfold node_at in *. cbn in *. by rewrite lookup_insert_ne. }
    rewrite Hd'.
    assert (Ht : forall text, node_at (<[val_path := File text]> (fs w)) train_path = Some Dir).
    { intros text. unfold not_a_dir, node_at in *. cbn in *.
      rewrite lookup_insert_ne by done.
      by destruct (fs w !! [".."; "data"; "boston"; "train.csv"]) as [[|?]|]. }
    rewrite Ht. eexists _, _. split; [reflexivity|]. done.
  - unfold write_file. rewrite Hv.
    unfold not_a_dir in Hval.
    destruct (node_at (fs w) val_path) as [[|?]|]; try discriminate Hval.
    exists (fs w), [EvConcat; EvToCsv val_path false false].
    split; [by destruct w|]. by exists ["pd.concat"; "to_csv"].
Qed.

(** The save cell when the data directory is a plain file. *)
Lemma cell_save_in_file (parts : partitions) (text : string) w :
  node_at (fs w) data_dir = Some (File text) ->
  cell_save p parts w
  = (Raise OSError, logged [EvConcat; EvToCsv val_path false false] w).
Proof.
  intros Hdir. rewrite cell_save_general. unfold write_file.
  change (path_head val_path) with data_dir. by rewrite Hdir.
Qed.

(** The guard cell when the directory is there or can be made. *)
Lemma cell_data_dir_made w :
  match node_at (fs w) data_dir with
  | Some Dir => true
  | Some (File _) => false
  | None =>
      match node_at (fs w) (path_head data_dir) with
      | Some (File _) => false
      | _ => true
      end
  end = true ->
  exists evs,
    cell_data_dir w = (Ok (), set_fs (fs_after_guard (fs w)) (logged evs w)) /\
    call_name <$> evs `prefix_of` ["os.path.exists"; "os.makedirs"] /\
    node_at (fs_after_guard (fs w)) data_dir = Some Dir /\
    not_a_dir (fs_after_guard (fs w)) val_path = not_a_dir (fs w) val_path /\
    not_a_dir (fs_after_guard (fs w)) train_path = not_a_dir (fs w) train_path.
Proof.
  intros Hd. unfold fs_after_guard.
  destruct (path_exists (fs w) data_dir) eqn:Hex.
  - rewrite (cell_data_dir_present w Hex).
    exists [EvPathExists data_dir]. split; [by destruct w|].
    split; [by exists ["os.makedirs"]|].
    unfold path_exists in Hex.
    by destruct (node_at (fs w) data_dir) as [[|?]|].
  - rewrite (cell_data_dir_absent w Hex), (makedirs_data_dir _ Hex).
    unfold path_exists in Hex.
    destruct (node_at (fs w) data_dir) as [?|] eqn:Hnode; [done|].
    exists [EvPathExists data_dir; EvMakedirs data_dir].
    destruct (node_at (fs w) (path_head data_dir)) as [[|text]|] eqn:Hh; [| done |].
    + split; [reflexivity|]. split; [done|]. repeat split.
      * unfold node_at. cbn. by rewrite lookup_insert_eq.
      * unfold not_a_dir, node_at. cbn. by rewrite lookup_insert_ne.
      * unfold not_a_dir, node_at. cbn. by rewrite lookup_insert_ne.
    + split; [reflexivity|]. split; [done|]. repeat split.
      * unfold node_at. cbn. by rewrite lookup_insert_eq.
      * unfold not_a_dir, node_at. cbn. by rewrite !lookup_insert_ne.
      * unfold not_a_dir, node_at. cbn. by rewrite !lookup_insert_ne.
Qed.

(** The run up to the cell that raises, when the data directory cannot be
    used. *)
Lemma prefix_Forall {A} (P : A -> Prop) (l1 l2 : list A) :
  l1 `prefix_of` l2 -> Forall P l2 -> Forall P l1.
Proof. intros [k ->] H. by apply Forall_app in H as [? _]. Qed.

Lemma notebook_blocked w :
  well_shaped p = true ->
  data_dir_usable (fs w) = false ->
  exists e w' evs,
    notebook p w = (Raise e, w') /\
    s3 w' = s3 w /\ jobs w' = jobs w /\ endpoints w' = endpoints w /\
    log w' = log w ++ evs /\
    is_os_error e = true /\
    Forall (fun name => name ∉ ["upload_data"; "fit"; "deploy"]) (call_name <$> evs).
Proof.
  intros Hshape Hbad.
  set (w1 := logged [EvSession; EvGetExecutionRole] w).
  destruct (cell_split_ok p w1 Hshape) as (parts & Esplit & _).
  set (split_evs := [EvLoadBoston; EvDataFrame; EvDataFrame;
                     EvTrainTestSplit (length (boston_data p));
                     EvTrainTestSplit (n_train_of (length (boston_data p)))])
    in Esplit.
  set (w2 := mkWorld (fs w1) (s3 w1) (jobs w1) (endpoints w1) (S (S (draws w1))) _)
    in Esplit.
  unfold notebook. rewrite run_bind. unfold notebook_train.
  rewrite run_bind, cell_setup_run. fold w1. rewrite run_bind, Esplit.
  rewrite run_bind.
  unfold data_dir_usable in Hbad.
  change (fs w) with (fs w2) in Hbad.
  destruct (match node_at (fs w2) data_dir with
            | Some Dir => true
            | Some (File _) => false
            | None => match node_at (fs w2) (path_head data_dir) with
                      | Some (File _) => false
                      | _ => true
                      end
            end) eqn:HA.
  - destruct (cell_data_dir_made w2 HA) as (evs & Edir & Hevs & Hd & Hv & Ht).
    rewrite Edir, run_bind.
    set (w3 := set_fs (fs_after_guard (fs w2)) (logged evs w2)).
    destruct (cell_save_blocked parts w3) as (f & evs' & Esave & Hevs').
    { exact Hd. }
    { cbn [w3 set_fs fs]. rewrite Hv, Ht. by rewrite andb_true_l in Hbad. }
    rewrite Esave.
    eexists IsADirectoryError, _,
      ([EvSession; EvGetExecutionRole] ++ split_evs ++ evs ++ evs').
    split; [reflexivity|]. do 3 (split; [reflexivity|]).
    split; [|split; [done|]].
    + cbn [fs s3 jobs endpoints draws log set_fs logged w1 w2 w3].
      by rewrite <- !(assoc_L (++)).
    + rewrite !fmap_app. apply Forall_app. split.
      { repeat constructor; apply (bool_decide_unpack _); by vm_compute. }
      apply Forall_app. split.
      { repeat constructor; apply (bool_decide_unpack _); by vm_compute. }
      apply Forall_app. split.
      * eapply prefix_Forall; [exact Hevs|].
        repeat constructor; apply (bool_decide_unpack _); by vm_compute.
      * eapply prefix_Forall; [exact Hevs'|].
        repeat constructor; apply (bool_decide_unpack _); by vm_compute.
  - clear Hbad.
    destruct (node_at (fs w2) data_dir) as [[|text]|] eqn:Hnode; [done| |].
    + assert (Hex : path_exists (fs w2) data_dir = true).
      { unfold path_exists. by rewrite Hnode. }
      rewrite (cell_data_dir_present w2 Hex), run_bind.
      rewrite (cell_save_in_file parts text) by exact Hnode.
      eexists OSError, _,
        ([EvSession; EvGetExecutionRole] ++ split_evs
         ++ [EvPathExists data_dir; EvConcat; EvToCsv val_path false false]).
      split; [reflexivity|]. do 3 (split; [reflexivity|]).
      split; [|split; [done|]].
      * cbn [fs s3 jobs endpoints draws log set_fs logged w1 w2].
        by rewrite <- !(assoc_L (++)).
      * repeat constructor; apply (bool_decide_unpack _); by vm_compute.
    + assert (Hex : path_exists (fs w2) data_dir = false).
      { unfold path_exists. by rewrite Hnode. }
      rewrite (cell_data_dir_absent w2 Hex), (makedirs_data_dir _ Hex).
      destruct (node_at (fs w2) (path_head data_dir)) as [[|text]|]; [done| |done].
      eexists NotADirectoryError, _,
        ([EvSession; EvGetExecutionRole] ++ split_evs
         ++ [EvPathExists data_dir; EvMakedirs data_dir]).
      split; [reflexivity|]. do 3 (split; [reflexivity|]).
      split; [|split; [done|]].
      * cbn [fs s3 jobs endpoints draws log set_fs logged w1 w2].
        by rewrite <- !(assoc_L (++)).
      * repeat constructor; apply (bool_decide_unpack _); by vm_compute.
Qed.
End Blocked.

(** X4: when the data directory cannot be used (['../data/boston'] or
    ['../data'] is a plain file, or one of the two CSV names is taken by a
    directory) the run raises an [OSError] in the guard cell or the save
    cell.  Nothing was uploaded by then, no training job started and no
    endpoint made. *)
Theorem blocked_data_dir_stops_run {value : Type} (p : platform value)
    (w : world value) :
  well_shaped p = true ->
  data_dir_usable (fs w) = false ->
  exists e,
    (notebook p w).1 = Raise e /\
    is_os_error e = true /\
    s3 (notebook p w).2 = s3 w /\
    jobs (notebook p w).2 = jobs w /\
    endpoints (notebook p w).2 = endpoints w /\
    Forall (fun name => name ∉ ["upload_data"; "fit"; "deploy"]) (calls_made p w).
Proof.
  intros Hshape Hbad.
  destruct (notebook_blocked p w Hshape Hbad)
    as (e & w' & evs & E & Hs3 & Hjobs & Hep & Hlog & He & Hevs).
  exists e. unfold calls_made. rewrite E. cbn [fst snd].
  by rewrite Hlog, drop_app_length.
Qed.

Lemma blocked_data_dir_stops_run_witness :
  exists e,
    (notebook (demo 6) world_with_file).1 = Raise e /\
    is_os_error e = true /\
    s3 (notebook (demo 6) world_with_file).2 = s3 world_with_file /\
    jobs (notebook (demo 6) world_with_file).2 = jobs world_with_file /\
    endpoints (notebook (demo 6) world_with_file).2 = endpoints world_with_file /\
    Forall (fun name => name ∉ ["upload_data"; "fit"; "deploy"])
           (calls_made (demo 6) world_with_file).
Proof.
  apply (blocked_data_dir_stops_run (demo 6) world_with_file); reflexivity.
Defined.

(** ** The training job *)

(** X5: the training job of a run carries the role [get_execution_role]
    returned, one instance of type ['ml.m4.xlarge'], the output path
    ['s3://<default bucket>/boston-xgboost-deploy-hl/output'] and exactly the
    eight hyperparameters of [set_hyperparameters]; it is the only job the
    run adds or changes. *)
Theorem training_job_settings {value : Type} (p : platform value) (w : world value) :
  well_shaped p = true ->
  data_dir_usable (fs w) = true ->
  exists parts val_loc train_loc image est w' name job,
    notebook_train p w = (Ok (parts, val_loc, train_loc, image, est), w') /\
    latest_training_job est = Some name /\
    jobs w' !! name = Some job /\
    (forall other, other <> name -> jobs w' !! other = jobs w !! other) /\
    job_role job = execution_role p /\
    job_instance_count job = 1 /\
    job_instance_type job = "ml.m4.xlarge" /\
    job_output_path job
    = ("s3://" ++ default_bucket p ++ "/boston-xgboost-deploy-hl/output")%string /\
    job_hyperparameters job
    = list_to_map [("max_depth", "5"); ("eta", "0.2"); ("gamma", "4");
                   ("min_child_weight", "6"); ("subsample", "0.8");
                   ("objective", "reg:squarederror");
                   ("early_stopping_rounds", "10"); ("num_round", "200")] /\
    size (job_hyperparameters job) = 8.
Proof.
  intros Hshape Hfs.
  destruct (notebook_train_ok p w Hshape Hfs) as (parts & Hparts & Etrain).
  exists parts, (val_uri p), (train_uri p), (xgboost_image p), (fitted_estimator p),
    (world_after_fit p parts w), (endpoint_name p), (xgb_job p parts (s3 w)).
  split; [exact Etrain|]. split; [reflexivity|].
  split.
  { unfold world_after_fit. cbn [jobs]. apply lookup_insert_eq. }
  split.
  { intros other Hother. unfold world_after_fit. cbn [jobs].
    by apply lookup_insert_ne. }
  split; [reflexivity|]. split; [reflexivity|]. split; [reflexivity|].
  split; [reflexivity|].
  split; reflexivity.
Qed.

Lemma training_job_settings_witness :
  exists parts val_loc train_loc image est w' name job,
    notebook_train (demo 6) empty_world
    = (Ok (parts, val_loc, train_loc, image, est), w') /\
    latest_training_job est = Some name /\
    jobs w' !! name = Some job /\
    (forall other, other <> name -> jobs w' !! other = jobs empty_world !! other) /\
    job_role job = execution_role (demo 6) /\
    job_instance_count job = 1 /\
    job_instance_type job = "ml.m4.xlarge" /\
    job_output_path job
    = ("s3://" ++ default_bucket (demo 6)
       ++ "/boston-xgboost-deploy-hl/output")%string /\
    job_hyperparameters job
    = list_to_map [("max_depth", "5"); ("eta", "0.2"); ("gamma", "4");
                   ("min_child_weight", "6"); ("subsample", "0.8");
                   ("objective", "reg:squarederror");
                   ("early_stopping_rounds", "10"); ("num_round", "200")] /\
    size (job_hyperparameters job) = 8.
Proof. apply (training_job_settings (demo 6) empty_world); reflexivity. Defined.

(** ** What the channels read *)


(** X6: when the training job starts, its channel ['train'] reads the
    uploaded [train.csv] together with whatever objects the bucket already
    held under a URI that starts with the location of [train.csv], and never
    [validation.csv]; likewise for ['validation'].  In a bucket that holds
    no other object under these two locations each channel reads exactly its
    one file. *)
Theorem channels_read_their_file {value : Type} (p : platform value)
    (w : world value) :
  well_shaped p = true ->
  data_dir_usable (fs w) = true ->
  exists parts val_loc train_loc image est w' name job val_text train_text,
    notebook_train p w = (Ok (parts, val_loc, train_loc, image, est), w') /\
    latest_training_job est = Some name /\
    jobs w' !! name = Some job /\
    fs w' !! [".."; "data"; "boston"; "validation.csv"] = Some (File val_text) /\
    fs w' !! [".."; "data"; "boston"; "train.csv"] = Some (File train_text) /\
    job_data job !! "train"
    = Some (<[train_loc := train_text]> (objects_under (s3 w) train_loc)) /\
    job_data job !! "validation"
    = Some (<[val_loc := val_text]> (objects_under (s3 w) val_loc)) /\
    ((forall k, is_Some (s3 w !! k) -> String.prefix train_loc k = true ->
                k = train_loc) ->
     job_data job !! "train" = Some {[train_loc := train_text]}) /\
    ((forall k, is_Some (s3 w !! k) -> String.prefix val_loc k = true ->
                k = val_loc) ->
     job_data job !! "validation" = Some {[val_loc := val_text]}).
Proof.
  intros Hshape Hfs.
  destruct (notebook_train_ok p w Hshape Hfs) as (parts & Hparts & Etrain).
  exists parts, (val_uri p), (train_uri p), (xgboost_image p), (fitted_estimator p),
    (world_after_fit p parts w), (endpoint_name p), (xgb_job p parts (s3 w)),
    (saved_text p (part_Y_val parts) (part_X_val parts)),
    (saved_text p (part_Y_train parts) (part_X_train parts)).
  split; [exact Etrain|]. split; [reflexivity|].
  split.
  { unfold world_after_fit. cbn [jobs]. apply lookup_insert_eq. }
  split.
  { unfold world_after_fit, fs_after_save. cbn [fs].
    rewrite lookup_insert_ne by done. apply lookup_insert_eq. }
  split.
  { unfold world_after_fit, fs_after_save. cbn [fs]. apply lookup_insert_eq. }
  assert (Ht : job_data (xgb_job p parts (s3 w)) !! "train"
               = Some (<[train_uri p := saved_text p (part_Y_train parts) (part_X_train parts)]>
                         (objects_under (s3 w) (train_uri p)))).
  { unfold xgb_job, fit_channels, store_after_upload. cbn [job_data].
    rewrite lookup_fmap, lookup_insert_eq. cbn [fmap option_fmap option_map s3_data].
    by rewrite objects_under_train. }
  assert (Hv : job_data (xgb_job p parts (s3 w)) !! "validation"
               = Some (<[val_uri p := saved_text p (part_Y_val parts) (part_X_val parts)]>
                         (objects_under (s3 w) (val_uri p)))).
  { unfold xgb_job, fit_channels, store_after_upload. cbn [job_data].
    rewrite lookup_fmap, lookup_insert_ne by done. rewrite lookup_insert_eq.
    cbn [fmap option_fmap option_map s3_data].
    by rewrite objects_under_val. }
  split; [exact Ht|]. split; [exact Hv|].
  split.
  - intros Hclean. rewrite Ht. f_equal. by apply only_object.
  - intros Hclean. rewrite Hv. f_equal. by apply only_object.
Qed.

Lemma channels_read_their_file_witness :
  exists parts val_loc train_loc image est w' name job val_text train_text,
    notebook_train (demo 6) empty_world
    = (Ok (parts, val_loc, train_loc, image, est), w') /\
    latest_training_job est = Some name /\
    jobs w' !! name = Some job /\
    fs w' !! [".."; "data"; "boston"; "validation.csv"] = Some (File val_text) /\
    fs w' !! [".."; "data"; "boston"; "train.csv"] = Some (File train_text) /\
    job_data job !! "train"
    = Some (<[train_loc := train_text]> (objects_under (s3 empty_world) train_loc)) /\
    job_data job !! "validation"
    = Some (<[val_loc := val_text]> (objects_under (s3 empty_world) val_loc)) /\
    ((forall k, is_Some (s3 empty_world !! k) -> String.prefix train_loc k = true ->
                k = train_loc) ->
     job_data job !! "train" = Some {[train_loc := train_text]}) /\
    ((forall k, is_Some (s3 empty_world !! k) -> String.prefix val_loc k = true ->
                k = val_loc) ->
     job_data job !! "validation" = Some {[val_loc := val_text]}).
Proof. apply (channels_read_their_file (demo 6) empty_world); reflexivity. Defined.

(** ** The files and objects after a run *)

Section Rerun.
Context {value : Type} (p : platform value).
Implicit Types w : world value.


Lemma usable_after_save (parts : partitions) (f : gmap path node) :
  data_dir_usable f = true ->
  data_dir_usable (fs_after_save p parts f) = true /\
  path_isdir (fs_after_save p parts f) data_dir = true /\
  fs_after_guard (fs_after_save p parts f) = fs_after_save p parts f.
Proof.
  intros Hfs.
  destruct (cell_data_dir_ok (mkWorld f ∅ ∅ ∅ 0 ([] : list (event value))) Hfs)
    as (_ & Hdir & _ & _).
  cbn [fs] in Hdir.
  assert (Hd : node_at (fs_after_save p parts f) data_dir = Some Dir).
  { unfold fs_after_save, node_at in *. cbn in *. by rewrite !lookup_insert_ne. }
  split; [|split].
  - unfold data_dir_usable. rewrite Hd. cbn [andb].
    unfold not_a_dir, node_at, fs_after_save. cbn.
    rewrite lookup_insert_eq.
    rewrite lookup_insert_ne by done. by rewrite lookup_insert_eq.
  - unfold path_isdir. by rewrite Hd.
  - unfold fs_after_guard at 1. unfold path_exists. by rewrite Hd.
Qed.
End Rerun.

(** ** What a run leaves behind *)

(** X9: a completed run removes the endpoint it made and nothing else.
    When it has ended, ['../data/boston'] is a directory that holds
    [validation.csv] and [train.csv], the store holds under [val_location]
    and [train_location] the very text of these files, the training job
    [xgb] points at is on record, and the endpoint [xgb_predictor] points
    at is gone. *)
Theorem run_leaves_data_behind {value : Type} (p : platform value) (w : world value) :
  well_shaped p = true ->
  data_dir_usable (fs w) = true ->
  completes p w = true ->
  exists ns w' val_text train_text name,
    notebook p w = (Ok ns, w') /\
    path_isdir (fs w') [".."; "data"; "boston"] = true /\
    fs w' !! [".."; "data"; "boston"; "validation.csv"] = Some (File val_text) /\
    fs w' !! [".."; "data"; "boston"; "train.csv"] = Some (File train_text) /\
    s3 w' !! val_location ns = Some val_text /\
    s3 w' !! train_location ns = Some train_text /\
    latest_training_job (xgb ns) = Some name /\
    is_Some (jobs w' !! name) /\
    predictor_endpoint (xgb_predictor ns) = name /\
    endpoints w' !! name = None.
Proof.
  intros Hshape Hfs Hc.
  destruct (completed_run p w Hshape Hfs Hc)
    as (parts & text & Hparts & _ & _ & _ & Erun & _).
  destruct (usable_after_save p parts (fs w) Hfs) as (_ & Hdir & _).
  eexists _, _, (saved_text p (part_Y_val parts) (part_X_val parts)),
    (saved_text p (part_Y_train parts) (part_X_train parts)), (endpoint_name p).
  split; [exact Erun|].
  unfold world_after_delete, world_after_plot, world_after_predict,
    world_after_deploy, world_after_fit, store_after_fit, store_after_upload.
  cbn [fs s3 jobs endpoints set_endpoints logged final_namespace val_location
       train_location xgb xgb_predictor].
  split; [exact Hdir|]. unfold fs_after_save.
  split.
  { rewrite lookup_insert_ne by done. apply lookup_insert_eq. }
  split; [apply lookup_insert_eq|].
  split.
  { rewrite lookup_insert_ne by apply model_uri_csv_uris.
    rewrite lookup_insert_ne by (intros E; by apply (val_uri_train_uri p)).
    apply lookup_insert_eq. }
  split.
  { rewrite lookup_insert_ne by apply model_uri_csv_uris.
    apply lookup_insert_eq. }
  split; [reflexivity|].
  split; [rewrite lookup_insert_eq; by eexists|].
  split; [reflexivity|].
  apply lookup_delete_eq.
Qed.

Lemma run_leaves_data_behind_witness :
  exists ns w' val_text train_text name,
    notebook (demo 6) empty_world = (Ok ns, w') /\
    path_isdir (fs w') [".."; "data"; "boston"] = true /\
    fs w' !! [".."; "data"; "boston"; "validation.csv"] = Some (File val_text) /\
    fs w' !! [".."; "data"; "boston"; "train.csv"] = Some (File train_text) /\
    s3 w' !! val_location ns = Some val_text /\
    s3 w' !! train_location ns = Some train_text /\
    latest_training_job (xgb ns) = Some name /\
    is_Some (jobs w' !! name) /\
    predictor_endpoint (xgb_predictor ns) = name /\
    endpoints w' !! name = None.
Proof.
  apply (run_leaves_data_behind (demo 6) empty_world); vm_compute; reflexivity.
Defined.

(** ** Running the notebook again *)




(** ** Staying within the footprint *)

Section Footprint.
Context {value : Type} (p : platform value).
Implicit Types w : world value.

Lemma footprint_same w w' :
  fs w' = fs w -> s3 w' = s3 w -> jobs w' = jobs w -> endpoints w' = endpoints w ->
  footprint p w w'.
Proof. intros E1 E2 E3 E4. split; intros k; rewrite ?E1, ?E2, ?E3, ?E4; done. Qed.

Lemma footprint_trans w1 w2 w3 :
  footprint p w1 w2 -> footprint p w2 w3 -> footprint p w1 w3.
Proof.
  intros H1 H2. split; intros k Hk.
  - by rewrite (fs_outside _ _ _ H2), (fs_outside _ _ _ H1).
  - by apply (fs_stays _ _ _ H2), (fs_stays _ _ _ H1).
  - by rewrite (s3_outside _ _ _ H2), (s3_outside _ _ _ H1).
  - by apply (s3_stays _ _ _ H2), (s3_stays _ _ _ H1).
  - by rewrite (jobs_outside _ _ _ H2), (jobs_outside _ _ _ H1).
  - by apply (jobs_stay _ _ _ H2), (jobs_stay _ _ _ H1).
  - by rewrite (endpoints_outside _ _ _ H2), (endpoints_outside _ _ _ H1).
Qed.

Lemma within_bind {A B} (m : @M value A) (f : A -> @M value B)
    (Q : A -> Prop) (Q' : B -> Prop) :
  within p m Q -> (forall a, Q a -> within p (f a) Q') -> within p (m ≫= f) Q'.
Proof.
  intros Hm Hf w. rewrite run_bind. destruct (Hm w) as [Hw Ha].
  destruct (m w) as [[a|e] w1]; cbn [fst snd] in *.
  - destruct (Hf a (Ha a eq_refl) w1) as [Hw1 Hb].
    split; [by eapply footprint_trans|done].
  - split; [done|]. intros b Hb. discriminate Hb.
Qed.

Lemma within_weaken {A} (m : @M value A) (Q Q' : A -> Prop) :
  within p m Q -> (forall a, Q a -> Q' a) -> within p m Q'.
Proof. intros Hm HQ w. destruct (Hm w) as [? Ha]. split; [done|]. eauto. Qed.

(** A computation that changes neither files, objects, jobs nor endpoints. *)
Lemma within_quiet {A} (m : @M value A) (Q : A -> Prop) :
  (forall w, fs (m w).2 = fs w /\ s3 (m w).2 = s3 w /\ jobs (m w).2 = jobs w /\
             endpoints (m w).2 = endpoints w) ->
  (forall w a, (m w).1 = Ok a -> Q a) ->
  within p m Q.
Proof.
  intros Hq HQ w. destruct (Hq w) as (? & ? & ? & ?).
  split; [by apply footprint_same|]. apply HQ.
Qed.

Lemma within_ret {A} (a : A) (Q : A -> Prop) : Q a -> within p (mret a) Q.
Proof. intros Ha. apply within_quiet; [done|]. by intros w ? [= <-]. Qed.

Lemma within_raise {A} (e : exn) (Q : A -> Prop) : within p (raise e) Q.
Proof. by apply within_quiet. Qed.

Lemma within_lift {A} (r : result A) : within p (lift r) (fun _ => True).
Proof. by apply within_quiet. Qed.

Lemma within_emit (e : event value) : within p (emit e) (fun _ => True).
Proof. by apply within_quiet. Qed.

Lemma within_emit_then {A} (e : event value) (m : @M value A) (Q : A -> Prop) :
  within p m Q -> within p (emit e;; m) Q.
Proof. intros Hm. eapply within_bind; [apply within_emit|]. by intros _ _. Qed.

Lemma within_train_test_split X Y :
  within p (train_test_split p X Y) (fun _ => True).
Proof.
  unfold train_test_split. apply within_emit_then.
  destruct (negb _); [apply within_raise|].
  destruct (Nat.eqb _ _); [apply within_raise|].
  eapply within_bind; [by apply (within_quiet _ (fun _ => True))|]. intros perm _.
  repeat (eapply within_bind; [apply within_lift|]; intros ? _).
  by apply within_ret.
Qed.

Lemma within_cell_setup :
  within p (cell_setup p)
    (fun env => env = (mkSession (boto_region_name p) (default_bucket p),
                       execution_role p)).
Proof.
  apply within_quiet; [done|]. intros w a. rewrite cell_setup_run. by intros [= <-].
Qed.

Lemma within_cell_split : within p (cell_split p) (fun _ => True).
Proof.
  unfold cell_split, load_boston, pd_DataFrame, pd_DataFrame_vector.
  eapply within_bind; [apply within_emit_then, (within_ret _ (fun _ => True)); done|].
  intros boston _.
  eapply within_bind; [apply within_emit_then, within_lift|]. intros X _.
  eapply within_bind; [apply within_emit_then, (within_ret _ (fun _ => True)); done|].
  intros Y _.
  eapply within_bind; [apply within_train_test_split|].
  intros [[[? ?] ?] ?] _.
  eapply within_bind; [apply within_train_test_split|].
  intros [[[? ?] ?] ?] _. by apply within_ret.
Qed.

Lemma within_cell_data_dir : within p cell_data_dir (fun _ => True).
Proof.
  intros w. split; [|done].
  destruct (path_exists (fs w) data_dir) eqn:Hex.
  - rewrite (cell_data_dir_present w Hex). by apply footprint_same.
  - rewrite (cell_data_dir_absent w Hex), (makedirs_data_dir _ Hex).
    assert (Hd : fs w !! data_dir = None).
    { unfold path_exists, node_at in Hex. cbn in Hex.
      by destruct (fs w !! data_dir). }
    destruct (node_at (fs w) (path_head data_dir)) as [[|text]|] eqn:Hh;
      cbn [fst snd]; [| by apply footprint_same |].
    + split; cbn [set_fs logged fs s3 jobs endpoints]; try done.
      * intros q Hq. apply lookup_insert_ne. intros <-. apply Hq.
        apply elem_of_cons. right. apply elem_of_cons. by left.
      * intros q Hq. destruct (decide (data_dir = q)) as [<-|Hne].
        -- rewrite lookup_insert_eq. by eexists.
        -- by rewrite lookup_insert_ne.
    + split; cbn [set_fs logged fs s3 jobs endpoints]; try done.
      * intros q Hq. rewrite !lookup_insert_ne; [done| |].
        -- intros <-. apply Hq. apply elem_of_cons. by left.
        -- intros <-. apply Hq. apply elem_of_cons. right. apply elem_of_cons. by left.
      * intros q Hq. destruct (decide (data_dir = q)) as [<-|Hne].
        { rewrite lookup_insert_eq. by eexists. }
        rewrite lookup_insert_ne by done.
        destruct (decide (path_head data_dir = q)) as [<-|Hne'].
        { rewrite lookup_insert_eq. by eexists. }
        by rewrite lookup_insert_ne.
Qed.

Lemma within_to_csv d (file : path) header index_col :
  file ∈ [val_path; train_path] ->
  within p (to_csv p d file header index_col) (fun _ => True).
Proof.
  intros Hfile. unfold to_csv. apply within_emit_then.
  intros w. split; [|done].
  destruct (write_file (fs w) file _) as [f|e] eqn:Hw; cbn [snd];
    [|by apply footprint_same].
  assert (f = <[file := File (to_csv_text (pandas_repr p) d header index_col)]> (fs w)) as ->.
  { unfold write_file in Hw. repeat case_match; congruence. }
  split; cbn [set_fs fs s3 jobs endpoints]; try done.
  - intros q Hq. apply lookup_insert_ne. intros <-. apply Hq.
    apply elem_of_cons. right. apply elem_of_cons. by right.
  - intros q Hq. destruct (decide (file = q)) as [<-|Hne].
    + rewrite lookup_insert_eq. by eexists.
    + by rewrite lookup_insert_ne.
Qed.

Lemma within_cell_save parts : within p (cell_save p parts) (fun _ => True).
Proof.
  unfold cell_save, pd_concat.
  eapply within_bind; [apply within_emit_then, (within_ret _ (fun _ => True)); done|].
  intros ? _.
  eapply within_bind; [apply within_to_csv; repeat constructor|]. intros _ _.
  eapply within_bind; [apply within_emit_then, (within_ret _ (fun _ => True)); done|].
  intros ? _. apply within_to_csv. repeat constructor.
Qed.

Lemma within_upload_data (file : path) :
  file ∈ [val_path; train_path] ->
  within p (upload_data (mkSession (boto_region_name p) (default_bucket p)) file prefix)
    (fun _ => True).
Proof.
  intros Hfile. unfold upload_data. apply within_emit_then.
  intros w. split; [|done].
  destruct (read_file (fs w) file) as [text|e]; cbn [snd]; [|by apply footprint_same].
  assert (Hkey : s3_uri (default_bucket p) prefix (List.last file "")
                 ∈ [val_uri p; train_uri p; model_uri p]).
  { apply elem_of_cons in Hfile as [->|Hfile]; [by left|].
    apply list_elem_of_singleton in Hfile as ->. right. by left. }
  cbn [session_bucket].
  split; cbn [set_s3 fs s3 jobs endpoints]; try done.
  - intros k Hk. apply lookup_insert_ne. by intros <-.
  - intros k Hk. destruct (decide (s3_uri (default_bucket p) prefix (List.last file "") = k))
      as [<-|Hne].
    + rewrite lookup_insert_eq. by eexists.
    + by rewrite lookup_insert_ne.
Qed.

Lemma within_cell_upload :
  within p (cell_upload (mkSession (boto_region_name p) (default_bucket p)))
    (fun _ => True).
Proof.
  unfold cell_upload.
  eapply within_bind; [apply within_upload_data; repeat constructor|]. intros ? _.
  eapply within_bind; [apply within_upload_data; repeat constructor|]. intros ? _.
  by apply within_ret.
Qed.

Lemma within_cell_estimator :
  within p (cell_estimator p (mkSession (boto_region_name p) (default_bucket p))
              (execution_role p))
    (fun est => image_name est.2 = xgboost_image p /\
                output_path est.2 = output_uri p).
Proof.
  apply within_quiet; [done|]. intros w a. rewrite cell_estimator_run. by intros [= <-].
Qed.

Lemma within_cell_hyperparameters est :
  image_name est = xgboost_image p /\ output_path est = output_uri p ->
  within p (cell_hyperparameters est)
    (fun est' => image_name est' = xgboost_image p /\
                 output_path est' = output_uri p).
Proof.
  intros Himg. apply within_quiet; [done|]. intros w a [= <-]. exact Himg.
Qed.

Lemma within_cell_fit est val_loc train_loc :
  image_name est = xgboost_image p /\ output_path est = output_uri p ->
  within p (cell_fit p est val_loc train_loc)
    (fun fitted => latest_training_job fitted = Some (endpoint_name p)).
Proof.
  intros [Himg Hout]. unfold cell_fit, new_s3_input.
  eapply within_bind; [apply within_emit_then, (within_ret _ (fun _ => True)); done|].
  intros ? _.
  eapply within_bind; [apply within_emit_then, (within_ret _ (fun _ => True)); done|].
  intros ? _.
  unfold fit. eapply within_bind; [apply within_emit|]. intros _ _.
  intros w. cbn [fst snd]. rewrite Himg, Hout. fold (model_uri p).
  fold (endpoint_name p). split.
  - split; cbn [set_s3 set_jobs fs s3 jobs endpoints]; try done.
    + intros k Hk. apply lookup_insert_ne. intros <-. apply Hk.
      do 2 apply list_elem_of_further. by left.
    + intros k Hk. destruct (decide (model_uri p = k)) as [<-|Hne].
      * rewrite lookup_insert_eq. by eexists.
      * by rewrite lookup_insert_ne.
    + intros k Hk. by apply lookup_insert_ne.
    + intros k Hk. destruct (decide (endpoint_name p = k)) as [<-|Hne].
      * rewrite lookup_insert_eq. by eexists.
      * by rewrite lookup_insert_ne.
  - by intros ? [= <-].
Qed.

Lemma within_cell_deploy est :
  latest_training_job est = Some (endpoint_name p) ->
  within p (cell_deploy est) (fun pr => predictor_endpoint pr = endpoint_name p).
Proof.
  intros Hjob. unfold cell_deploy, deploy. rewrite Hjob. apply within_emit_then.
  intros w. cbn [fst snd]. split.
  - split; cbn [set_endpoints fs s3 jobs endpoints]; try done.
    intros k Hk. by apply lookup_insert_ne.
  - by intros ? [= <-].
Qed.

Lemma within_cell_predict pr parts :
  predictor_endpoint pr = endpoint_name p ->
  within p (cell_predict p pr parts)
    (fun predicted => predictor_endpoint predicted.1 = endpoint_name p).
Proof.
  intros Hname. unfold cell_predict, predict. cbn [serializer predictor_endpoint
    predictor_content_type].
  eapply within_bind.
  { eapply within_bind; [apply within_lift|]. intros body _.
    apply within_emit_then. apply (within_quiet _ (fun _ => True)); [|done].
    intros w. by destruct (endpoints w !! _ ≫= _). }
  intros answer _.
  eapply within_bind; [apply within_lift|]. intros text _.
  eapply within_bind.
  { unfold np_fromstring_call. apply within_emit_then, (within_ret _ (fun _ => True)). done. }
  intros preds _. by apply within_ret.
Qed.

Lemma within_cell_plot parts preds : within p (cell_plot parts preds) (fun _ => True).
Proof.
  unfold cell_plot, plt_scatter, plt_xlabel, plt_ylabel, plt_title.
  eapply within_bind.
  { apply within_emit_then. destruct (Nat.eqb _ _);
      [by apply (within_ret _ (fun _ => True))|apply within_raise]. }
  intros _ _.
  eapply within_bind; [apply within_emit|]. intros _ _.
  eapply within_bind; [apply within_emit|]. intros _ _.
  apply within_emit.
Qed.

Lemma within_cell_delete pr :
  predictor_endpoint pr = endpoint_name p ->
  within p (cell_delete pr) (fun _ => True).
Proof.
  intros Hname. unfold cell_delete, delete_endpoint. rewrite Hname.
  apply within_emit_then. intros w. split; [|done].
  destruct (endpoints w !! endpoint_name p); cbn [snd]; [|by apply footprint_same].
  split; cbn [set_endpoints fs s3 jobs endpoints]; try done.
  intros k Hk. by apply lookup_delete_ne.
Qed.

Lemma within_notebook_train :
  within p (notebook_train p)
    (fun trained => latest_training_job trained.2 = Some (endpoint_name p)).
Proof.
  unfold notebook_train.
  eapply within_bind; [apply within_cell_setup|]. intros env ->. cbn [fst snd].
  eapply within_bind; [apply within_cell_split|]. intros parts _.
  eapply within_bind; [apply within_cell_data_dir|]. intros _ _.
  eapply within_bind; [apply within_cell_save|]. intros _ _.
  eapply within_bind; [apply within_cell_upload|]. intros locs _.
  eapply within_bind; [apply within_cell_estimator|]. intros est Hest.
  eapply within_bind; [by apply within_cell_hyperparameters|]. intros est' Hest'.
  eapply within_bind; [by apply within_cell_fit|]. intros fitted Hfit.
  by apply within_ret.
Qed.

Lemma within_notebook : within p (notebook p) (fun _ => True).
Proof.
  unfold notebook.
  eapply within_bind; [apply within_notebook_train|].
  intros [[[[parts val_loc] train_loc] image] fitted] Hfit. cbn [snd] in Hfit.
  eapply within_bind; [by apply within_cell_deploy|]. intros pr Hpr.
  eapply within_bind; [by apply within_cell_predict|]. intros predicted Hpred.
  eapply within_bind; [apply within_cell_plot|]. intros _ _.
  eapply within_bind; [by apply within_cell_delete|]. intros _ _.
  by apply within_ret.
Qed.
End Footprint.

(** X11: whatever the platform answers and whatever state the run starts
    in, and whether or not it completes, the notebook changes nothing on the
    local file system outside ['../data'], ['../data/boston'] and its two
    CSV files, and every path that existed before the run exists after it. *)
Theorem local_writes_confined {value : Type} (p : platform value) (w : world value) :
  (forall q,
     q ∉ [[".."; "data"]; [".."; "data"; "boston"];
          [".."; "data"; "boston"; "validation.csv"];
          [".."; "data"; "boston"; "train.csv"]] ->
     fs (notebook p w).2 !! q = fs w !! q) /\
  (forall q, is_Some (fs w !! q) -> is_Some (fs (notebook p w).2 !! q)).
Proof.
  destruct (within_notebook p w) as [H _]. split.
  - apply (fs_outside _ _ _ H).
  - apply (fs_stays _ _ _ H).
Qed.

(** X12: whatever the platform answers and whatever state the run starts
    in, and whether or not it completes, the notebook and the training job
    it starts write no object to the store other than [validation.csv] and
    [train.csv] under the prefix ['boston-xgboost-deploy-hl'] of the default
    bucket and the job's [model.tar.gz] under the output location, and
    remove none; the run adds or changes no training job other than its
    own, and removes none; and it makes or deletes no endpoint under any
    other name. *)
Theorem account_writes_confined {value : Type} (p : platform value) (w : world value) :
  let w' := (notebook p w).2 in
  let name := new_job_name p (image_uri p (boto_region_name p) "xgboost" "0.90-1") in
  (forall k,
     k ∉ [("s3://" ++ default_bucket p
           ++ "/boston-xgboost-deploy-hl/validation.csv")%string;
          ("s3://" ++ default_bucket p
           ++ "/boston-xgboost-deploy-hl/train.csv")%string;
          ("s3://" ++ default_bucket p
           ++ "/boston-xgboost-deploy-hl/output/" ++ name
           ++ "/output/model.tar.gz")%string] ->
     s3 w' !! k = s3 w !! k) /\
  (forall k, is_Some (s3 w !! k) -> is_Some (s3 w' !! k)) /\
  (forall k, k <> name -> jobs w' !! k = jobs w !! k) /\
  (forall k, is_Some (jobs w !! k) -> is_Some (jobs w' !! k)) /\
  (forall k, k <> name -> endpoints w' !! k = endpoints w !! k).
Proof.
  cbv zeta. destruct (within_notebook p w) as [H _].
  split.
  { intros k Hk. apply (s3_outside _ _ _ H).
    replace (model_uri p)
      with ("s3://" ++ default_bucket p ++ "/boston-xgboost-deploy-hl/output/"
            ++ new_job_name p (image_uri p (boto_region_name p) "xgboost" "0.90-1")
            ++ "/output/model.tar.gz")%string; [exact Hk|].
    unfold model_uri, artifact_uri, output_uri, prefix, xgboost_image.
    by rewrite !string_app_assoc. }
  split; [apply (s3_stays _ _ _ H)|].
  split; [apply (jobs_outside _ _ _ H)|].
  split; [apply (jobs_stay _ _ _ H)|].
  apply (endpoints_outside _ _ _ H).
Qed.

(** ** Decoding the answer *)

Ltac range_facts :=
  unfold never_in_utf8, continuation, in_range in *;
  repeat match goal with
    | H : _ && _ = true |- _ => apply andb_true_iff in H as [? ?]
    | H : _ && _ = false |- _ => apply andb_false_iff in H
    | H : _ || _ = true |- _ => apply orb_true_iff in H as [?|?]
    | H : (_ <=? _)%N = true |- _ => apply N.leb_le in H
    | H : (_ <=? _)%N = false |- _ => apply N.leb_gt in H
    end.

Lemma utf8_valid_ascii (bs : list Byte.byte) :
  Forall (fun b => (Byte.to_N b < 128)%N) bs -> utf8_valid bs = true.
Proof.
  induction 1 as [|b bs Hb _ IH]; [done|]. cbn [utf8_valid].
  assert (in_range 0 127 b = true) as ->; [|done].
  unfold in_range. apply andb_true_iff. split; apply N.leb_le; lia.
Qed.

(** X13: an answer made of ASCII bytes only always decodes, to the text with
    exactly these characters. *)
Theorem decode_utf8_ascii (bs : list Byte.byte) :
  Forall (fun b => (Byte.to_N b < 128)%N) bs ->
  decode_utf8 bs = Ok (String.string_of_list_byte bs).
Proof. intros H. unfold decode_utf8. by rewrite utf8_valid_ascii. Qed.

Lemma decode_utf8_ascii_witness :
  decode_utf8 (String.list_byte_of_string "24.5,19.1")
  = Ok (String.string_of_list_byte (String.list_byte_of_string "24.5,19.1")).
Proof.
  apply decode_utf8_ascii. cbn. repeat (constructor; [reflexivity|]). constructor.
Defined.

Lemma utf8_valid_bytes (n : nat) (bs : list Byte.byte) :
  length bs <= n -> utf8_valid bs = true ->
  Forall (fun b => never_in_utf8 b = false) bs.
Proof.
  revert bs. induction n as [|n IH]; intros bs Hlen Hv.
  { destruct bs; [constructor|cbn in Hlen; lia]. }
  destruct bs as [|b0 rest]; [constructor|]. cbn [utf8_valid] in Hv.
  cbn [length] in Hlen.
  assert (Hgood : forall lo hi b,
            in_range lo hi b = true ->
            ((lo <= 127)%N /\ (hi <= 127)%N) \/ ((128 <= lo)%N /\ (hi <= 191)%N) \/
            ((194 <= lo)%N /\ (hi <= 244)%N) ->
            never_in_utf8 b = false).
  { intros lo hi b Hb Hr. apply not_true_is_false. intros Hn. range_facts; lia. }
  destruct (in_range 0 127 b0) eqn:H0.
  { constructor; [by eapply Hgood; [exact H0|lia]|]. apply IH; [lia|done]. }
  destruct rest as [|b1 rest1]; [done|]. cbn [length] in Hlen.
  destruct (in_range 194 223 b0) eqn:H1.
  { apply andb_true_iff in Hv as [Hc Hv].
    constructor; [by eapply Hgood; [exact H1|lia]|].
    constructor; [by eapply Hgood; [exact Hc|lia]|]. apply IH; [lia|done]. }
  destruct rest1 as [|b2 rest2]; [done|]. cbn [length] in Hlen.
  destruct (in_range 224 239 b0) eqn:H2.
  { apply andb_true_iff in Hv as [Hv Hv2]. apply andb_true_iff in Hv as [Hc1 Hc2].
    constructor; [by eapply Hgood; [exact H2|lia]|].
    constructor.
    { destruct (in_range 224 224 b0); [by eapply Hgood; [exact Hc1|lia]|].
      destruct (in_range 237 237 b0); by eapply Hgood; [exact Hc1|lia]. }
    constructor; [by eapply Hgood; [exact Hc2|lia]|]. apply IH; [lia|done]. }
  destruct rest2 as [|b3 rest3]; [done|]. cbn [length] in Hlen.
  apply andb_true_iff in Hv as [Hv Hv3]. apply andb_true_iff in Hv as [Hv Hc3].
  apply andb_true_iff in Hv as [Hv Hc2]. apply andb_true_iff in Hv as [Hb0 Hc1].
  constructor; [by eapply Hgood; [exact Hb0|lia]|].
  constructor.
  { destruct (in_range 240 240 b0); [by eapply Hgood; [exact Hc1|lia]|].
    destruct (in_range 244 244 b0); by eapply Hgood; [exact Hc1|lia]. }
  constructor; [by eapply Hgood; [exact Hc2|lia]|].
  constructor; [by eapply Hgood; [exact Hc3|lia]|]. apply IH; [lia|done].
Qed.

(** X14: an answer that holds, anywhere, one of the bytes [0xC0], [0xC1] or
    [0xF5] to [0xFF] is never decoded: [decode('utf-8')] raises
    [UnicodeDecodeError]. *)
Theorem decode_utf8_rejects (bs : list Byte.byte) (b : Byte.byte) :
  b ∈ bs -> never_in_utf8 b = true ->
  decode_utf8 bs = Raise UnicodeDecodeError.
Proof.
  intros Hin Hb. unfold decode_utf8.
  destruct (utf8_valid bs) eqn:Hv; [|done].
  pose proof (utf8_valid_bytes (length bs) bs (le_n _) Hv) as Hall.
  rewrite Forall_forall in Hall. specialize (Hall b Hin). congruence.
Qed.

Lemma decode_utf8_rejects_witness :
  decode_utf8 [Byte.x32; Byte.xff; Byte.x34] = Raise UnicodeDecodeError.
Proof.
  apply (decode_utf8_rejects _ Byte.xff); [|reflexivity].
  apply elem_of_cons. right. apply elem_of_cons. by left.
Defined.
